(** * Border support of the block editor: colour resolution and hydration

    Shallow embedding of [packages/block-editor/src/hooks/border.js].

    The JavaScript code works on untyped attribute records, so the model
    has a small universe of JavaScript values and every function is
    translated over it.  An operation that raises a [TypeError] in
    JavaScript (reading a property of [undefined] or [null], calling a
    method that the receiver does not have) returns [TypeError] in the
    [result] monad. *)

From Stdlib Require Import String Ascii List Bool Arith Lia DecimalString.
Import ListNotations.
Open Scope string_scope.

(** ** JavaScript values *)

Unset Elimination Schemes.

(** Objects are association lists: the order of the keys is observable
    ([Object.entries], the class names built by [classnames]).  Numbers
    and functions do not occur in border attributes and are left out. *)
Inductive value : Type :=
| Undefined
| Null
| Bool (b : bool)
| Str (s : string)
| Arr (xs : list value)
| Obj (fs : list (string * value)).

Set Elimination Schemes.

Definition fields := list (string * value).

(** Induction principle that reaches the values nested in arrays and
    objects. *)
Definition value_ind (P : value -> Prop)
  (HU : P Undefined) (HN : P Null)
  (HB : forall b, P (Bool b)) (HS : forall s, P (Str s))
  (HA : forall xs, Forall P xs -> P (Arr xs))
  (HO : forall fs, Forall (fun kv => P (snd kv)) fs -> P (Obj fs)) :
  forall v, P v :=
  fix F (v : value) : P v :=
    match v with
    | Undefined => HU
    | Null => HN
    | Bool b => HB b
    | Str s => HS s
    | Arr xs =>
        HA xs ((fix G (l : list value) : Forall P l :=
                  match l with
                  | [] => Forall_nil _
                  | x :: l' => Forall_cons x (F x) (G l')
                  end) xs)
    | Obj fs =>
        HO fs ((fix G (l : fields) : Forall (fun kv => P (snd kv)) l :=
                  match l with
                  | [] => Forall_nil _
                  | kv :: l' => Forall_cons kv (F (snd kv)) (G l')
                  end) fs)
    end.

(** ** Errors *)

Inductive result (A : Type) : Type :=
| Ok (a : A)
| TypeError.

Arguments Ok {A} a.
Arguments TypeError {A}.

Definition bind {A B} (m : result A) (k : A -> result B) : result B :=
  match m with
  | Ok a => k a
  | TypeError => TypeError
  end.

Notation "x <- m ;; k" := (bind m (fun x => k))
  (at level 61, m at next level, right associativity).

(** [forEach] over an array with a callback that may throw; the state is
    what the callback mutates. *)
Fixpoint forEach {S A} (f : S -> A -> result S) (l : list A) (s : S) : result S :=
  match l with
  | [] => Ok s
  | a :: l' => s' <- f s a ;; forEach f l' s'
  end.

(** ** Primitive operations *)

(** [if (v)], [!v], [!!v], [a || b]. *)
Definition truthy (v : value) : bool :=
  match v with
  | Undefined | Null => false
  | Bool b => b
  | Str s => negb (s =? "")
  | Arr _ | Obj _ => true
  end.

Definition js_or (a b : value) : value := if truthy a then a else b.

(** [a === b].  Objects and arrays are compared by identity in
    JavaScript; an attribute value and a palette entry are never the same
    allocation, so the comparison of two of them is [false]. *)
Definition strict_eq (a b : value) : bool :=
  match a, b with
  | Undefined, Undefined => true
  | Null, Null => true
  | Bool x, Bool y => Bool.eqb x y
  | Str x, Str y => x =? y
  | _, _ => false
  end.

(** Own property of an object, [undefined] when there is none. *)
Fixpoint lookup (k : string) (fs : fields) : value :=
  match fs with
  | [] => Undefined
  | (k', v) :: fs' => if k' =? k then v else lookup k fs'
  end.

(** [v.k] and [v[k]].  The property names read in this file are never an
    index or [length], so a string, boolean or array has none of them;
    properties inherited from a prototype are not modelled. *)
Definition get (v : value) (k : string) : result value :=
  match v with
  | Undefined | Null => TypeError
  | Obj fs => Ok (lookup k fs)
  | Bool _ | Str _ | Arr _ => Ok Undefined
  end.

(** [v?.k]. *)
Definition get_opt (v : value) (k : string) : value :=
  match v with
  | Obj fs => lookup k fs
  | _ => Undefined
  end.

(** [o[k] = v]: an existing key keeps its place, a new one goes last. *)
Fixpoint assign (k : string) (v : value) (fs : fields) : fields :=
  match fs with
  | [] => [(k, v)]
  | (k', v') :: fs' =>
      if k' =? k then (k, v) :: fs' else (k', v') :: assign k v fs'
  end.

Definition index_key (n : nat) : string := NilZero.string_of_uint (Nat.to_uint n).

Definition indexed (xs : list value) : fields :=
  combine (map index_key (seq 0 (length xs))) xs.

(** The own enumerable properties, as [Object.entries] lists them and as
    the spread syntax copies them. *)
Definition entries (v : value) : fields :=
  match v with
  | Obj fs => fs
  | Arr xs => indexed xs
  | Str s => indexed (map (fun c => Str (String c "")) (list_ascii_of_string s))
  | Undefined | Null | Bool _ => []
  end.

(** [{ ...base, ...v }] where [base] holds the properties written so far. *)
Definition spread (base : fields) (v : value) : fields :=
  fold_left (fun acc kv => assign (fst kv) (snd kv) acc) (entries v) base.

(** The receiver of [.some( ... )] has to be an array. *)
Definition as_array (v : value) : result (list value) :=
  match v with
  | Arr xs => Ok xs
  | _ => TypeError
  end.

(** ** Colour lookup *)

(** The inner [origin.colors.some( ... )] of [getColorByProperty]: [Some color]
    when the callback returned [true] after setting [matchedColor]. *)
Fixpoint some_color (property : string) (v : value) (colors : list value)
  : result (option value) :=
  match colors with
  | [] => Ok None
  | color :: rest =>
      x <- get color property ;;
      if strict_eq x v then Ok (Some color) else some_color property v rest
  end.

(** The outer [colors.some( ( origin ) => ... )]. *)
Fixpoint some_origin (property : string) (v : value) (origins : list value)
  : result (option value) :=
  match origins with
  | [] => Ok None
  | origin :: rest =>
      cs <- get origin "colors" ;;
      es <- as_array cs ;;
      m <- some_color property v es ;;
      match m with
      | Some color => Ok (Some color)
      | None => some_origin property v rest
      end
  end.

Definition getColorByProperty (colors : value) (property : string) (v : value)
  : result value :=
  os <- as_array colors ;;
  m <- some_origin property v os ;;
  Ok (match m with Some matchedColor => matchedColor | None => Undefined end).

(** The tail of [getMultiOriginColor], reached when no named colour was
    found. *)
Definition customColorObject (colors customColor : value) : result value :=
  if negb (truthy customColor) then Ok (Obj [("color", Undefined)])
  else
    colorObject <- getColorByProperty colors "color" customColor ;;
    Ok (if truthy colorObject then colorObject else Obj [("color", customColor)]).

(** [getMultiOriginColor( { colors, namedColor, customColor } )]; an
    argument left out is [Undefined]. *)
Definition getMultiOriginColor (colors namedColor customColor : value)
  : result value :=
  if truthy namedColor then
    colorObject <- getColorByProperty colors "slug" namedColor ;;
    if truthy colorObject then Ok colorObject
    else customColorObject colors customColor
  else customColorObject colors customColor.

(** ** Hydration *)

(** The callback of [Object.entries( sideBorderColors ).forEach] in
    [getBorderObject]. *)
Definition hydrateSide (colors : value) (hydratedBorderStyles : fields)
  (entry : string * value) : result fields :=
  let (side, namedColor) := entry in
  colorObject <- getMultiOriginColor colors namedColor Undefined ;;
  color <- get colorObject "color" ;;
  if truthy color then
    Ok (assign side
          (Obj (assign "color" color (spread [] (lookup side hydratedBorderStyles))))
          hydratedBorderStyles)
  else Ok hydratedBorderStyles.

Definition getBorderObject (attributes colors : value) : result value :=
  borderColor <- get attributes "borderColor" ;;
  sideBorderColors <- get attributes "sideBorderColors" ;;
  style <- get attributes "style" ;;
  borderStyles <- get (js_or style (Obj [])) "border" ;;
  if truthy borderColor then
    colorObject <- getMultiOriginColor colors borderColor Undefined ;;
    color <- get colorObject "color" ;;
    Ok (if truthy color
        then Obj (assign "color" color (spread [] borderStyles))
        else borderStyles)
  else if truthy sideBorderColors then
    hydratedBorderStyles <-
      forEach (hydrateSide colors) (entries sideBorderColors) (spread [] borderStyles) ;;
    Ok (Obj hydratedBorderStyles)
  else Ok borderStyles.

(** ** Functions imported from other modules *)

(** [String( v )], the conversion behind template literals and computed
    property keys. *)
Fixpoint to_string (v : value) : string :=
  match v with
  | Undefined => "undefined"
  | Null => "null"
  | Bool true => "true"
  | Bool false => "false"
  | Str s => s
  | Arr xs =>
      String.concat ","
        (map (fun x => match x with
                       | Undefined | Null => ""
                       | _ => to_string x
                       end) xs)
  | Obj _ => "[object Object]"
  end.

(** Modelled from the spec: [cleanEmptyObject] of [./utils] is not among
    the sources.  The spec has the style update "normalized by recursively
    dropping empty/undefined leaf values", so that it "contains no key
    whose value is an empty object or undefined, recursively": every
    property of an object is cleaned, a property whose cleaned value is
    [undefined] is dropped, and an object left without properties becomes
    [undefined] itself.  Any other value is returned as it is. *)
Fixpoint cleanEmptyObject (v : value) : value :=
  match v with
  | Obj fs =>
      let cleaned :=
        (fix clean_fields (l : fields) : fields :=
           match l with
           | [] => []
           | (k, x) :: l' =>
               match cleanEmptyObject x with
               | Undefined => clean_fields l'
               | y => (k, y) :: clean_fields l'
               end
           end) fs in
      match cleaned with
      | [] => Undefined
      | _ :: _ => Obj cleaned
      end
  | _ => v
  end.

(** The properties of a cleaned object, as a function of its own. *)
Fixpoint clean_fields (l : fields) : fields :=
  match l with
  | [] => []
  | (k, x) :: l' =>
      match cleanEmptyObject x with
      | Undefined => clean_fields l'
      | y => (k, y) :: clean_fields l'
      end
  end.

Definition borderSides : list string := ["top"; "right"; "bottom"; "left"].

Definition has_key (k : string) (fs : fields) : bool :=
  existsb (fun kv => fst kv =? k) fs.

(** Modelled from the spec: [hasSplitBorders] of [@wordpress/components]
    is not among the sources.  The spec has the split representation as
    "four independent SideBorders keyed by side name ([top], [right],
    [bottom], [left])" and the mode "inferred from data shape": a border
    is split when it is an object with one of the four side keys. *)
Definition hasSplitBorders (border : value) : bool :=
  match border with
  | Obj fs => existsb (fun side => has_key side fs) borderSides
  | _ => false
  end.

(** Modelled from the spec: [getColorClassName] of [../components/colors]
    is not among the sources.  The spec gives the format of the palette
    tokens, [has-{slug}-border-color] and [has-{slug}-border-{side}-color],
    present "wherever a named slug is active": no token without a slug. *)
Definition getColorClassName (colorContextName : string) (colorSlug : value) : value :=
  if truthy colorSlug
  then Str ("has-" ++ to_string colorSlug ++ "-" ++ colorContextName)
  else Undefined.

(** [classnames( { ... } )] of the npm package of that name, called on one
    object: the keys whose value is truthy, in the order of the keys,
    separated by a space. *)
Definition class_tokens (classes : fields) : list string :=
  map fst (filter (fun kv => truthy (snd kv)) classes).

Definition classnames (classes : fields) : string :=
  String.concat " " (class_tokens classes).

(** ** The border panel *)

Section HasBorderValue.

(** [isDefinedBorder] of [@wordpress/components] is not among the
    sources; [hasBorderValue] is defined for any such predicate. *)
Variable isDefinedBorder : value -> bool.

Definition hasBorderValue (props : value) : result bool :=
  attributes <- get props "attributes" ;;
  borderColor <- get attributes "borderColor" ;;
  sideBorderColors <- get attributes "sideBorderColors" ;;
  style <- get attributes "style" ;;
  Ok (isDefinedBorder (get_opt style "border")
      || truthy borderColor
      || truthy sideBorderColors).

End HasBorderValue.

(** [resetBorder( { attributes = {}, setAttributes } )]: the result is the
    object handed to [setAttributes]. *)
Definition resetBorder (props : value) : result value :=
  given <- get props "attributes" ;;
  let attributes := match given with Undefined => Obj [] | _ => given end in
  style <- get attributes "style" ;;
  Ok (Obj [ ("borderColor", Undefined);
            ("sideBorderColors", Undefined);
            ("style",
              Obj (assign "border"
                     (cleanEmptyObject
                        (Obj [("radius", get_opt (get_opt style "border") "radius")]))
                     (spread [] style))) ]).

(** [target[ side ].color = undefined] on the object stored under [side]. *)
Definition clear_color (side : string) (target : fields) : result fields :=
  match lookup side target with
  | Obj fs => Ok (assign side (Obj (assign "color" Undefined fs)) target)
  | _ => TypeError
  end.

(** The callback of [borderSides.forEach] in [onBorderChange]; the state
    is the pair of [newBorderStyles] and [newSideBorderColors]. *)
Definition nameSideColor (colors newBorder : value) (st : fields * fields)
  (side : string) : result (fields * fields) :=
  let (newBorderStyles, newSideBorderColors) := st in
  sideBorder <- get newBorder side ;;
  if truthy (get_opt sideBorder "color") then
    colorObject <- getMultiOriginColor colors Undefined (get_opt sideBorder "color") ;;
    slug <- get colorObject "slug" ;;
    if truthy slug then
      cleared <- clear_color side newBorderStyles ;;
      Ok (cleared, assign side slug newSideBorderColors)
    else Ok st
  else Ok st.

(** The three variables that [onBorderChange] sets before it builds the
    style: [newBorderStyles], [newBorderColor], [newSideBorderColors]. *)
Record namedColors : Type := {
  newBorderStyles : fields;
  newBorderColor : value;
  newSideBorderColors : value
}.

(** The first part of [onBorderChange], which filters the named colours
    out of the new border: the split case, the flat case with a colour,
    and the case in which nothing is named. *)
Definition filterNamedColors (colors newBorder : value) : result namedColors :=
  if hasSplitBorders newBorder then
    top <- get newBorder "top" ;;
    right <- get newBorder "right" ;;
    bottom <- get newBorder "bottom" ;;
    left <- get newBorder "left" ;;
    st <- forEach (nameSideColor colors newBorder) borderSides
            ([ ("top", Obj (spread [] top));
               ("right", Obj (spread [] right));
               ("bottom", Obj (spread [] bottom));
               ("left", Obj (spread [] left)) ], []) ;;
    Ok {| newBorderStyles := fst st;
          newBorderColor := Undefined;
          newSideBorderColors := Obj (snd st) |}
  else if truthy (get_opt newBorder "color") then
    let customColor := get_opt newBorder "color" in
    colorObject <- getMultiOriginColor colors Undefined customColor ;;
    slug <- get colorObject "slug" ;;
    if truthy slug then
      Ok {| newBorderStyles := assign "color" Undefined (spread [] newBorder);
            newBorderColor := slug;
            newSideBorderColors := Undefined |}
    else
      Ok {| newBorderStyles := spread [] newBorder;
            newBorderColor := Undefined;
            newSideBorderColors := Undefined |}
  else
    Ok {| newBorderStyles := spread [] newBorder;
          newBorderColor := Undefined;
          newSideBorderColors := Undefined |}.

(** [onBorderChange( newBorder )] inside [BorderPanel], with the [style]
    attribute and the [colors] it closes over; the result is the object
    handed to [setAttributes]. *)
Definition onBorderChange (style colors newBorder : value) : result value :=
  named <- filterNamedColors colors newBorder ;;
  let radius := get_opt (get_opt style "border") "radius" in
  let newStyle :=
    cleanEmptyObject
      (Obj (assign "border"
              (Obj (spread [("radius", radius)] (Obj (newBorderStyles named))))
              (spread [] style))) in
  Ok (Obj [ ("style", newStyle);
            ("borderColor", newBorderColor named);
            ("sideBorderColors", newSideBorderColors named) ]).

(** ** Class names *)

(** The callback of [borderSides.reduce] in [getSideBorderClasses]. *)
Definition sideBorderClass (sideBorderColors style : value) (classes : fields)
  (side : string) : fields :=
  let color := get_opt sideBorderColors side in
  let hasColor := js_or color (get_opt (get_opt (get_opt style "border") side) "color") in
  let baseClassName := "border-" ++ side ++ "-color" in
  let colorClass := getColorClassName baseClassName color in
  assign (to_string colorClass) (Bool (truthy colorClass))
    (assign ("has-" ++ baseClassName) hasColor (spread [] (Obj classes))).

Definition getSideBorderClasses (attributes : value) : result fields :=
  sideBorderColors <- get attributes "sideBorderColors" ;;
  style <- get attributes "style" ;;
  Ok (fold_left (sideBorderClass sideBorderColors style) borderSides []).

Definition getBorderClasses (attributes : value) : result string :=
  borderColor <- get attributes "borderColor" ;;
  style <- get attributes "style" ;;
  let borderColorClass := getColorClassName "border-color" borderColor in
  sideClasses <- getSideBorderClasses attributes ;;
  Ok (classnames
        (spread
           (assign (to_string borderColorClass) (Bool (truthy borderColorClass))
              [ ("has-border-color",
                  js_or borderColor (get_opt (get_opt style "border") "color")) ])
           (Obj sideClasses))).

(** ** Well-formed inputs *)

Definition nullish (v : value) : bool :=
  match v with
  | Undefined | Null => true
  | _ => false
  end.

(** The value is a record: an object, or nothing at all. *)
Definition is_record (v : value) : bool :=
  match v with
  | Obj _ | Undefined => true
  | _ => false
  end.

(** A JavaScript object has every key once; [well_formed] says so of an
    association list and of everything nested in it. *)
Fixpoint unique_keys (fs : fields) : bool :=
  match fs with
  | [] => true
  | (k, _) :: fs' => negb (has_key k fs') && unique_keys fs'
  end.

Fixpoint well_formed (v : value) : bool :=
  match v with
  | Arr xs => forallb well_formed xs
  | Obj fs => unique_keys fs && forallb (fun kv => well_formed (snd kv)) fs
  | _ => true
  end.

(** The colour entries of an origin, and what makes a list of origins one
    the lookup can scan: every origin has an array [colors] and no entry
    of it is [undefined] or [null]. *)
Definition origin_colors (origin : value) : list value :=
  match get_opt origin "colors" with
  | Arr es => es
  | _ => []
  end.

Definition is_origin (origin : value) : bool :=
  match get_opt origin "colors" with
  | Arr es => forallb (fun e => negb (nullish e)) es
  | _ => false
  end.

Definition is_palette (colors : value) : bool :=
  match colors with
  | Arr os => forallb is_origin os
  | _ => false
  end.

Definition palette_origins (colors : value) : list value :=
  match colors with
  | Arr os => os
  | _ => []
  end.

(** All entries in search order: origin by origin, each in its own order. *)
Definition palette_entries (colors : value) : list value :=
  flat_map origin_colors (palette_origins colors).

Definition has_property (property : string) (v : value) (e : value) : bool :=
  strict_eq (get_opt e property) v.

Definition first_match (property : string) (v : value) (es : list value) : value :=
  match find (has_property property v) es with
  | Some e => e
  | None => Undefined
  end.

(** [getMultiOriginColor] without the error monad, for a palette that is
    known to be well formed. *)
Definition resolveColor (colors namedColor customColor : value) : value :=
  let byColor :=
    if truthy customColor then
      let m := first_match "color" customColor (palette_entries colors) in
      if truthy m then m else Obj [("color", customColor)]
    else Obj [("color", Undefined)] in
  if truthy namedColor then
    let m := first_match "slug" namedColor (palette_entries colors) in
    if truthy m then m else byColor
  else byColor.

(** ** What an edit names *)

(** The slug that a search by literal colour recovers, [undefined] when
    there is no colour or no entry with a slug has it. *)
Definition literal_slug (colors c : value) : value :=
  if truthy c then js_or (get_opt (resolveColor colors Undefined c) "slug") Undefined
  else Undefined.

Definition side_slug (colors newBorder : value) (side : string) : value :=
  literal_slug colors (get_opt (get_opt newBorder side) "color").

(** The copy of one side that a split edit stores, and the four of them. *)
Definition split_side_style (colors newBorder : value) (side : string) : value :=
  let copy := spread [] (get_opt newBorder side) in
  Obj (if truthy (side_slug colors newBorder side)
       then assign "color" Undefined copy
       else copy).

Definition split_styles (colors newBorder : value) : fields :=
  map (fun side => (side, split_side_style colors newBorder side)) borderSides.

(** The sides a split edit names, with their slugs. *)
Definition split_names (colors newBorder : value) : fields :=
  flat_map (fun side =>
              if truthy (side_slug colors newBorder side)
              then [(side, side_slug colors newBorder side)]
              else []) borderSides.

(** The style a flat edit stores. *)
Definition flat_styles (colors newBorder : value) : fields :=
  if truthy (literal_slug colors (get_opt newBorder "color"))
  then assign "color" Undefined (spread [] newBorder)
  else spread [] newBorder.

(** The object [onBorderChange] cleans into the new style. *)
Definition style_with_border (style : value) (border : fields) : value :=
  Obj (assign "border"
         (Obj (spread [("radius", get_opt (get_opt style "border") "radius")] (Obj border)))
         (spread [] style)).

Definition edited_styles (colors newBorder : value) : fields :=
  if hasSplitBorders newBorder then split_styles colors newBorder
  else flat_styles colors newBorder.

Definition edited_borderColor (colors newBorder : value) : value :=
  if hasSplitBorders newBorder then Undefined
  else literal_slug colors (get_opt newBorder "color").

Definition edited_sideBorderColors (colors newBorder : value) : value :=
  if hasSplitBorders newBorder then Obj (split_names colors newBorder)
  else Undefined.

(** ** What hydration overlays *)

(** The literal colour a slug resolves to, [undefined] when it resolves
    to none. *)
Definition resolved_color (colors namedColor : value) : value :=
  get_opt (resolveColor colors namedColor Undefined) "color".

(** [{ ...stored, color }]. *)
Definition with_color (color stored : value) : value :=
  Obj (assign "color" color (spread [] stored)).

Definition hydrate_side (colors : value) (hydrated : fields) (entry : string * value)
  : fields :=
  let color := resolved_color colors (snd entry) in
  if truthy color
  then assign (fst entry) (with_color color (lookup (fst entry) hydrated)) hydrated
  else hydrated.

(** ** Normal form of a style *)

Definition is_undefined (v : value) : bool :=
  match v with
  | Undefined => true
  | _ => false
  end.

Definition is_empty_object (v : value) : bool :=
  match v with
  | Obj [] => true
  | _ => false
  end.

(** No key of the object, at any depth of nested objects, has the value
    [undefined] or [{}].  An array is a value of its own: the keys are
    those of objects. *)
Fixpoint normalized (v : value) : bool :=
  match v with
  | Obj fs =>
      forallb (fun kv => negb (is_undefined (snd kv))
                         && negb (is_empty_object (snd kv))
                         && normalized (snd kv)) fs
  | _ => true
  end.

(** ** Class tokens *)

(** The tokens of one facet, the flat border or a side, as the spec lists
    them: the fixed token when the facet has a slug or a literal colour,
    and the palette token when it has a slug. *)
Definition facet_tokens (context : string) (slug literal : value) : list string :=
  List.app
    (if truthy (js_or slug literal) then ["has-" ++ context] else [])
    (if truthy slug then ["has-" ++ to_string slug ++ "-" ++ context] else []).

Definition border_tokens (attributes : value) : list string :=
  let border := get_opt (get_opt attributes "style") "border" in
  List.app
    (facet_tokens "border-color" (get_opt attributes "borderColor") (get_opt border "color"))
    (flat_map (fun side =>
                 facet_tokens ("border-" ++ side ++ "-color")
                   (get_opt (get_opt attributes "sideBorderColors") side)
                   (get_opt (get_opt border side) "color")) borderSides).

(** The properties an object literal writes, one after the other. *)
Definition build (writes base : fields) : fields :=
  fold_left (fun acc kv => assign (fst kv) (snd kv) acc) writes base.

(** The two properties written for a facet. *)
Definition facet_writes (context : string) (slug literal : value) : fields :=
  [ ("has-" ++ context, js_or slug literal);
    (to_string (getColorClassName context slug),
     Bool (truthy (getColorClassName context slug))) ].

Definition side_writes (sideBorderColors style : value) (side : string) : fields :=
  facet_writes ("border-" ++ side ++ "-color")
    (get_opt sideBorderColors side)
    (get_opt (get_opt (get_opt style "border") side) "color").

(** Two writes of the same key are both of a falsy value. *)
Definition no_clash (writes : fields) : Prop :=
  ForallOrdPairs (fun a b => fst a = fst b ->
                             truthy (snd a) = false /\ truthy (snd b) = false) writes.

(** The last [n] characters of a string, all of a shorter one. *)
Fixpoint tail (n : nat) (s : string) : string :=
  match s with
  | EmptyString => EmptyString
  | String c s' => if Nat.ltb (String.length s') n then s else tail n s'
  end.

(** ** Round trip *)

(** The colours a border shows: the flat one and those of the four
    sides. *)
Definition effective_colors (border : value) : list value :=
  get_opt border "color"
  :: map (fun side => get_opt (get_opt border side) "color") borderSides.

(** A literal colour: a string in the data model, or none; anything but
    an object will do. *)
Definition is_color (v : value) : bool :=
  match v with
  | Obj _ => false
  | _ => true
  end.

(** A border value of the data model: a record whose colour and whose
    sides' colours are literal colours, the sides being records, and
    which has no flat colour when it has a side. *)
Definition border_value (border : value) : bool :=
  is_record border
  && is_color (get_opt border "color")
  && forallb (fun side => is_record (get_opt border side)
                          && is_color (get_opt (get_opt border side) "color")) borderSides
  && (negb (hasSplitBorders border) || is_undefined (get_opt border "color")).

(** Every entry with a slug has a string for it, and the first entry with
    that slug has the same colour: the slug determines the colour. *)
Definition slug_determines_color (es : list value) (e : value) : bool :=
  match get_opt e "slug" with
  | Str s =>
      strict_eq (get_opt (first_match "slug" (Str s) es) "color") (get_opt e "color")
  | v => negb (truthy v)
  end.

Definition slugs_determine_colors (colors : value) : bool :=
  forallb (slug_determines_color (palette_entries colors)) (palette_entries colors).

(** [hydrate], [onEdit] on the hydrated border, and [hydrate] again on the
    whole update. *)
Definition rehydrate (attributes colors : value) : result value :=
  hydrated <- getBorderObject attributes colors ;;
  update <- onBorderChange (get_opt attributes "style") colors hydrated ;;
  getBorderObject update colors.

(** The same, with only the style of the update as the new attributes. *)
Definition rehydrate_style (attributes colors : value) : result value :=
  hydrated <- getBorderObject attributes colors ;;
  update <- onBorderChange (get_opt attributes "style") colors hydrated ;;
  getBorderObject (Obj [("style", get_opt update "style")]) colors.

(** ** The radius *)





(** ** Example data *)

Definition primary_entry : value :=
  Obj [("slug", Str "primary"); ("color", Str "#111111")].

Definition theme_origins : value :=
  Arr [Obj [("name", Str "theme"); ("colors", Arr [primary_entry])]].

Definition unnamed_entry : value :=
  Obj [("slug", Str ""); ("color", Str "#111111")].

Definition unnamed_origins : value :=
  Arr [Obj [("name", Str "theme"); ("colors", Arr [unnamed_entry])]].

(** The attributes of the examples of the spec. *)
Definition flat_named_attributes : value :=
  Obj [("borderColor", Str "primary")].

Definition side_named_attributes : value :=
  Obj [ ("sideBorderColors", Obj [("top", Str "primary")]);
        ("style", Obj [("border", Obj [("top", Obj [("width", Str "2px")])])]) ].

Definition split_edit : value :=
  Obj [ ("top", Obj [("color", Str "#111111")]);
        ("right", Obj []); ("bottom", Obj []); ("left", Obj []) ].

(** An origin that lacks its [colors]. *)
Definition partial_origins : value :=
  Arr [Obj [("name", Str "theme")]].

(** A prior style with a radius, and a flat edit. *)
Definition rounded_style : value :=
  Obj [("border", Obj [("radius", Str "4px")])].


(** A split edit without a colour, and prior attributes without a border. *)
Definition colorless_split_edit : value :=
  Obj [("top", Obj []); ("right", Obj []); ("bottom", Obj []); ("left", Obj [])].

Definition bordered_props : value :=
  Obj [("attributes",
        Obj [ ("borderColor", Str "primary");
              ("style", Obj [ ("color", Obj [("text", Str "#000000")]);
                              ("border", Obj [("radius", Str "4px"); ("width", Str "1px")]) ]) ])].

(** A block with a named flat colour, a named top colour and a literal
    left colour. *)
Definition classy_attributes : value :=
  Obj [ ("borderColor", Str "primary");
        ("sideBorderColors", Obj [("top", Str "accent")]);
        ("style", Obj [("border", Obj [("left", Obj [("color", Str "#ffffff")])])]) ].

(** Two origins that give the slug [accent] two colours. *)
Definition ambiguous_origins : value :=
  Arr [ Obj [("name", Str "default");
             ("colors", Arr [Obj [("slug", Str "accent"); ("color", Str "#222222")]])];
        Obj [("name", Str "theme");
             ("colors", Arr [Obj [("slug", Str "accent"); ("color", Str "#111111")];
                             primary_entry])] ].

(** A stored border with a flat colour and a side colour at once. *)
Definition mixed_attributes : value :=
  Obj [("style",
        Obj [("border", Obj [ ("color", Str "#ff0000");
                              ("top", Obj [("color", Str "#00ff00")]) ])])].

(** ** Block support *)

(** [hasBorderSupport( blockName, feature )].  [os] is [Platform.OS] and
    [support] is what [getBlockSupport( blockName, BORDER_SUPPORT_KEY )]
    returns; neither is among the sources. *)
Definition hasBorderSupport (os : string) (support : value) (feature : string) : bool :=
  if negb (os =? "web") then false
  else if strict_eq support (Bool true) then true
  else if feature =? "any" then
    truthy (js_or (js_or (js_or (get_opt support "color") (get_opt support "radius"))
                     (get_opt support "width"))
              (get_opt support "style"))
  else truthy (get_opt support feature).

(** [shouldSkipSerialization( blockType )], on the same [support]. *)
Definition shouldSkipSerialization (support : value) : value :=
  get_opt support "__experimentalSkipSerialization".

(** [a && b]. *)
Definition js_and (a b : value) : value := if truthy a then b else a.

(** Whether [BorderPanel] renders anything but [null], for props whose
    [attributes] the function can destructure; the four settings are what
    [useSetting] returns for [border.color], [border.radius],
    [border.style] and [border.width]. *)
Definition borderPanelRenders (os : string) (support : value)
  (colorSetting radiusSetting styleSetting widthSetting : value) : bool :=
  let isSupported := hasBorderSupport os support "any" in
  let isColorSupported := js_and colorSetting (Bool (hasBorderSupport os support "color")) in
  let isRadiusSupported := js_and radiusSetting (Bool (hasBorderSupport os support "radius")) in
  let isStyleSupported := js_and styleSetting (Bool (hasBorderSupport os support "style")) in
  let isWidthSupported := js_and widthSetting (Bool (hasBorderSupport os support "width")) in
  let isDisabled :=
    forallb (fun b => b)
      [ negb (truthy isColorSupported); negb (truthy isRadiusSupported);
        negb (truthy isStyleSupported); negb (truthy isWidthSupported) ] in
  negb (isDisabled || negb isSupported).

(** ** Resetting and removing *)

(** [resetBorderFilter( newAttributes )]. *)
Definition resetBorderFilter (newAttributes : value) : result value :=
  style <- get newAttributes "style" ;;
  Ok (Obj (assign "style"
             (Obj (assign "border"
                     (Obj [("radius", get_opt (get_opt style "border") "radius")])
                     (spread [] style)))
             (assign "sideBorderColors" Undefined
                (assign "borderColor" Undefined (spread [] newAttributes))))).

(** [removeBorderAttribute( style, attribute )]. *)
Definition removeBorderAttribute (style : value) (attribute : string) : value :=
  cleanEmptyObject
    (Obj (assign "border"
            (Obj (assign attribute Undefined (spread [] (get_opt style "border"))))
            (spread [] style))).

(** ** Registration filters *)

(** [addAttributes( settings )], with the [support] that
    [getBlockSupport( settings, BORDER_SUPPORT_KEY )] returns. *)
Definition addAttributes (os : string) (support settings : value) : result value :=
  if negb (hasBorderSupport os support "color") then Ok settings
  else
    attributes <- get settings "attributes" ;;
    borderColor <- get attributes "borderColor" ;;
    sideBorderColors <- get attributes "sideBorderColors" ;;
    if truthy borderColor && truthy sideBorderColors then Ok settings
    else if negb (truthy borderColor) then
      Ok (Obj (assign "attributes"
                 (Obj (assign "borderColor" (Obj [("type", Str "string")])
                         (spread [] attributes)))
                 (spread [] settings)))
    else
      Ok (Obj (assign "attributes"
                 (Obj (assign "sideBorderColors" (Obj [("type", Str "object")])
                         (spread [] attributes)))
                 (spread [] settings))).

(** What one pass of [addAttributes] defines. *)
Definition added_attribute (afs : fields) (k : string) : value :=
  if k =? "borderColor" then
    if truthy (lookup k afs) then lookup k afs else Obj [("type", Str "string")]
  else if k =? "sideBorderColors" then
    if truthy (lookup "borderColor" afs) && negb (truthy (lookup k afs))
    then Obj [("type", Str "object")]
    else lookup k afs
  else lookup k afs.

(** What one argument of [classnames( ... )] of the npm package adds to
    its list of classes: a non-empty string itself, the truthy keys of an
    object, the class name of the elements of an array when it is not
    empty, and nothing for any other value. *)
Fixpoint class_parts (arg : value) : list string :=
  match arg with
  | Str s => if s =? "" then [] else [s]
  | Obj fs => class_tokens fs
  | Arr xs =>
      let inner := String.concat " " (flat_map class_parts xs) in
      if inner =? "" then [] else [inner]
  | Undefined | Null | Bool _ => []
  end.

Definition classnames_of (args : list value) : string :=
  String.concat " " (flat_map class_parts args).

(** [addSaveProps( props, blockType, attributes )]; [props] is an object,
    which the function changes and returns. *)
Definition addSaveProps (os : string) (support : value) (props : fields)
  (attributes : value) : result fields :=
  if negb (hasBorderSupport os support "color") || truthy (shouldSkipSerialization support)
  then Ok props
  else
    borderClasses <- getBorderClasses attributes ;;
    let newClassName := classnames_of [lookup "className" props; Str borderClasses] in
    Ok (assign "className"
          (if truthy (Str newClassName) then Str newClassName else Undefined)
          props).

(** The function that [addEditProps( settings )] stores in
    [settings.getEditWrapperProps] when the block supports border colours
    and does not skip their serialization; [existing] is the function
    that was there before, if any. *)
Definition getEditWrapperProps (os : string) (support : value)
  (existing : option (value -> result fields)) (attributes : value) : result fields :=
  props <- match existing with
           | Some existingGetEditWrapperProps => existingGetEditWrapperProps attributes
           | None => Ok []
           end ;;
  addSaveProps os support props attributes.

(** ** Palette styles of the editor *)

(** The props that [withBorderColorPaletteStyles] hands to
    [BlockListBlock], as the JSX spreads them; [colors] is what
    [useMultipleOriginColorsAndGradients] returns. *)
Definition withBorderColorPaletteStyles (os : string) (support colors props : value)
  : result value :=
  attributes <- get props "attributes" ;;
  borderColor <- get attributes "borderColor" ;;
  sideBorderColors <- get attributes "sideBorderColors" ;;
  if negb (hasBorderSupport os support "color") || truthy (shouldSkipSerialization support)
  then Ok (Obj (spread [] props))
  else
    flat <- getMultiOriginColor colors borderColor Undefined ;;
    borderColorValue <- get flat "color" ;;
    top <- getMultiOriginColor colors (get_opt sideBorderColors "top") Undefined ;;
    borderTopColor <- get top "color" ;;
    right <- getMultiOriginColor colors (get_opt sideBorderColors "right") Undefined ;;
    borderRightColor <- get right "color" ;;
    bottom <- getMultiOriginColor colors (get_opt sideBorderColors "bottom") Undefined ;;
    borderBottomColor <- get bottom "color" ;;
    left <- getMultiOriginColor colors (get_opt sideBorderColors "left") Undefined ;;
    borderLeftColor <- get left "color" ;;
    let extraStyles :=
      [ ("borderTopColor", js_or borderTopColor borderColorValue);
        ("borderRightColor", js_or borderRightColor borderColorValue);
        ("borderBottomColor", js_or borderBottomColor borderColorValue);
        ("borderLeftColor", js_or borderLeftColor borderColorValue) ] in
    wrapperProps <- get props "wrapperProps" ;;
    Ok (Obj (assign "wrapperProps"
               (Obj (assign "style"
                       (Obj (spread extraStyles (get_opt wrapperProps "style")))
                       (spread [] wrapperProps)))
               (spread [] props))).

(** The inline style that [withBorderColorPaletteStyles] sets for each
    side. *)
Definition sideStyleKeys : list (string * string) :=
  [ ("top", "borderTopColor"); ("right", "borderRightColor");
    ("bottom", "borderBottomColor"); ("left", "borderLeftColor") ].

(** The new border has no truthy colour: none on a side when it is split,
    none of its own when it is flat. *)
Definition uncolored (newBorder : value) : bool :=
  if hasSplitBorders newBorder
  then forallb (fun side => negb (truthy (get_opt (get_opt newBorder side) "color")))
         borderSides
  else negb (truthy (get_opt newBorder "color")).

(** * Properties *)

(** ** Association lists *)

Lemma lookup_head k v fs : lookup k ((k, v) :: fs) = v.
Proof. simpl. now rewrite String.eqb_refl. Qed.

Lemma lookup_assign_same k v fs : lookup k (assign k v fs) = v.
Proof.
  induction fs as [|[k' v'] fs IH]; simpl.
  - now rewrite String.eqb_refl.
  - destruct (k' =? k) eqn:E; simpl.
    + now rewrite String.eqb_refl.
    + now rewrite E.
Qed.

Lemma lookup_assign_other k k' v fs :
  k <> k' -> lookup k' (assign k v fs) = lookup k' fs.
Proof.
  intros Hne. induction fs as [|[k0 v0] fs IH]; simpl.
  - destruct (k =? k') eqn:E; [apply String.eqb_eq in E; contradiction | reflexivity].
  - destruct (k0 =? k) eqn:E; simpl.
    + apply String.eqb_eq in E. subst k0.
      destruct (k =? k') eqn:E'; [apply String.eqb_eq in E'; contradiction | reflexivity].
    + destruct (k0 =? k'); [reflexivity | exact IH].
Qed.

Lemma lookup_assign k k' v fs :
  lookup k' (assign k v fs) = if k =? k' then v else lookup k' fs.
Proof.
  destruct (k =? k') eqn:E.
  - apply String.eqb_eq in E. subst. apply lookup_assign_same.
  - apply String.eqb_neq in E. now apply lookup_assign_other.
Qed.

Lemma has_key_assign k k' v fs :
  has_key k' (assign k v fs) = (k =? k') || has_key k' fs.
Proof.
  induction fs as [|[k0 v0] fs IH]; simpl.
  - reflexivity.
  - destruct (k0 =? k) eqn:E; simpl.
    + apply String.eqb_eq in E. subst k0.
      destruct (k =? k'); reflexivity.
    + rewrite IH. destruct (k0 =? k'), (k =? k'); reflexivity.
Qed.

Lemma has_key_false_lookup k fs : has_key k fs = false -> lookup k fs = Undefined.
Proof.
  induction fs as [|[k0 v0] fs IH]; simpl; [reflexivity|].
  destruct (k0 =? k); simpl; [discriminate | exact IH].
Qed.

Lemma unique_keys_assign k v fs :
  unique_keys fs = true -> unique_keys (assign k v fs) = true.
Proof.
  induction fs as [|[k0 v0] fs IH]; simpl; [reflexivity|].
  intros H. apply andb_true_iff in H. destruct H as [Hk Hu].
  destruct (k0 =? k) eqn:E; simpl.
  - apply String.eqb_eq in E. subst k0. now rewrite Hk, Hu.
  - rewrite has_key_assign, IH by assumption.
    rewrite String.eqb_sym, E. simpl. now rewrite Hk.
Qed.

Lemma assign_fresh k v fs :
  has_key k fs = false -> assign k v fs = (fs ++ [(k, v)])%list.
Proof.
  induction fs as [|[k0 v0] fs IH]; simpl; [reflexivity|].
  destruct (k0 =? k); simpl; [discriminate|].
  intros H. now rewrite IH.
Qed.

(** Copying an object whose keys are unique gives the same list. *)
Lemma spread_onto base fs :
  unique_keys (base ++ fs)%list = true ->
  fold_left (fun acc kv => assign (fst kv) (snd kv) acc) fs base = (base ++ fs)%list.
Proof.
  revert base. induction fs as [|[k v] fs IH]; intros base H; simpl.
  - now rewrite app_nil_r.
  - assert (Hk : has_key k base = false).
    { clear IH. induction base as [|[k0 v0] base IHb]; simpl in *; [reflexivity|].
      apply andb_true_iff in H. destruct H as [H1 H2].
      rewrite (IHb H2), orb_false_r.
      unfold has_key in H1. rewrite existsb_app in H1. simpl in H1.
      apply negb_true_iff in H1. apply orb_false_iff in H1. destruct H1 as [_ H1].
      apply orb_false_iff in H1. destruct H1 as [H1 _].
      now rewrite String.eqb_sym. }
    rewrite (assign_fresh _ _ _ Hk).
    rewrite IH; rewrite <- app_assoc; simpl; [reflexivity | exact H].
Qed.

Lemma spread_object fs : unique_keys fs = true -> spread [] (Obj fs) = fs.
Proof. intros H. unfold spread. simpl. now rewrite spread_onto. Qed.


(** ** Reading properties *)

Lemma get_defined v k : nullish v = false -> get v k = Ok (get_opt v k).
Proof. destruct v; simpl; intros H; try discriminate; reflexivity. Qed.

Lemma strict_eq_Str x s : strict_eq x (Str s) = true <-> x = Str s.
Proof.
  destruct x; simpl; split; intros H; try discriminate.
  - apply String.eqb_eq in H. now subst.
  - injection H as ->. apply String.eqb_refl.
Qed.

Lemma strict_eq_truthy x v : strict_eq x v = true -> truthy v = true -> truthy x = true.
Proof.
  destruct x, v; simpl; intros H T; try discriminate; auto.
  - apply Bool.eqb_prop in H. now subst.
  - apply String.eqb_eq in H. now subst.
Qed.

Lemma has_property_object p v e :
  has_property p v e = true -> truthy v = true -> exists fs, e = Obj fs.
Proof.
  unfold has_property. intros H T.
  pose proof (strict_eq_truthy _ _ H T) as Hx.
  destruct e; simpl in Hx; try discriminate. now exists fs.
Qed.

(** ** The palette scan *)

Lemma some_color_find p v es :
  forallb (fun e => negb (nullish e)) es = true ->
  some_color p v es = Ok (find (has_property p v) es).
Proof.
  induction es as [|e es IH]; simpl; [reflexivity|].
  intros H. apply andb_true_iff in H. destruct H as [He Hes].
  apply negb_true_iff in He. rewrite (get_defined _ _ He). simpl.
  unfold has_property at 1.
  destruct (strict_eq (get_opt e p) v); [reflexivity | now apply IH].
Qed.

Lemma is_origin_colors o :
  is_origin o = true ->
  get o "colors" = Ok (Arr (origin_colors o))
  /\ forallb (fun e => negb (nullish e)) (origin_colors o) = true.
Proof.
  unfold is_origin, origin_colors. intros H.
  destruct o; simpl in *; try discriminate.
  destruct (lookup "colors" fs); try discriminate. now split.
Qed.

Lemma find_app_first {A} (f : A -> bool) l1 l2 :
  find f (l1 ++ l2)%list = match find f l1 with Some x => Some x | None => find f l2 end.
Proof.
  induction l1 as [|x l1 IH]; simpl; [reflexivity|].
  destruct (f x); [reflexivity | exact IH].
Qed.

Lemma some_origin_find p v os :
  forallb is_origin os = true ->
  some_origin p v os = Ok (find (has_property p v) (flat_map origin_colors os)).
Proof.
  induction os as [|o os IH]; simpl; [reflexivity|].
  intros H. apply andb_true_iff in H. destruct H as [Ho Hos].
  destruct (is_origin_colors _ Ho) as [Hget Hes].
  rewrite Hget. simpl. rewrite (some_color_find _ _ _ Hes). simpl.
  rewrite find_app_first.
  destruct (find (has_property p v) (origin_colors o)); [reflexivity | now apply IH].
Qed.

Lemma getColorByProperty_palette colors p v :
  is_palette colors = true ->
  getColorByProperty colors p v = Ok (first_match p v (palette_entries colors)).
Proof.
  unfold is_palette, getColorByProperty, first_match, palette_entries.
  destruct colors; try discriminate. intros H. simpl.
  rewrite (some_origin_find _ _ _ H). reflexivity.
Qed.

Lemma getMultiOriginColor_palette colors namedColor customColor :
  is_palette colors = true ->
  getMultiOriginColor colors namedColor customColor
  = Ok (resolveColor colors namedColor customColor).
Proof.
  intros H. unfold getMultiOriginColor, customColorObject, resolveColor.
  rewrite !(getColorByProperty_palette _ _ _ H).
  destruct (truthy namedColor); simpl;
    repeat match goal with
      | |- context [truthy ?x] => destruct (truthy x); simpl
      end; reflexivity.
Qed.

Lemma first_match_found p v es e :
  find (has_property p v) es = Some e -> truthy v = true ->
  first_match p v es = e /\ truthy e = true.
Proof.
  intros H T. unfold first_match. rewrite H. split; [reflexivity|].
  apply find_some in H. destruct H as [_ H].
  destruct (has_property_object _ _ _ H T) as [fs ->]. reflexivity.
Qed.

Lemma first_match_none p v es :
  find (has_property p v) es = None -> first_match p v es = Undefined.
Proof. intros H. unfold first_match. now rewrite H. Qed.

(** The first match of a scan over origins, located: the origins before
    its origin hold no match, and neither do the entries before it. *)
Lemma find_flat_map_first {A B} (f : B -> bool) (g : A -> list B) os e :
  find f (flat_map g os) = Some e ->
  exists os1 o os2 es1 es2,
    os = (os1 ++ o :: os2)%list /\ g o = (es1 ++ e :: es2)%list
    /\ Forall (fun o' => Forall (fun e' => f e' = false) (g o')) os1
    /\ Forall (fun e' => f e' = false) es1
    /\ f e = true.
Proof.
  induction os as [|o os IH]; simpl; [discriminate|].
  rewrite find_app_first. destruct (find f (g o)) eqn:E.
  - intros [= ->]. clear IH.
    assert (Hd : exists es1 es2, g o = (es1 ++ e :: es2)%list
                   /\ Forall (fun e' => f e' = false) es1 /\ f e = true).
    { revert E. generalize (g o). intros l. induction l as [|x l IHl]; simpl; [discriminate|].
      destruct (f x) eqn:Fx.
      - intros [= ->]. exists [], l. repeat split; auto.
      - intros H. destruct (IHl H) as (es1 & es2 & -> & H1 & H2).
        exists (x :: es1), es2. repeat split; auto. }
    destruct Hd as (es1 & es2 & Hg & H1 & H2).
    exists [], o, os, es1, es2. repeat split; auto.
  - intros H. destruct (IH H) as (os1 & o' & os2 & es1 & es2 & -> & Hg & H1 & H2 & H3).
    exists (o :: os1), o', os2, es1, es2. repeat split; auto.
    constructor; [|exact H1].
    apply Forall_forall. intros x Hx.
    destruct (f x) eqn:Fx; [|reflexivity].
    pose proof (find_none _ _ E _ Hx) as Hn. congruence.
Qed.

Lemma find_flat_map_some {A B} (f : B -> bool) (g : A -> list B) os o e :
  In o os -> In e (g o) -> f e = true -> exists e', find f (flat_map g os) = Some e'.
Proof.
  intros Ho He Hf.
  destruct (find f (flat_map g os)) eqn:E; [now eexists|].
  exfalso. assert (Hin : In e (flat_map g os)) by (apply in_flat_map; eauto).
  pose proof (find_none _ _ E _ Hin). congruence.
Qed.

(** ** Resolving a colour *)

(** C1, as amended: for a well-formed list of origins and a slug that is
    not the empty string and occurs as the slug of an entry of an origin,
    [getMultiOriginColor] returns the first entry with that slug of the
    first origin that has one; the entry is returned as it is, so its
    slug and its literal colour are those of the palette. *)
Theorem resolve_named_first_origin (os : list value) (s : string) (customColor : value) :
  is_palette (Arr os) = true ->
  s <> "" ->
  (exists o e, In o os /\ In e (origin_colors o) /\ get_opt e "slug" = Str s) ->
  exists os1 o os2 es1 e es2,
    os = (os1 ++ o :: os2)%list
    /\ origin_colors o = (es1 ++ e :: es2)%list
    /\ Forall (fun o' => Forall (fun e' => get_opt e' "slug" <> Str s) (origin_colors o')) os1
    /\ Forall (fun e' => get_opt e' "slug" <> Str s) es1
    /\ get_opt e "slug" = Str s
    /\ getMultiOriginColor (Arr os) (Str s) customColor = Ok e.
Proof.
  intros Hp Hs (o0 & e0 & Ho & He & Hslug).
  assert (T : truthy (Str s) = true).
  { simpl. apply negb_true_iff. now apply String.eqb_neq. }
  destruct (find_flat_map_some (has_property "slug" (Str s)) origin_colors os o0 e0 Ho He)
    as [e Hfind].
  { unfold has_property. now apply strict_eq_Str. }
  destruct (find_flat_map_first _ _ _ _ Hfind)
    as (os1 & o & os2 & es1 & es2 & Hos & Hes & H1 & H2 & H3).
  exists os1, o, os2, es1, e, es2.
  assert (Hno : forall x, has_property "slug" (Str s) x = false -> get_opt x "slug" <> Str s).
  { intros x Hx Heq. unfold has_property in Hx.
    apply strict_eq_Str in Heq. congruence. }
  repeat split; auto.
  - eapply Forall_impl; [|exact H1]. intros a Ha.
    eapply Forall_impl; [|exact Ha]. exact Hno.
  - eapply Forall_impl; [|exact H2]. exact Hno.
  - now apply strict_eq_Str.
  - rewrite (getMultiOriginColor_palette _ _ _ Hp). unfold resolveColor.
    rewrite T. change (palette_entries (Arr os)) with (flat_map origin_colors os).
    destruct (first_match_found _ _ _ _ Hfind T) as [-> ->]. reflexivity.
Qed.

Lemma resolve_named_first_origin_witness :
  exists os1 o os2 es1 e es2,
    [Obj [("name", Str "theme"); ("colors", Arr [primary_entry])]] = (os1 ++ o :: os2)%list
    /\ origin_colors o = (es1 ++ e :: es2)%list
    /\ Forall (fun o' => Forall (fun e' => get_opt e' "slug" <> Str "primary")
                           (origin_colors o')) os1
    /\ Forall (fun e' => get_opt e' "slug" <> Str "primary") es1
    /\ get_opt e "slug" = Str "primary"
    /\ getMultiOriginColor theme_origins (Str "primary") Undefined = Ok e.
Proof.
  apply (resolve_named_first_origin
           [Obj [("name", Str "theme"); ("colors", Arr [primary_entry])]]
           "primary" Undefined).
  - reflexivity.
  - discriminate.
  - exists (Obj [("name", Str "theme"); ("colors", Arr [primary_entry])]), primary_entry.
    simpl. auto.
Defined.

(** C1 as the spec states it fails for the empty slug: the entry of
    [unnamed_origins] has the slug [""], and looking that slug up returns
    no colour at all instead of the entry. *)
Lemma resolve_named_empty_slug :
  is_palette unnamed_origins = true
  /\ In unnamed_entry (palette_entries unnamed_origins)
  /\ get_opt unnamed_entry "slug" = Str ""
  /\ getMultiOriginColor unnamed_origins (Str "") Undefined = Ok (Obj [("color", Undefined)])
  /\ getMultiOriginColor unnamed_origins (Str "") Undefined <> Ok unnamed_entry.
Proof.
  repeat split; simpl; auto. discriminate.
Qed.

Lemma find_first {A} (f : A -> bool) l e :
  find f l = Some e ->
  exists l1 l2, l = (l1 ++ e :: l2)%list /\ Forall (fun x => f x = false) l1 /\ f e = true.
Proof.
  induction l as [|x l IH]; simpl; [discriminate|].
  destruct (f x) eqn:Fx.
  - intros [= ->]. exists [], l. repeat split; auto.
  - intros H. destruct (IH H) as (l1 & l2 & -> & H1 & H2).
    exists (x :: l1), l2. repeat split; auto.
Qed.

Lemma find_none_iff {A} (f : A -> bool) l :
  (forall x, In x l -> f x = false) -> find f l = None.
Proof.
  induction l as [|x l IH]; simpl; [reflexivity|].
  intros H. rewrite (H x) by auto. apply IH. intros y Hy. apply H. auto.
Qed.

Lemma resolveColor_unnamed colors namedColor customColor :
  truthy namedColor = false
  \/ (forall e, In e (palette_entries colors) -> has_property "slug" namedColor e = false) ->
  resolveColor colors namedColor customColor = resolveColor colors Undefined customColor.
Proof.
  intros [H|H]; unfold resolveColor; simpl.
  - now rewrite H.
  - rewrite (first_match_none _ _ _ (find_none_iff _ _ H)). simpl.
    destruct (truthy namedColor); reflexivity.
Qed.

(** C2, as amended: when [namedColor] is absent or no entry has it as its
    slug, [getMultiOriginColor] returns [{ color: undefined }] for an
    absent [customColor]; the first entry whose literal colour is
    [customColor] when [customColor] is a non-empty string that some
    entry has as its colour; and the synthetic [{ color: customColor }],
    whose slug reads [undefined], when [customColor] is a non-empty
    string that no entry has. *)
Theorem resolve_literal (colors namedColor customColor : value) :
  is_palette colors = true ->
  truthy namedColor = false
  \/ (forall e, In e (palette_entries colors) -> has_property "slug" namedColor e = false) ->
  (truthy customColor = false ->
   getMultiOriginColor colors namedColor customColor = Ok (Obj [("color", Undefined)]))
  /\ (forall c, customColor = Str c -> c <> "" ->
      (exists e0, In e0 (palette_entries colors) /\ get_opt e0 "color" = Str c) ->
      exists es1 e es2,
        palette_entries colors = (es1 ++ e :: es2)%list
        /\ Forall (fun e' => get_opt e' "color" <> Str c) es1
        /\ get_opt e "color" = Str c
        /\ getMultiOriginColor colors namedColor customColor = Ok e)
  /\ (forall c, customColor = Str c -> c <> "" ->
      (forall e, In e (palette_entries colors) -> get_opt e "color" <> Str c) ->
      getMultiOriginColor colors namedColor customColor = Ok (Obj [("color", Str c)])
      /\ get_opt (Obj [("color", Str c)]) "slug" = Undefined).
Proof.
  intros Hp Hn.
  rewrite (getMultiOriginColor_palette _ _ _ Hp), (resolveColor_unnamed _ _ _ Hn).
  unfold resolveColor. simpl. split; [|split].
  - intros ->. reflexivity.
  - intros c -> Hc (e0 & Hin & Hcol).
    assert (T : truthy (Str c) = true).
    { simpl. apply negb_true_iff. now apply String.eqb_neq. }
    destruct (find (has_property "color" (Str c)) (palette_entries colors)) as [e|] eqn:E.
    + destruct (find_first _ _ _ E) as (es1 & es2 & Hl & H1 & H2).
      exists es1, e, es2. repeat split; auto.
      * eapply Forall_impl; [|exact H1]. intros x Hx Heq.
        unfold has_property in Hx. apply strict_eq_Str in Heq. congruence.
      * now apply strict_eq_Str.
      * rewrite T. destruct (first_match_found _ _ _ _ E T) as [-> ->]. reflexivity.
    + exfalso. pose proof (find_none _ _ E _ Hin) as Hx.
      unfold has_property in Hx. apply strict_eq_Str in Hcol. congruence.
  - intros c -> Hc Hnone.
    assert (T : truthy (Str c) = true).
    { simpl. apply negb_true_iff. now apply String.eqb_neq. }
    rewrite T, first_match_none; [split; reflexivity|].
    apply find_none_iff. intros x Hx. unfold has_property.
    destruct (strict_eq (get_opt x "color") (Str c)) eqn:E; [|reflexivity].
    apply strict_eq_Str in E. now apply Hnone in E.
Qed.

Lemma resolve_literal_witness :
  exists e,
    getMultiOriginColor theme_origins Undefined (Str "#111111") = Ok e
    /\ get_opt e "color" = Str "#111111".
Proof.
  destruct (resolve_literal theme_origins Undefined (Str "#111111")
              eq_refl (or_introl eq_refl)) as (_ & H & _).
  destruct (H "#111111" eq_refl ltac:(discriminate)
              (ex_intro _ primary_entry (conj (or_introl eq_refl) eq_refl)))
    as (es1 & e & es2 & _ & _ & Hc & Hr).
  exists e. split; assumption.
Defined.

(** C2 as the spec states it fails for the empty string: no entry of
    [theme_origins] has the colour [""], and the result for that literal
    is [{ color: undefined }], not [{ color: "" }]. *)
Lemma resolve_literal_empty_color :
  (forall e, In e (palette_entries theme_origins) -> get_opt e "color" <> Str "")
  /\ getMultiOriginColor theme_origins Undefined (Str "") = Ok (Obj [("color", Undefined)])
  /\ getMultiOriginColor theme_origins Undefined (Str "") <> Ok (Obj [("color", Str "")]).
Proof.
  repeat split.
  - intros e [<-|[]]. discriminate.
  - discriminate.
Qed.

(** ** The edit, on a well-formed palette *)

Lemma resolveColor_object colors namedColor customColor :
  exists fs, resolveColor colors namedColor customColor = Obj fs.
Proof.
  unfold resolveColor.
  assert (H : forall p v, truthy v = true ->
              truthy (first_match p v (palette_entries colors)) = true ->
              exists fs, first_match p v (palette_entries colors) = Obj fs).
  { intros p v Tv. unfold first_match.
    destruct (find (has_property p v) (palette_entries colors)) eqn:E; [|discriminate].
    intros _. apply find_some in E. destruct E as [_ E].
    exact (has_property_object _ _ _ E Tv). }
  assert (Hc : exists fs,
             (if truthy customColor
              then if truthy (first_match "color" customColor (palette_entries colors))
                   then first_match "color" customColor (palette_entries colors)
                   else Obj [("color", customColor)]
              else Obj [("color", Undefined)]) = Obj fs).
  { destruct (truthy customColor) eqn:Tc; [|eauto].
    destruct (truthy (first_match "color" customColor (palette_entries colors))) eqn:Tm; eauto. }
  simpl. destruct (truthy namedColor) eqn:Tn; [|exact Hc].
  destruct (truthy (first_match "slug" namedColor (palette_entries colors))) eqn:Tm; eauto.
Qed.

Lemma get_resolveColor colors namedColor customColor k :
  get (resolveColor colors namedColor customColor) k
  = Ok (get_opt (resolveColor colors namedColor customColor) k).
Proof.
  destruct (resolveColor_object colors namedColor customColor) as [fs ->]. reflexivity.
Qed.

Lemma nameSideColor_palette colors fs styles named side o :
  is_palette colors = true ->
  lookup side styles = Obj o ->
  nameSideColor colors (Obj fs) (styles, named) side
  = Ok (if truthy (side_slug colors (Obj fs) side)
        then (assign side (Obj (assign "color" Undefined o)) styles,
              assign side (side_slug colors (Obj fs) side) named)
        else (styles, named)).
Proof.
  intros Hp Ho. unfold nameSideColor, side_slug, literal_slug, js_or. simpl.
  destruct (truthy (get_opt (lookup side fs) "color")) eqn:Tc; [|reflexivity].
  rewrite (getMultiOriginColor_palette _ _ _ Hp). simpl.
  rewrite get_resolveColor. simpl.
  destruct (truthy (get_opt (resolveColor colors Undefined (get_opt (lookup side fs) "color")) "slug"))
    eqn:Ts; [rewrite Ts|reflexivity].
  unfold clear_color. rewrite Ho. reflexivity.
Qed.

Lemma hasSplitBorders_object v : hasSplitBorders v = true -> exists fs, v = Obj fs.
Proof. destruct v; simpl; try discriminate. eauto. Qed.

Lemma filterNamedColors_split colors newBorder :
  is_palette colors = true ->
  hasSplitBorders newBorder = true ->
  filterNamedColors colors newBorder
  = Ok {| newBorderStyles := split_styles colors newBorder;
          newBorderColor := Undefined;
          newSideBorderColors := Obj (split_names colors newBorder) |}.
Proof.
  intros Hp Hs. unfold filterNamedColors. rewrite Hs.
  destruct (hasSplitBorders_object _ Hs) as [fs ->]. simpl get. cbn [bind].
  unfold split_styles, split_names, split_side_style. unfold borderSides.
  cbn [forEach map flat_map app get_opt].
  erewrite (nameSideColor_palette _ _ _ _ "top") by (try exact Hp; reflexivity).
  destruct (truthy (side_slug colors (Obj fs) "top")); cbn [bind];
  (erewrite (nameSideColor_palette _ _ _ _ "right") by (try exact Hp; reflexivity));
  destruct (truthy (side_slug colors (Obj fs) "right")); cbn [bind];
  (erewrite (nameSideColor_palette _ _ _ _ "bottom") by (try exact Hp; reflexivity));
  destruct (truthy (side_slug colors (Obj fs) "bottom")); cbn [bind];
  (erewrite (nameSideColor_palette _ _ _ _ "left") by (try exact Hp; reflexivity));
  destruct (truthy (side_slug colors (Obj fs) "left")); cbn [bind];
  reflexivity.
Qed.

Lemma filterNamedColors_flat colors newBorder :
  is_palette colors = true ->
  hasSplitBorders newBorder = false ->
  filterNamedColors colors newBorder
  = Ok {| newBorderStyles := flat_styles colors newBorder;
          newBorderColor := literal_slug colors (get_opt newBorder "color");
          newSideBorderColors := Undefined |}.
Proof.
  intros Hp Hs. unfold filterNamedColors, flat_styles, literal_slug, js_or. rewrite Hs.
  destruct (truthy (get_opt newBorder "color")) eqn:Tc; [|reflexivity].
  rewrite (getMultiOriginColor_palette _ _ _ Hp). simpl.
  rewrite get_resolveColor. simpl.
  destruct (truthy (get_opt (resolveColor colors Undefined (get_opt newBorder "color")) "slug")) eqn:Ts;
    [rewrite Ts|]; reflexivity.
Qed.

Lemma onBorderChange_palette style colors newBorder :
  is_palette colors = true ->
  onBorderChange style colors newBorder
  = Ok (Obj [ ("style",
                cleanEmptyObject (style_with_border style (edited_styles colors newBorder)));
              ("borderColor", edited_borderColor colors newBorder);
              ("sideBorderColors", edited_sideBorderColors colors newBorder) ]).
Proof.
  intros Hp. unfold onBorderChange, edited_styles, edited_borderColor,
    edited_sideBorderColors, style_with_border.
  destruct (hasSplitBorders newBorder) eqn:Hs.
  - now rewrite (filterNamedColors_split _ _ Hp Hs).
  - now rewrite (filterNamedColors_flat _ _ Hp Hs).
Qed.

(** ** Hydration, on a well-formed palette *)

Lemma get_style_border style :
  get (js_or style (Obj [])) "border" = Ok (get_opt style "border").
Proof.
  unfold js_or. destruct style as [| |[]|s| |]; simpl; try reflexivity.
  destruct (s =? ""); reflexivity.
Qed.

Lemma forEach_hydrateSide colors es h :
  is_palette colors = true ->
  forEach (hydrateSide colors) es h = Ok (fold_left (hydrate_side colors) es h).
Proof.
  intros Hp. revert h. induction es as [|[side namedColor] es IH]; intros h; simpl.
  - reflexivity.
  - rewrite (getMultiOriginColor_palette _ _ _ Hp). simpl.
    rewrite get_resolveColor. simpl.
    unfold hydrate_side, resolved_color, with_color. simpl.
    destruct (truthy (get_opt (resolveColor colors namedColor Undefined) "color"));
      apply IH.
Qed.

Lemma getBorderObject_palette attributes colors :
  is_palette colors = true ->
  nullish attributes = false ->
  getBorderObject attributes colors
  = Ok (let borderColor := get_opt attributes "borderColor" in
        let sideBorderColors := get_opt attributes "sideBorderColors" in
        let border := get_opt (get_opt attributes "style") "border" in
        if truthy borderColor then
          if truthy (resolved_color colors borderColor)
          then with_color (resolved_color colors borderColor) border
          else border
        else if truthy sideBorderColors then
          Obj (fold_left (hydrate_side colors) (entries sideBorderColors) (spread [] border))
        else border).
Proof.
  intros Hp Ha. unfold getBorderObject.
  rewrite !(get_defined _ _ Ha). cbn [bind].
  rewrite get_style_border. cbn [bind].
  destruct (truthy (get_opt attributes "borderColor")).
  - rewrite (getMultiOriginColor_palette _ _ _ Hp). cbn [bind].
    rewrite get_resolveColor. reflexivity.
  - destruct (truthy (get_opt attributes "sideBorderColors")); [|reflexivity].
    now rewrite (forEach_hydrateSide _ _ _ Hp).
Qed.

Lemma well_formed_lookup fs k : well_formed (Obj fs) = true -> well_formed (lookup k fs) = true.
Proof.
  simpl. intros H. apply andb_true_iff in H. destruct H as [_ H].
  induction fs as [|[k0 v0] fs IH]; simpl in *; [reflexivity|].
  apply andb_true_iff in H. destruct H as [H0 H].
  destruct (k0 =? k); auto.
Qed.

Lemma well_formed_get_opt v k : well_formed v = true -> well_formed (get_opt v k) = true.
Proof.
  destruct v; simpl get_opt; intros H; try reflexivity.
  now apply well_formed_lookup.
Qed.

Lemma well_formed_unique fs : well_formed (Obj fs) = true -> unique_keys fs = true.
Proof. simpl. intros H. now apply andb_true_iff in H. Qed.

Lemma spread_record v :
  is_record v = true -> well_formed v = true -> spread [] v = entries v.
Proof.
  destruct v; simpl; try discriminate; intros _ H; [reflexivity|].
  apply spread_object. now apply andb_true_iff in H.
Qed.

Lemma lookup_entries_record v k : is_record v = true -> lookup k (entries v) = get_opt v k.
Proof. destruct v; simpl; try discriminate; reflexivity. Qed.

Lemma resolved_color_absent colors : resolved_color colors Undefined = Undefined.
Proof. reflexivity. Qed.

(** Each listed side is overlaid once, every other key is kept. *)
Lemma lookup_hydrate_sides colors es h k :
  unique_keys es = true ->
  lookup k (fold_left (hydrate_side colors) es h)
  = if truthy (resolved_color colors (lookup k es))
    then with_color (resolved_color colors (lookup k es)) (lookup k h)
    else lookup k h.
Proof.
  revert h. induction es as [|[k1 s1] es IH]; intros h Hu.
  - reflexivity.
  - simpl in Hu. apply andb_true_iff in Hu. destruct Hu as [Hk Hu].
    apply negb_true_iff in Hk.
    cbn [fold_left lookup]. rewrite (IH _ Hu).
    assert (Hstep : hydrate_side colors h (k1, s1)
                    = if truthy (resolved_color colors s1)
                      then assign k1 (with_color (resolved_color colors s1) (lookup k1 h)) h
                      else h) by reflexivity.
    rewrite Hstep. clear Hstep.
    destruct (k1 =? k) eqn:E.
    + apply String.eqb_eq in E. subst k1.
      rewrite (has_key_false_lookup _ _ Hk), resolved_color_absent. cbn [truthy].
      destruct (truthy (resolved_color colors s1)); [|reflexivity].
      apply lookup_assign_same.
    + apply String.eqb_neq in E.
      destruct (truthy (resolved_color colors s1)); [|reflexivity].
      now rewrite (lookup_assign_other _ _ _ _ E).
Qed.

(** C3: what [getBorderObject] returns, case by case, for a well-formed
    palette and an attributes record whose [style.border] and
    [sideBorderColors] are objects or absent ("set" is the truth test
    the code makes).  With [borderColor] set: the stored border with its
    [color] assigned the resolved colour and every other field kept, or,
    when the slug resolves to no colour, the stored border itself.
    Otherwise with [sideBorderColors] set: every side whose slug
    resolves to a colour is the stored side with its [color] assigned
    that colour, and every other key reads as in the stored border.
    Otherwise the stored border. *)
Theorem hydrate_cases (attributes colors : value) :
  is_palette colors = true ->
  nullish attributes = false ->
  well_formed attributes = true ->
  is_record (get_opt (get_opt attributes "style") "border") = true ->
  is_record (get_opt attributes "sideBorderColors") = true ->
  let borderColor := get_opt attributes "borderColor" in
  let sideBorderColors := get_opt attributes "sideBorderColors" in
  let border := get_opt (get_opt attributes "style") "border" in
  exists hydrated,
    getBorderObject attributes colors = Ok hydrated
    /\ (truthy borderColor = true ->
        truthy (resolved_color colors borderColor) = true ->
        hydrated = Obj (assign "color" (resolved_color colors borderColor) (entries border))
        /\ forall k, get_opt hydrated k
                     = if k =? "color" then resolved_color colors borderColor
                       else get_opt border k)
    /\ (truthy borderColor = true ->
        truthy (resolved_color colors borderColor) = false ->
        hydrated = border)
    /\ (truthy borderColor = false ->
        truthy sideBorderColors = true ->
        forall side,
          get_opt hydrated side
          = if truthy (resolved_color colors (get_opt sideBorderColors side))
            then Obj (assign "color" (resolved_color colors (get_opt sideBorderColors side))
                        (spread [] (get_opt border side)))
            else get_opt border side)
    /\ (truthy borderColor = false ->
        truthy sideBorderColors = false ->
        hydrated = border).
Proof.
  intros Hp Ha Hw Hb Hs borderColor sideBorderColors border.
  subst borderColor sideBorderColors border.
  rewrite (getBorderObject_palette _ _ Hp Ha). cbv zeta.
  assert (Hwb : well_formed (get_opt (get_opt attributes "style") "border") = true)
    by now repeat apply well_formed_get_opt.
  assert (Hws : well_formed (get_opt attributes "sideBorderColors") = true)
    by now apply well_formed_get_opt.
  eexists. split; [reflexivity|].
  split; [|split; [|split]].
  - intros -> ->. unfold with_color. rewrite (spread_record _ Hb Hwb).
    split; [reflexivity|]. intros k. cbn [get_opt].
    rewrite lookup_assign, String.eqb_sym.
    now rewrite (lookup_entries_record _ _ Hb).
  - intros -> ->. reflexivity.
  - intros -> T side. rewrite T.
    destruct (get_opt attributes "sideBorderColors") as [| | | | |fs] eqn:Es; try discriminate.
    cbn [entries get_opt].
    rewrite lookup_hydrate_sides by now apply well_formed_unique.
    rewrite (spread_record _ Hb Hwb), (lookup_entries_record _ _ Hb).
    reflexivity.
  - intros -> ->. reflexivity.
Qed.

Lemma hydrate_cases_witness :
  exists hydrated,
    getBorderObject side_named_attributes theme_origins = Ok hydrated
    /\ get_opt hydrated "top" = Obj [("width", Str "2px"); ("color", Str "#111111")]
    /\ get_opt hydrated "right" = Undefined.
Proof.
  destruct (hydrate_cases side_named_attributes theme_origins
              eq_refl eq_refl eq_refl eq_refl eq_refl) as (h & H & _ & _ & H3 & _).
  exists h. split; [exact H|].
  rewrite (H3 eq_refl eq_refl "top"), (H3 eq_refl eq_refl "right"). split; reflexivity.
Defined.

(** The two hydration examples of the spec. *)
Example hydrate_flat_example :
  getBorderObject flat_named_attributes theme_origins = Ok (Obj [("color", Str "#111111")]).
Proof. reflexivity. Qed.

Example hydrate_side_example :
  getBorderObject side_named_attributes theme_origins
  = Ok (Obj [("top", Obj [("width", Str "2px"); ("color", Str "#111111")])]).
Proof. reflexivity. Qed.

(** ** Totality *)

Lemma getBorderObject_total attributes colors :
  is_palette colors = true -> nullish attributes = false ->
  exists r, getBorderObject attributes colors = Ok r.
Proof. intros Hp Ha. rewrite (getBorderObject_palette _ _ Hp Ha). eauto. Qed.

(** C8, as amended: on a list of origins in which every origin has an
    array [colors] without [undefined] or [null] entries, the lookup
    returns for every [namedColor] and [customColor], hydration returns
    for every attributes value other than [undefined] and [null], and
    the edit returns for every style and every new border that is an
    object, whatever its properties.  Fields that are absent or not of
    the expected shape count as no value: without a named and a literal
    colour the lookup gives [{ color: undefined }], and without a named
    colour hydration passes the stored border through, [undefined] when
    there is none. *)
Theorem operations_total (colors : value) :
  is_palette colors = true ->
  (forall namedColor customColor,
      exists r, getMultiOriginColor colors namedColor customColor = Ok r)
  /\ (forall attributes, nullish attributes = false ->
      exists r, getBorderObject attributes colors = Ok r)
  /\ (forall style newBorder,
      (exists fs, newBorder = Obj fs) ->
      exists r, onBorderChange style colors newBorder = Ok r)
  /\ (forall namedColor customColor,
      truthy namedColor = false -> truthy customColor = false ->
      getMultiOriginColor colors namedColor customColor = Ok (Obj [("color", Undefined)]))
  /\ (forall attributes, nullish attributes = false ->
      truthy (get_opt attributes "borderColor") = false ->
      truthy (get_opt attributes "sideBorderColors") = false ->
      getBorderObject attributes colors = Ok (get_opt (get_opt attributes "style") "border")).
Proof.
  intros Hp. split; [|split; [|split; [|split]]].
  - intros n c. rewrite (getMultiOriginColor_palette _ _ _ Hp). eauto.
  - intros a Ha. now apply getBorderObject_total.
  - intros style nb _. rewrite (onBorderChange_palette _ _ _ Hp). eauto.
  - intros n c Tn Tc. unfold getMultiOriginColor, customColorObject. now rewrite Tn, Tc.
  - intros a Ha Tb Ts. rewrite (getBorderObject_palette _ _ Hp Ha). cbv zeta.
    now rewrite Tb, Ts.
Qed.

Lemma operations_total_witness :
  (exists r, getMultiOriginColor theme_origins (Str "primary") (Arr []) = Ok r)
  /\ (exists r, getBorderObject (Str "malformed") theme_origins = Ok r)
  /\ (exists r, onBorderChange (Bool true) theme_origins
                  (Obj [("top", Str "thick"); ("color", Bool true)]) = Ok r)
  /\ getBorderObject (Obj [("style", Str "malformed")]) theme_origins = Ok Undefined.
Proof.
  destruct (operations_total theme_origins eq_refl) as (H1 & H2 & H3 & _ & H5).
  split; [apply H1|]. split; [apply H2; reflexivity|].
  split; [apply H3; eexists; reflexivity|].
  apply (H5 (Obj [("style", Str "malformed")])); reflexivity.
Defined.

(** C8 as the spec states it fails: a lookup by slug throws when the
    origins are absent or an origin lacks its [colors]; hydration throws
    when the attributes are absent, and when a named colour meets absent
    origins; the edit throws when a colour meets absent origins. *)
Lemma operations_not_total :
  getMultiOriginColor Undefined (Str "primary") Undefined = TypeError
  /\ getMultiOriginColor partial_origins (Str "primary") Undefined = TypeError
  /\ getBorderObject Undefined theme_origins = TypeError
  /\ getBorderObject flat_named_attributes Undefined = TypeError
  /\ onBorderChange Undefined Undefined (Obj [("color", Str "#111111")]) = TypeError.
Proof. repeat split. Qed.

(** ** Cleaning *)

Lemma cleanEmptyObject_fields fs :
  cleanEmptyObject (Obj fs)
  = match clean_fields fs with
    | [] => Undefined
    | _ :: _ => Obj (clean_fields fs)
    end.
Proof. reflexivity. Qed.

Lemma cleanEmptyObject_not_empty v : is_empty_object (cleanEmptyObject v) = false.
Proof.
  destruct v; try reflexivity.
  rewrite cleanEmptyObject_fields. destruct (clean_fields fs); reflexivity.
Qed.

Lemma clean_fields_cons k x l :
  clean_fields ((k, x) :: l)
  = if is_undefined (cleanEmptyObject x) then clean_fields l
    else (k, cleanEmptyObject x) :: clean_fields l.
Proof. cbn [clean_fields]. destruct (cleanEmptyObject x); reflexivity. Qed.

Lemma normalized_clean v : normalized (cleanEmptyObject v) = true.
Proof.
  induction v as [| | | | xs _ | fs IH] using value_ind; try reflexivity.
  rewrite cleanEmptyObject_fields.
  assert (H : normalized (Obj (clean_fields fs)) = true).
  { induction IH as [|[k x] l Hx _ IHl].
    - reflexivity.
    - rewrite clean_fields_cons. cbn [snd] in Hx.
      destruct (is_undefined (cleanEmptyObject x)) eqn:U; [exact IHl|].
      change (negb (is_undefined (cleanEmptyObject x))
              && negb (is_empty_object (cleanEmptyObject x))
              && normalized (cleanEmptyObject x)
              && normalized (Obj (clean_fields l)) = true).
      now rewrite U, cleanEmptyObject_not_empty, Hx, IHl. }
  destruct (clean_fields fs); [reflexivity | exact H].
Qed.

Lemma has_key_clean_fields fs k :
  has_key k fs = false -> has_key k (clean_fields fs) = false.
Proof.
  induction fs as [|[k0 x] fs IH]; [reflexivity|].
  rewrite clean_fields_cons. simpl. intros H.
  apply orb_false_iff in H. destruct H as [H0 H].
  destruct (is_undefined (cleanEmptyObject x)); simpl; [now apply IH|].
  now rewrite H0, IH.
Qed.

Lemma lookup_clean_fields fs k :
  unique_keys fs = true ->
  lookup k (clean_fields fs) = cleanEmptyObject (lookup k fs).
Proof.
  induction fs as [|[k0 x] fs IH]; [reflexivity|].
  simpl unique_keys. intros H. apply andb_true_iff in H. destruct H as [Hk Hu].
  apply negb_true_iff in Hk.
  rewrite clean_fields_cons. cbn [lookup].
  destruct (k0 =? k) eqn:E.
  - apply String.eqb_eq in E. subst k0.
    destruct (is_undefined (cleanEmptyObject x)) eqn:U.
    + rewrite (has_key_false_lookup _ _ (has_key_clean_fields _ _ Hk)).
      destruct (cleanEmptyObject x); try discriminate. reflexivity.
    + cbn [lookup]. now rewrite String.eqb_refl.
  - destruct (is_undefined (cleanEmptyObject x)); cbn [lookup]; [|rewrite E]; now apply IH.
Qed.

(** Reading a property of a cleaned value gives the cleaned property. *)
Lemma get_opt_clean v k :
  well_formed v = true ->
  get_opt (cleanEmptyObject v) k = cleanEmptyObject (get_opt v k).
Proof.
  destruct v; try reflexivity. intros H.
  rewrite cleanEmptyObject_fields. cbn [get_opt].
  rewrite <- (lookup_clean_fields _ _ (well_formed_unique _ H)).
  destruct (clean_fields fs); reflexivity.
Qed.

(** C6: whenever [onBorderChange] returns, and it does on every
    well-formed palette, the style it hands to [setAttributes] is
    normalized: no key of it, at any depth of nested objects, has the
    value [undefined] or an empty object. *)
Theorem edit_style_normalized (style colors newBorder : value) :
  (forall update, onBorderChange style colors newBorder = Ok update ->
                  normalized (get_opt update "style") = true)
  /\ (is_palette colors = true ->
      exists update, onBorderChange style colors newBorder = Ok update
                     /\ normalized (get_opt update "style") = true).
Proof.
  assert (H : forall update, onBorderChange style colors newBorder = Ok update ->
                             normalized (get_opt update "style") = true).
  { intros update Hu. unfold onBorderChange in Hu.
    destruct (filterNamedColors colors newBorder) as [named|]; [|discriminate].
    cbn [bind] in Hu.
    match type of Hu with
    | context [cleanEmptyObject ?x] => pose proof (normalized_clean x) as Hn;
                                       set (st := cleanEmptyObject x) in *
    end.
    injection Hu as <-. unfold get_opt. now rewrite lookup_head. }
  split; [exact H|].
  intros Hp. eexists. split; [apply (onBorderChange_palette _ _ _ Hp)|].
  apply H. apply (onBorderChange_palette _ _ _ Hp).
Qed.

Lemma edit_style_normalized_witness :
  exists update,
    onBorderChange (Obj [("border", Obj [("radius", Str "4px"); ("width", Undefined)]);
                         ("color", Obj [])])
      theme_origins split_edit = Ok update
    /\ normalized (get_opt update "style") = true.
Proof.
  apply (proj2 (edit_style_normalized
                  (Obj [("border", Obj [("radius", Str "4px"); ("width", Undefined)]);
                        ("color", Obj [])])
                  theme_origins split_edit)).
  reflexivity.
Defined.

(** ** Well-formedness is kept *)

Lemma well_formed_fields fs :
  well_formed (Obj fs) = true
  <-> unique_keys fs = true /\ forallb (fun kv => well_formed (snd kv)) fs = true.
Proof. simpl. apply andb_true_iff. Qed.

Lemma forallb_assign k v fs :
  well_formed v = true ->
  forallb (fun kv => well_formed (snd kv)) fs = true ->
  forallb (fun kv => well_formed (snd kv)) (assign k v fs) = true.
Proof.
  intros Hv. induction fs as [|[k0 v0] fs IH]; simpl.
  - now rewrite Hv.
  - intros H. apply andb_true_iff in H. destruct H as [H0 H].
    destruct (k0 =? k); simpl.
    + now rewrite Hv, H.
    + now rewrite H0, IH.
Qed.

Lemma well_formed_assign k v fs :
  well_formed v = true -> well_formed (Obj fs) = true ->
  well_formed (Obj (assign k v fs)) = true.
Proof.
  intros Hv H. apply well_formed_fields in H. destruct H as [Hu Hf].
  apply well_formed_fields. split.
  - now apply unique_keys_assign.
  - now apply forallb_assign.
Qed.

Lemma forallb_combine (ks : list string) xs :
  forallb well_formed xs = true ->
  forallb (fun kv => well_formed (snd kv)) (combine ks xs) = true.
Proof.
  revert ks. induction xs as [|x xs IH]; intros [|k ks]; simpl; try reflexivity.
  intros H. apply andb_true_iff in H. destruct H as [Hx Hxs].
  now rewrite Hx, IH.
Qed.

Lemma well_formed_entries v :
  well_formed v = true -> forallb (fun kv => well_formed (snd kv)) (entries v) = true.
Proof.
  destruct v; simpl; try reflexivity.
  - intros _. apply forallb_combine. induction (list_ascii_of_string s); simpl; auto.
  - intros H. now apply forallb_combine.
  - intros H. now apply andb_true_iff in H.
Qed.

Lemma well_formed_spread base v :
  well_formed (Obj base) = true -> well_formed v = true ->
  well_formed (Obj (spread base v)) = true.
Proof.
  intros Hb Hv. unfold spread.
  pose proof (well_formed_entries _ Hv) as He.
  revert base Hb. induction (entries v) as [|[k x] es IH]; intros base Hb; simpl.
  - exact Hb.
  - simpl in He. apply andb_true_iff in He. destruct He as [Hx Hes].
    apply IH; [exact Hes|]. now apply well_formed_assign.
Qed.

Lemma well_formed_split_styles colors newBorder :
  well_formed newBorder = true ->
  well_formed (Obj (split_styles colors newBorder)) = true.
Proof.
  intros H.
  assert (Hs : forall side, well_formed (split_side_style colors newBorder side) = true).
  { intros side. unfold split_side_style.
    assert (Hc : well_formed (Obj (spread [] (get_opt newBorder side))) = true).
    { apply well_formed_spread; [reflexivity | now apply well_formed_get_opt]. }
    destruct (truthy (side_slug colors newBorder side)); [|exact Hc].
    now apply well_formed_assign. }
  apply well_formed_fields. split; [reflexivity|].
  unfold split_styles, borderSides. cbn [map forallb snd].
  now rewrite !Hs.
Qed.

Lemma well_formed_flat_styles colors newBorder :
  well_formed newBorder = true ->
  well_formed (Obj (flat_styles colors newBorder)) = true.
Proof.
  intros H. unfold flat_styles.
  assert (Hc : well_formed (Obj (spread [] newBorder)) = true)
    by now apply well_formed_spread.
  destruct (truthy (literal_slug colors (get_opt newBorder "color"))); [|exact Hc].
  now apply well_formed_assign.
Qed.

Lemma well_formed_edited_styles colors newBorder :
  well_formed newBorder = true ->
  well_formed (Obj (edited_styles colors newBorder)) = true.
Proof.
  intros H. unfold edited_styles. destruct (hasSplitBorders newBorder).
  - now apply well_formed_split_styles.
  - now apply well_formed_flat_styles.
Qed.

Lemma well_formed_style_with_border style border :
  well_formed style = true -> well_formed (Obj border) = true ->
  well_formed (style_with_border style border) = true.
Proof.
  intros Hs Hb. unfold style_with_border.
  apply well_formed_assign.
  - apply well_formed_spread; [|exact Hb].
    apply well_formed_fields. split; [reflexivity|]. simpl.
    rewrite andb_true_r. now repeat apply well_formed_get_opt.
  - now apply well_formed_spread.
Qed.

(** ** Reading the stored border back *)

Lemma lookup_fold_assign es base k :
  unique_keys es = true ->
  lookup k (fold_left (fun acc kv => assign (fst kv) (snd kv) acc) es base)
  = if has_key k es then lookup k es else lookup k base.
Proof.
  revert base. induction es as [|[k1 v1] es IH]; intros base Hu; [reflexivity|].
  simpl in Hu. apply andb_true_iff in Hu. destruct Hu as [Hk Hu].
  apply negb_true_iff in Hk.
  cbn [fold_left fst snd has_key existsb lookup]. rewrite (IH _ Hu).
  destruct (k1 =? k) eqn:E; cbn [orb].
  - apply String.eqb_eq in E. subst k1.
    change (existsb (fun kv => fst kv =? k) es) with (has_key k es).
    rewrite Hk. apply lookup_assign_same.
  - change (existsb (fun kv => fst kv =? k) es) with (has_key k es).
    apply String.eqb_neq in E.
    destruct (has_key k es); [reflexivity|].
    now apply lookup_assign_other.
Qed.

(** The border that the edit stores, before it is cleaned: the radius of
    the prior style, unless the new styles have a key [radius] of their
    own, and every other key as in the new styles. *)
Lemma stored_border_lookup style border k :
  unique_keys border = true ->
  get_opt (get_opt (style_with_border style border) "border") k
  = if has_key k border then lookup k border
    else if k =? "radius" then get_opt (get_opt style "border") "radius"
    else Undefined.
Proof.
  intros Hu. unfold style_with_border. cbn [get_opt].
  rewrite lookup_assign_same. cbn [get_opt]. unfold spread. cbn [entries].
  rewrite (lookup_fold_assign _ _ _ Hu).
  destruct (has_key k border); [reflexivity|].
  cbn [lookup]. now rewrite String.eqb_sym.
Qed.

(** The same border after cleaning. *)
Lemma cleaned_border_lookup style border k :
  well_formed style = true -> well_formed (Obj border) = true ->
  get_opt (get_opt (cleanEmptyObject (style_with_border style border)) "border") k
  = cleanEmptyObject
      (if has_key k border then lookup k border
       else if k =? "radius" then get_opt (get_opt style "border") "radius"
       else Undefined).
Proof.
  intros Hs Hb.
  pose proof (well_formed_style_with_border _ _ Hs Hb) as Hw.
  rewrite (get_opt_clean _ _ Hw).
  rewrite (get_opt_clean _ _ (well_formed_get_opt _ "border" Hw)).
  now rewrite stored_border_lookup by now apply well_formed_unique.
Qed.

Lemma lookup_split_styles colors newBorder side :
  In side borderSides ->
  has_key side (split_styles colors newBorder) = true
  /\ lookup side (split_styles colors newBorder) = split_side_style colors newBorder side.
Proof.
  intros [<-|[<-|[<-|[<-|[]]]]]; split; reflexivity.
Qed.

Lemma lookup_split_names colors newBorder side :
  In side borderSides ->
  has_key side (split_names colors newBorder) = truthy (side_slug colors newBorder side)
  /\ lookup side (split_names colors newBorder)
     = if truthy (side_slug colors newBorder side)
       then side_slug colors newBorder side else Undefined.
Proof.
  unfold split_names, borderSides. cbn [flat_map].
  intros [<-|[<-|[<-|[<-|[]]]]];
    destruct (truthy (side_slug colors newBorder "top"));
    destruct (truthy (side_slug colors newBorder "right"));
    destruct (truthy (side_slug colors newBorder "bottom"));
    destruct (truthy (side_slug colors newBorder "left"));
    split; reflexivity.
Qed.

(** ** Naming the colours of an edit *)

Lemma truthy_Str c : c <> "" -> truthy (Str c) = true.
Proof. intros H. simpl. apply negb_true_iff. now apply String.eqb_neq. Qed.

Lemma literal_slug_search colors c colorObject :
  is_palette colors = true ->
  truthy c = true ->
  getMultiOriginColor colors Undefined c = Ok colorObject ->
  literal_slug colors c
  = if truthy (get_opt colorObject "slug") then get_opt colorObject "slug" else Undefined.
Proof.
  intros Hp Tc. rewrite (getMultiOriginColor_palette _ _ _ Hp). intros [= <-].
  unfold literal_slug, js_or. now rewrite Tc.
Qed.

Lemma literal_slug_absent colors c : truthy c = false -> literal_slug colors c = Undefined.
Proof. intros H. unfold literal_slug. now rewrite H. Qed.

Lemma truthy_literal_slug colors c :
  truthy (literal_slug colors c) = true -> truthy c = true.
Proof. unfold literal_slug. destruct (truthy c); [reflexivity | discriminate]. Qed.

Lemma stored_side_color style colors newBorder side :
  well_formed style = true -> well_formed newBorder = true ->
  hasSplitBorders newBorder = true ->
  In side borderSides ->
  get_opt (get_opt (get_opt (cleanEmptyObject
             (style_with_border style (edited_styles colors newBorder))) "border") side) "color"
  = if truthy (side_slug colors newBorder side) then Undefined
    else cleanEmptyObject (lookup "color" (spread [] (get_opt newBorder side))).
Proof.
  intros Hs Hn Hsplit Hside. unfold edited_styles. rewrite Hsplit.
  pose proof (well_formed_split_styles colors _ Hn) as Hw.
  rewrite (cleaned_border_lookup _ _ _ Hs Hw).
  destruct (lookup_split_styles colors newBorder side Hside) as [-> Hl].
  cbv iota.
  rewrite get_opt_clean by now apply well_formed_lookup.
  rewrite Hl. unfold split_side_style. cbn [get_opt].
  destruct (truthy (side_slug colors newBorder side)); [|reflexivity].
  now rewrite lookup_assign_same.
Qed.

Lemma stored_flat_color style colors newBorder :
  well_formed style = true -> well_formed newBorder = true ->
  hasSplitBorders newBorder = false ->
  get_opt (get_opt (cleanEmptyObject
             (style_with_border style (edited_styles colors newBorder))) "border") "color"
  = if truthy (literal_slug colors (get_opt newBorder "color")) then Undefined
    else cleanEmptyObject (lookup "color" (spread [] newBorder)).
Proof.
  intros Hs Hn Hflat. unfold edited_styles. rewrite Hflat.
  pose proof (well_formed_flat_styles colors _ Hn) as Hw.
  rewrite (cleaned_border_lookup _ _ _ Hs Hw). unfold flat_styles.
  destruct (truthy (literal_slug colors (get_opt newBorder "color"))) eqn:T.
  - rewrite has_key_assign, String.eqb_refl. cbn [orb]. now rewrite lookup_assign_same.
  - destruct (has_key "color" (spread [] newBorder)) eqn:K; [reflexivity|].
    now rewrite (has_key_false_lookup _ _ K).
Qed.

Lemma lookup_color_copy x c :
  well_formed x = true -> get_opt x "color" = Str c ->
  lookup "color" (spread [] x) = Str c.
Proof.
  intros Hw Hc. destruct x; try discriminate.
  rewrite spread_object by now apply well_formed_unique. exact Hc.
Qed.

Lemma update_style a b c :
  get_opt (Obj [("style", a); ("borderColor", b); ("sideBorderColors", c)]) "style" = a.
Proof. reflexivity. Qed.

Lemma update_borderColor a b c :
  get_opt (Obj [("style", a); ("borderColor", b); ("sideBorderColors", c)]) "borderColor" = b.
Proof. reflexivity. Qed.

Lemma update_sideBorderColors a b c :
  get_opt (Obj [("style", a); ("borderColor", b); ("sideBorderColors", c)])
    "sideBorderColors" = c.
Proof. reflexivity. Qed.

(** C4: on a well-formed palette, what an edit hands to [setAttributes].
    In the split case [borderColor] stays [undefined] and
    [sideBorderColors] is an object; for each of the four sides whose
    colour is a non-empty string, when the search by that literal colour
    gives an entry with a slug, the slug is recorded under the side and
    the colour stored for the side is blanked; when it gives none, the
    side is not a key of [sideBorderColors] and the literal stays stored;
    a side without a colour is not a key either.  In the flat case
    [sideBorderColors] stays [undefined] and the same is done once, with
    the slug in [borderColor]. *)
Theorem edit_names_palette_colors (style colors newBorder : value) :
  is_palette colors = true ->
  well_formed style = true ->
  well_formed newBorder = true ->
  exists update,
    onBorderChange style colors newBorder = Ok update
    /\ (hasSplitBorders newBorder = true ->
        get_opt update "borderColor" = Undefined
        /\ exists names,
            get_opt update "sideBorderColors" = Obj names
            /\ (forall side, In side borderSides ->
                  truthy (get_opt (get_opt newBorder side) "color") = false ->
                  has_key side names = false)
            /\ forall side c colorObject,
                In side borderSides ->
                get_opt (get_opt newBorder side) "color" = Str c -> c <> "" ->
                getMultiOriginColor colors Undefined (Str c) = Ok colorObject ->
                (truthy (get_opt colorObject "slug") = true ->
                 lookup side names = get_opt colorObject "slug"
                 /\ get_opt (get_opt (get_opt (get_opt update "style") "border") side) "color"
                    = Undefined)
                /\ (truthy (get_opt colorObject "slug") = false ->
                    has_key side names = false
                    /\ get_opt (get_opt (get_opt (get_opt update "style") "border") side) "color"
                       = Str c))
    /\ (hasSplitBorders newBorder = false ->
        get_opt update "sideBorderColors" = Undefined
        /\ (truthy (get_opt newBorder "color") = false ->
            get_opt update "borderColor" = Undefined)
        /\ forall c colorObject,
            get_opt newBorder "color" = Str c -> c <> "" ->
            getMultiOriginColor colors Undefined (Str c) = Ok colorObject ->
            (truthy (get_opt colorObject "slug") = true ->
             get_opt update "borderColor" = get_opt colorObject "slug"
             /\ get_opt (get_opt (get_opt update "style") "border") "color" = Undefined)
            /\ (truthy (get_opt colorObject "slug") = false ->
                get_opt update "borderColor" = Undefined
                /\ get_opt (get_opt (get_opt update "style") "border") "color" = Str c)).
Proof.
  intros Hp Hs Hn. rewrite (onBorderChange_palette _ _ _ Hp).
  eexists. split; [reflexivity|].
  rewrite !update_style, !update_borderColor, !update_sideBorderColors.
  unfold edited_borderColor, edited_sideBorderColors.
  split; intros Hsplit; rewrite Hsplit.
  - split; [reflexivity|]. exists (split_names colors newBorder).
    split; [reflexivity|]. split.
    + intros side Hside Hc.
      rewrite (proj1 (lookup_split_names colors newBorder side Hside)).
      unfold side_slug. now rewrite (literal_slug_absent _ _ Hc).
    + intros side c colorObject Hside Hc Hne Hsearch.
      destruct (lookup_split_names colors newBorder side Hside) as [Hk Hl].
      rewrite (stored_side_color _ colors _ _ Hs Hn Hsplit Hside), Hk, Hl.
      unfold side_slug. rewrite Hc.
      rewrite (literal_slug_search _ _ _ Hp (truthy_Str _ Hne) Hsearch).
      assert (Hx : well_formed (get_opt newBorder side) = true)
        by now apply well_formed_get_opt.
      rewrite (lookup_color_copy _ _ Hx Hc).
      split; intros T; rewrite T; cbn [truthy]; [rewrite T|]; split; reflexivity.
  - split; [reflexivity|]. split.
    + intros Hc. now apply literal_slug_absent.
    + intros c colorObject Hc Hne Hsearch.
      rewrite (stored_flat_color _ colors _ Hs Hn Hsplit). rewrite Hc.
      rewrite (literal_slug_search _ _ _ Hp (truthy_Str _ Hne) Hsearch).
      rewrite (lookup_color_copy _ _ Hn Hc).
      split; intros T; rewrite T; cbn [truthy]; [rewrite T|]; split; reflexivity.
Qed.

Lemma edit_names_palette_colors_witness :
  exists update names,
    onBorderChange Undefined theme_origins split_edit = Ok update
    /\ get_opt update "sideBorderColors" = Obj names
    /\ lookup "top" names = Str "primary"
    /\ has_key "right" names = false
    /\ get_opt (get_opt (get_opt (get_opt update "style") "border") "top") "color" = Undefined.
Proof.
  destruct (edit_names_palette_colors Undefined theme_origins split_edit
              eq_refl eq_refl eq_refl) as (u & Hu & Hsplit & _).
  destruct (Hsplit eq_refl) as (_ & names & Hn & Hnone & Hside).
  destruct (Hside "top" "#111111" primary_entry (or_introl eq_refl) eq_refl
              ltac:(discriminate) eq_refl) as [H1 _].
  destruct (H1 eq_refl) as [Hl Hc].
  exists u, names. repeat split; auto.
  apply Hnone; [right; left; reflexivity | reflexivity].
Defined.

(** The edit example of the spec. *)
Example edit_split_example :
  onBorderChange Undefined theme_origins split_edit
  = Ok (Obj [ ("style", Undefined);
              ("borderColor", Undefined);
              ("sideBorderColors", Obj [("top", Str "primary")]) ]).
Proof. reflexivity. Qed.

(** ** The radius *)

Lemma clean_fields_normalized fs :
  Forall (fun kv => normalized (snd kv) = true ->
                    is_empty_object (snd kv) = false ->
                    cleanEmptyObject (snd kv) = snd kv) fs ->
  normalized (Obj fs) = true -> clean_fields fs = fs.
Proof.
  induction 1 as [|[k x] l Hx _ IH]; [reflexivity|].
  cbn [normalized forallb snd] in *. intros H.
  apply andb_true_iff in H. destruct H as [H Hl].
  apply andb_true_iff in H. destruct H as [H Hn].
  apply andb_true_iff in H. destruct H as [Hu He].
  apply negb_true_iff in Hu, He.
  rewrite clean_fields_cons, (Hx Hn He), Hu. f_equal. now apply IH.
Qed.

(** Cleaning keeps a normalized value as it is. *)
Lemma cleanEmptyObject_normalized v :
  normalized v = true -> is_empty_object v = false -> cleanEmptyObject v = v.
Proof.
  induction v as [| | | | xs _ | fs IH] using value_ind; try reflexivity.
  intros Hn He. rewrite cleanEmptyObject_fields, (clean_fields_normalized _ IH Hn).
  destruct fs; [discriminate | reflexivity].
Qed.

Lemma has_key_fold_assign es base k :
  has_key k (fold_left (fun acc kv => assign (fst kv) (snd kv) acc) es base)
  = has_key k es || has_key k base.
Proof.
  revert base. induction es as [|[k1 v1] es IH]; intros base; [reflexivity|].
  cbn [fold_left fst snd]. rewrite IH, has_key_assign. simpl.
  destruct (k1 =? k), (has_key k es); reflexivity.
Qed.







(** The reset of a block with a named colour, a width and a radius. *)
Example reset_example :
  resetBorder bordered_props
  = Ok (Obj [ ("borderColor", Undefined);
              ("sideBorderColors", Undefined);
              ("style", Obj [ ("color", Obj [("text", Str "#000000")]);
                              ("border", Obj [("radius", Str "4px")]) ]) ]).
Proof. reflexivity. Qed.

(** ** The panel item after a split edit *)

Lemma literal_slug_unmatched colors c :
  (forall e, In e (palette_entries colors) -> has_property "color" c e = false) ->
  literal_slug colors c = Undefined.
Proof.
  intros H. unfold literal_slug, resolveColor. cbn [truthy].
  destruct (truthy c); [|reflexivity].
  now rewrite (first_match_none _ _ _ (find_none_iff _ _ H)).
Qed.

(** C10: after an edit in split form on a well-formed palette,
    [borderColor] is [undefined] and [sideBorderColors] is an object, the
    empty one when no colour of a side is the colour of a palette entry.
    That object alone makes [hasBorderValue] answer [true]: it does so
    for every block whose [sideBorderColors] is that object, whatever
    [isDefinedBorder] says of its style and whatever its [borderColor],
    and so for the attributes of the update; with [sideBorderColors]
    taken out of the update the answer is what [isDefinedBorder] says of
    the stored border, [false] when that is not a defined border. *)
Theorem split_edit_has_value (isDefinedBorder : value -> bool)
  (style colors newBorder : value) :
  is_palette colors = true ->
  hasSplitBorders newBorder = true ->
  exists update names,
    onBorderChange style colors newBorder = Ok update
    /\ get_opt update "borderColor" = Undefined
    /\ get_opt update "sideBorderColors" = Obj names
    /\ ((forall side e, In side borderSides -> In e (palette_entries colors) ->
           has_property "color" (get_opt (get_opt newBorder side) "color") e = false) ->
        names = [])
    /\ (forall props attributes,
          get props "attributes" = Ok attributes ->
          get_opt attributes "sideBorderColors" = Obj names ->
          hasBorderValue isDefinedBorder props = Ok true)
    /\ hasBorderValue isDefinedBorder (Obj [("attributes", update)]) = Ok true
    /\ hasBorderValue isDefinedBorder
         (Obj [("attributes", Obj (assign "sideBorderColors" Undefined (entries update)))])
       = Ok (isDefinedBorder (get_opt (get_opt update "style") "border")).
Proof.
  intros Hp Hs. rewrite (onBorderChange_palette _ _ _ Hp).
  assert (Hv : forall names props attributes,
             get props "attributes" = Ok attributes ->
             get_opt attributes "sideBorderColors" = Obj names ->
             hasBorderValue isDefinedBorder props = Ok true).
  { intros names props attributes Ha Hn. unfold hasBorderValue. rewrite Ha. cbn [bind].
    destruct attributes; try discriminate. cbn [get bind]. cbn [get_opt] in Hn.
    rewrite Hn. cbn [truthy]. now rewrite !orb_true_r. }
  assert (Hsbc : forall a b,
             get_opt (Obj [("style", a); ("borderColor", b);
                           ("sideBorderColors", edited_sideBorderColors colors newBorder)])
               "sideBorderColors" = Obj (split_names colors newBorder)).
  { intros a b. rewrite update_sideBorderColors. unfold edited_sideBorderColors.
    now rewrite Hs. }
  assert (Hbc : edited_borderColor colors newBorder = Undefined).
  { unfold edited_borderColor. now rewrite Hs. }
  eexists. exists (split_names colors newBorder). split; [reflexivity|].
  split; [now rewrite update_borderColor|].
  split; [apply Hsbc|]. split; [|split; [|split]].
  - intros Hnone. unfold split_names.
    assert (Hu : forall side, In side borderSides -> side_slug colors newBorder side = Undefined).
    { intros side Hside. apply literal_slug_unmatched. intros e He. now apply Hnone. }
    unfold borderSides in *. cbn [flat_map].
    rewrite !Hu by (simpl; auto). reflexivity.
  - apply Hv.
  - match goal with
    | |- hasBorderValue _ (Obj [("attributes", ?u)]) = _ =>
        exact (Hv _ (Obj [("attributes", u)]) u eq_refl (Hsbc _ _))
    end.
  - rewrite update_style, Hbc.
    set (st := cleanEmptyObject _).
    unfold hasBorderValue.
    cbn [entries assign String.eqb Ascii.eqb Bool.eqb get get_opt bind lookup truthy].
    now rewrite !orb_false_r.
Qed.

(** The edit of the four empty sides on a block without a border: the
    stored border is [undefined], on which a border counted as defined
    when it is truthy is not defined; the empty [sideBorderColors] alone
    makes the answer [true]. *)
Lemma split_edit_has_value_witness :
  exists update,
    onBorderChange Undefined theme_origins colorless_split_edit = Ok update
    /\ get_opt update "borderColor" = Undefined
    /\ get_opt update "sideBorderColors" = Obj []
    /\ get_opt (get_opt update "style") "border" = Undefined
    /\ hasBorderValue truthy (Obj [("attributes", update)]) = Ok true
    /\ hasBorderValue truthy
         (Obj [("attributes", Obj (assign "sideBorderColors" Undefined (entries update)))])
       = Ok false.
Proof.
  destruct (split_edit_has_value truthy Undefined theme_origins colorless_split_edit
              eq_refl eq_refl)
    as (u & names & Hu & Hb & Hn & Hempty & _ & Hv & Hw).
  assert (Hnames : names = []).
  { apply Hempty. intros side e Hside [<-|[]].
    destruct Hside as [<-|[<-|[<-|[<-|[]]]]]; reflexivity. }
  assert (Hborder : get_opt (get_opt u "style") "border" = Undefined).
  { vm_compute in Hu. injection Hu as <-. reflexivity. }
  exists u. split; [exact Hu|]. split; [exact Hb|].
  split; [now rewrite Hn, Hnames|]. split; [exact Hborder|]. split; [exact Hv|].
  rewrite Hw, Hborder. reflexivity.
Defined.

(** ** Objects built by successive writes *)

Lemma build_app ws1 ws2 base : build (ws1 ++ ws2)%list base = build ws2 (build ws1 base).
Proof. apply fold_left_app. Qed.

Lemma unique_keys_build ws base :
  unique_keys base = true -> unique_keys (build ws base) = true.
Proof.
  revert base. induction ws as [|[k v] ws IH]; intros base H; [exact H|].
  apply IH. now apply unique_keys_assign.
Qed.

Lemma in_assign k v fs e : In e (assign k v fs) -> e = (k, v) \/ In e fs.
Proof.
  induction fs as [|[k0 v0] fs IH]; simpl.
  - intros [<-|[]]. now left.
  - destruct (k0 =? k); simpl.
    + intros [<-|H]; auto.
    + intros [<-|H]; auto. destruct (IH H); auto.
Qed.

Lemma in_build ws base e : In e (build ws base) -> In e ws \/ In e base.
Proof.
  revert base. induction ws as [|[k v] ws IH]; intros base; simpl; [auto|].
  intros H. destruct (IH _ H) as [H1|H1]; [auto|].
  destruct (in_assign _ _ _ _ H1) as [->|H2]; auto.
Qed.

Lemma class_tokens_app l1 l2 :
  class_tokens (l1 ++ l2)%list = (class_tokens l1 ++ class_tokens l2)%list.
Proof. unfold class_tokens. now rewrite filter_app, map_app. Qed.

Lemma class_tokens_assign_falsy k v fs :
  truthy v = false ->
  (forall e, In e fs -> fst e = k -> truthy (snd e) = false) ->
  class_tokens (assign k v fs) = class_tokens fs.
Proof.
  intros Hv. induction fs as [|[k0 v0] fs IH]; intros H.
  - unfold class_tokens. simpl. now rewrite Hv.
  - cbn [assign]. destruct (k0 =? k) eqn:E.
    + apply String.eqb_eq in E. subst k0.
      assert (H0 : truthy v0 = false) by (apply (H (k, v0)); simpl; auto).
      unfold class_tokens. simpl. now rewrite Hv, H0.
    + unfold class_tokens in *. simpl.
      destruct (truthy v0); simpl; [f_equal|]; apply IH; intros e He; apply H; simpl; auto.
Qed.

Lemma class_tokens_assign k v fs :
  (forall e, In e fs -> fst e = k -> truthy (snd e) = false /\ truthy v = false) ->
  class_tokens (assign k v fs) = (class_tokens fs ++ class_tokens [(k, v)])%list.
Proof.
  intros H. destruct (has_key k fs) eqn:K.
  - assert (Hv : truthy v = false).
    { unfold has_key in K. apply existsb_exists in K. destruct K as (e & He & Hk).
      apply String.eqb_eq in Hk. exact (proj2 (H e He Hk)). }
    rewrite class_tokens_assign_falsy; [|exact Hv|intros e He Hk; exact (proj1 (H e He Hk))].
    unfold class_tokens at 3. simpl. rewrite Hv. simpl. now rewrite app_nil_r.
  - rewrite (assign_fresh _ _ _ K). apply class_tokens_app.
Qed.

(** The tokens of an object built by writes that do not clash are the
    truthy writes, in the order they were made. *)
Lemma class_tokens_build ws base :
  no_clash ws ->
  (forall e w, In e base -> In w ws -> fst e = fst w ->
               truthy (snd e) = false /\ truthy (snd w) = false) ->
  class_tokens (build ws base) = (class_tokens base ++ class_tokens ws)%list.
Proof.
  revert base. induction ws as [|[k v] ws IH]; intros base Hn Hb.
  - simpl. now rewrite app_nil_r.
  - inversion Hn as [|a l Hhead Htail]; subst. cbn [build fold_left fst snd].
    change (fold_left (fun acc kv => assign (fst kv) (snd kv) acc) ws (assign k v base))
      with (build ws (assign k v base)).
    rewrite IH; [|exact Htail|].
    + rewrite class_tokens_assign.
      * now rewrite <- app_assoc, <- class_tokens_app.
      * intros e He Hk. apply (Hb e (k, v)); simpl; auto.
    + intros e w He Hw Hk. destruct (in_assign _ _ _ _ He) as [->|He'].
      * rewrite Forall_forall in Hhead. now apply Hhead.
      * apply (Hb e w); simpl; auto.
Qed.

Lemma sideBorderClass_build sideBorderColors style classes side :
  unique_keys classes = true ->
  sideBorderClass sideBorderColors style classes side
  = build (side_writes sideBorderColors style side) classes.
Proof.
  intros H. unfold sideBorderClass. now rewrite (spread_object _ H).
Qed.

Lemma getSideBorderClasses_build sideBorderColors style :
  fold_left (sideBorderClass sideBorderColors style) borderSides []
  = build (flat_map (side_writes sideBorderColors style) borderSides) [].
Proof.
  unfold borderSides. cbn [fold_left flat_map].
  rewrite !build_app.
  rewrite (sideBorderClass_build _ _ [] "top") by reflexivity.
  rewrite (sideBorderClass_build _ _ _ "right")
    by (repeat apply unique_keys_build; reflexivity).
  rewrite (sideBorderClass_build _ _ _ "bottom")
    by (repeat apply unique_keys_build; reflexivity).
  rewrite (sideBorderClass_build _ _ _ "left")
    by (repeat apply unique_keys_build; reflexivity).
  reflexivity.
Qed.

(** ** Keys of different facets differ *)

Lemma length_append a b :
  String.length (a ++ b) = String.length a + String.length b.
Proof. induction a as [|c a IH]; simpl; [reflexivity | now rewrite IH]. Qed.

Lemma tail_append n a b : n <= String.length b -> tail n (a ++ b) = tail n b.
Proof.
  intros H. induction a as [|c a IH]; [reflexivity|].
  cbn [append tail].
  assert (Hl : Nat.ltb (String.length (a ++ b)) n = false).
  { apply Nat.ltb_ge. rewrite length_append. lia. }
  now rewrite Hl.
Qed.

Lemma tail_fixed_key n context :
  n <= String.length context -> tail n ("has-" ++ context) = tail n context.
Proof. apply tail_append. Qed.

Lemma tail_palette_key n t context :
  n <= String.length context -> tail n ("has-" ++ t ++ "-" ++ context) = tail n context.
Proof.
  intros H. rewrite !tail_append; [reflexivity | exact H | | ].
  - simpl. lia.
  - rewrite length_append. simpl. lia.
Qed.

Lemma getColorClassName_cases context slug :
  (truthy slug = false /\ getColorClassName context slug = Undefined)
  \/ (truthy slug = true
      /\ getColorClassName context slug = Str ("has-" ++ to_string slug ++ "-" ++ context)).
Proof. unfold getColorClassName. destruct (truthy slug); auto. Qed.

(** A key written for a facet ends like the context of the facet, unless
    it is the key ["undefined"] of a facet without slug, written with
    [false]. *)
Lemma facet_write_key context slug literal w :
  Nat.leb 10 (String.length context) = true ->
  In w (facet_writes context slug literal) ->
  tail 10 (fst w) = tail 10 context
  \/ (fst w = "undefined" /\ truthy (snd w) = false).
Proof.
  intros Hl. apply Nat.leb_le in Hl. unfold facet_writes.
  intros [<-|[<-|[]]]; cbn [fst snd].
  - left. now apply tail_fixed_key.
  - destruct (getColorClassName_cases context slug) as [[_ ->]|[_ ->]].
    + right. split; reflexivity.
    + left. cbn [to_string]. now apply tail_palette_key.
Qed.

Lemma cross_facet context1 slug1 literal1 context2 slug2 literal2 a b :
  Nat.leb 10 (String.length context1) = true ->
  Nat.leb 10 (String.length context2) = true ->
  (tail 10 context1 =? tail 10 context2) = false ->
  (tail 10 context1 =? "undefined") = false ->
  (tail 10 context2 =? "undefined") = false ->
  In a (facet_writes context1 slug1 literal1) ->
  In b (facet_writes context2 slug2 literal2) ->
  fst a = fst b -> truthy (snd a) = false /\ truthy (snd b) = false.
Proof.
  intros L1 L2 H12 H1 H2 Ha Hb Heq.
  apply String.eqb_neq in H12, H1, H2.
  destruct (facet_write_key _ _ _ _ L1 Ha) as [Ta|[Ka Va]];
    destruct (facet_write_key _ _ _ _ L2 Hb) as [Tb|[Kb Vb]].
  - exfalso. apply H12. now rewrite <- Ta, <- Tb, Heq.
  - exfalso. apply H1. now rewrite <- Ta, Heq, Kb.
  - exfalso. apply H2. now rewrite <- Tb, <- Heq, Ka.
  - now split.
Qed.

Lemma within_facet context slug literal :
  Nat.leb 10 (String.length context) = true ->
  (tail 10 context =? "undefined") = false ->
  no_clash (facet_writes context slug literal).
Proof.
  intros Hl Hu. apply Nat.leb_le in Hl. apply String.eqb_neq in Hu.
  unfold no_clash, facet_writes.
  constructor; [|constructor; [constructor | constructor]].
  constructor; [|constructor]. cbn [fst snd]. intros Heq. exfalso.
  destruct (getColorClassName_cases context slug) as [[_ E]|[_ E]];
    rewrite E in Heq; cbn [to_string] in Heq.
  - apply Hu. rewrite <- (tail_fixed_key 10 context Hl), Heq. reflexivity.
  - apply (f_equal String.length) in Heq. rewrite !length_append in Heq. simpl in Heq. lia.
Qed.

Lemma no_clash_app l1 l2 :
  no_clash l1 -> no_clash l2 ->
  (forall a b, In a l1 -> In b l2 ->
               fst a = fst b -> truthy (snd a) = false /\ truthy (snd b) = false) ->
  no_clash (l1 ++ l2)%list.
Proof.
  unfold no_clash. intros H1 H2 H12. induction H1 as [|a l Ha Hl IH]; [exact H2|].
  cbn [app]. constructor.
  - apply Forall_app. split; [exact Ha|].
    apply Forall_forall. intros b Hb. apply (H12 a b); simpl; auto.
  - apply IH. intros x y Hx Hy. apply H12; simpl; auto.
Qed.

Lemma unique_keys_no_clash l : unique_keys l = true -> no_clash l.
Proof.
  unfold no_clash. induction l as [|[k v] l IH]; [constructor|].
  simpl. intros H. apply andb_true_iff in H. destruct H as [Hk Hu].
  apply negb_true_iff in Hk. constructor; [|now apply IH].
  apply Forall_forall. intros [k' v'] Hin Heq. cbn [fst] in Heq. subst k'.
  exfalso. assert (has_key k l = true); [|congruence].
  unfold has_key. apply existsb_exists. exists (k, v'). split; [exact Hin|].
  apply String.eqb_refl.
Qed.

(** ** The class names *)

Ltac split_membership H :=
  repeat match type of H with
    | In _ (_ ++ _)%list => apply in_app_or in H; destruct H as [H|H]
    | In _ [] => destruct H
    end.

Lemma side_writes_cross sideBorderColors style side1 side2 a b :
  In side1 borderSides -> In side2 borderSides -> side1 <> side2 ->
  In a (side_writes sideBorderColors style side1) ->
  In b (side_writes sideBorderColors style side2) ->
  fst a = fst b -> truthy (snd a) = false /\ truthy (snd b) = false.
Proof.
  intros H1 H2 Hne. unfold side_writes.
  destruct H1 as [<-|[<-|[<-|[<-|[]]]]]; destruct H2 as [<-|[<-|[<-|[<-|[]]]]];
    try (now destruct Hne); apply cross_facet; reflexivity.
Qed.

Lemma flat_writes_cross slug literal sideBorderColors style side a b :
  In side borderSides ->
  In a (facet_writes "border-color" slug literal) ->
  In b (side_writes sideBorderColors style side) ->
  fst a = fst b -> truthy (snd a) = false /\ truthy (snd b) = false.
Proof.
  intros H. unfold side_writes.
  destruct H as [<-|[<-|[<-|[<-|[]]]]]; apply cross_facet; reflexivity.
Qed.

Lemma no_clash_side_writes sideBorderColors style side :
  In side borderSides -> no_clash (side_writes sideBorderColors style side).
Proof.
  unfold side_writes.
  intros [<-|[<-|[<-|[<-|[]]]]]; apply within_facet; reflexivity.
Qed.

Lemma no_clash_sides sideBorderColors style :
  no_clash (flat_map (side_writes sideBorderColors style) borderSides).
Proof.
  unfold borderSides. cbn [flat_map].
  repeat apply no_clash_app;
    try (apply no_clash_side_writes; simpl; tauto);
    try (constructor; fail);
    intros a b Ha Hb; split_membership Hb;
    (eapply side_writes_cross; [| | |exact Ha|exact Hb]; simpl; try tauto; discriminate).
Qed.

Lemma in_flat_map_sides sideBorderColors style w :
  In w (flat_map (side_writes sideBorderColors style) borderSides) ->
  exists side, In side borderSides /\ In w (side_writes sideBorderColors style side).
Proof. intros H. apply in_flat_map in H. exact H. Qed.

Lemma class_tokens_facet context slug literal :
  class_tokens (facet_writes context slug literal) = facet_tokens context slug literal.
Proof.
  unfold class_tokens, facet_writes, facet_tokens, getColorClassName.
  cbn [filter map fst snd].
  destruct (truthy (js_or slug literal)); destruct (truthy slug); reflexivity.
Qed.

Lemma class_tokens_sides sideBorderColors style :
  class_tokens (flat_map (side_writes sideBorderColors style) borderSides)
  = flat_map (fun side =>
                facet_tokens ("border-" ++ side ++ "-color")
                  (get_opt sideBorderColors side)
                  (get_opt (get_opt (get_opt style "border") side) "color")) borderSides.
Proof.
  unfold borderSides. cbn [flat_map].
  rewrite !class_tokens_app. unfold side_writes. now rewrite !class_tokens_facet.
Qed.

Lemma getBorderClasses_build attributes :
  nullish attributes = false ->
  getBorderClasses attributes
  = Ok (classnames
          (build (build (flat_map (side_writes (get_opt attributes "sideBorderColors")
                                     (get_opt attributes "style")) borderSides) [])
             (build (facet_writes "border-color" (get_opt attributes "borderColor")
                       (get_opt (get_opt (get_opt attributes "style") "border") "color"))
                []))).
Proof.
  intros Ha. unfold getBorderClasses, getSideBorderClasses.
  rewrite !(get_defined _ _ Ha). cbn [bind].
  now rewrite getSideBorderClasses_build.
Qed.

(** C9: the class name of a block is the concatenation, separated by
    spaces, of the tokens of the flat border and of the four sides in the
    order top, right, bottom, left; a facet gives [has-{context}] when
    it has a slug or a literal colour, and [has-{slug}-{context}] when it
    has a slug, where the context is [border-color] or
    [border-{side}-color].  So wherever a non-empty slug is active both
    its tokens are in the class name. *)
Theorem border_classes_tokens (attributes : value) :
  nullish attributes = false ->
  getBorderClasses attributes = Ok (String.concat " " (border_tokens attributes))
  /\ (forall s, get_opt attributes "borderColor" = Str s -> s <> "" ->
      In "has-border-color" (border_tokens attributes)
      /\ In ("has-" ++ s ++ "-border-color") (border_tokens attributes))
  /\ (forall side s, In side borderSides ->
      get_opt (get_opt attributes "sideBorderColors") side = Str s -> s <> "" ->
      In ("has-border-" ++ side ++ "-color") (border_tokens attributes)
      /\ In ("has-" ++ s ++ "-border-" ++ side ++ "-color") (border_tokens attributes)).
Proof.
  intros Ha. split; [|split].
  - rewrite (getBorderClasses_build _ Ha). unfold classnames. do 2 f_equal.
    rewrite class_tokens_build.
    + rewrite (class_tokens_build (facet_writes _ _ _) []);
        [|apply within_facet; reflexivity | intros e w []].
      rewrite (class_tokens_build (flat_map _ _) []);
        [|apply no_clash_sides | intros e w []].
      change (class_tokens []) with (@nil string). cbn [app].
      rewrite class_tokens_facet, class_tokens_sides. reflexivity.
    + apply unique_keys_no_clash. now apply unique_keys_build.
    + intros e w He Hw.
      destruct (in_build _ _ _ He) as [He'|[]].
      destruct (in_build _ _ _ Hw) as [Hw'|[]].
      destruct (in_flat_map_sides _ _ _ Hw') as (side & Hside & Hws).
      exact (flat_writes_cross _ _ _ _ _ _ _ Hside He' Hws).
  - intros s Hs Hne. unfold border_tokens, facet_tokens at 1 3. rewrite Hs.
    unfold js_or. rewrite (truthy_Str _ Hne), (truthy_Str _ Hne). cbn [to_string].
    split; apply in_or_app; left; simpl; auto.
  - intros side s Hside Hs Hne. unfold border_tokens.
    assert (Hf : forall literal,
               incl (facet_tokens ("border-" ++ side ++ "-color") (Str s) literal)
                    (border_tokens attributes)).
    { intros literal x Hx. unfold border_tokens. apply in_or_app. right.
      apply in_flat_map. exists side. split; [exact Hside|]. rewrite Hs.
      unfold facet_tokens, js_or in *. rewrite (truthy_Str _ Hne) in *.
      exact Hx. }
    split; apply (Hf Undefined); unfold facet_tokens, js_or;
      rewrite (truthy_Str _ Hne), (truthy_Str _ Hne); cbn [to_string app]; simpl; auto.
Qed.

Lemma border_classes_tokens_witness :
  getBorderClasses classy_attributes
  = Ok "has-border-color has-primary-border-color has-border-top-color has-accent-border-top-color has-border-left-color"
  /\ In "has-primary-border-color" (border_tokens classy_attributes)
  /\ In "has-accent-border-top-color" (border_tokens classy_attributes).
Proof.
  destruct (border_classes_tokens classy_attributes eq_refl) as (H & Hflat & Hside).
  split; [exact H|]. split.
  - exact (proj2 (Hflat "primary" eq_refl ltac:(discriminate))).
  - exact (proj2 (Hside "top" "accent" (or_introl eq_refl) eq_refl ltac:(discriminate))).
Defined.

(** ** Hydrating what an edit stored *)

Lemma strict_eq_eq x y : strict_eq x y = true -> x = y.
Proof.
  destruct x, y; simpl; intros H; try discriminate; try reflexivity.
  - apply Bool.eqb_prop in H. now subst.
  - apply String.eqb_eq in H. now subst.
Qed.

Lemma resolveColor_literal colors c :
  truthy c = true ->
  resolveColor colors Undefined c
  = match find (has_property "color" c) (palette_entries colors) with
    | Some f => f
    | None => Obj [("color", c)]
    end.
Proof.
  intros Tc. unfold resolveColor. cbn [truthy]. rewrite Tc.
  destruct (find (has_property "color" c) (palette_entries colors)) as [f|] eqn:E.
  - destruct (first_match_found _ _ _ _ E Tc) as [-> ->]. reflexivity.
  - now rewrite (first_match_none _ _ _ E).
Qed.

Lemma resolveColor_named colors namedColor customColor g :
  truthy namedColor = true ->
  find (has_property "slug" namedColor) (palette_entries colors) = Some g ->
  resolveColor colors namedColor customColor = g.
Proof.
  intros Tn E. unfold resolveColor. rewrite Tn.
  destruct (first_match_found _ _ _ _ E Tn) as [-> ->]. reflexivity.
Qed.

(** The slug that the search by a literal colour recovers resolves back
    to that colour. *)
Lemma literal_slug_resolves colors c :
  slugs_determine_colors colors = true ->
  truthy (literal_slug colors c) = true ->
  resolved_color colors (literal_slug colors c) = c /\ truthy c = true.
Proof.
  intros Hd T. pose proof (truthy_literal_slug _ _ T) as Tc. split; [|exact Tc].
  unfold literal_slug, js_or in *. rewrite Tc in *.
  rewrite (resolveColor_literal _ _ Tc) in *.
  destruct (find (has_property "color" c) (palette_entries colors)) as [f|] eqn:E;
    [|discriminate].
  destruct (truthy (get_opt f "slug")) eqn:Ts; [|discriminate].
  apply find_some in E. destruct E as [Hin Hc].
  unfold has_property in Hc. apply strict_eq_eq in Hc.
  unfold slugs_determine_colors in Hd. rewrite forallb_forall in Hd.
  specialize (Hd f Hin). unfold slug_determines_color in Hd.
  destruct (get_opt f "slug") as [| |b|s| |] eqn:Es;
    try (simpl in Ts, Hd; subst; discriminate).
  apply strict_eq_eq in Hd.
  assert (Hfound : exists g, find (has_property "slug" (Str s)) (palette_entries colors) = Some g).
  { destruct (find (has_property "slug" (Str s)) (palette_entries colors)) eqn:F; [eauto|].
    pose proof (find_none _ _ F _ Hin) as Hn. unfold has_property in Hn.
    rewrite Es in Hn. simpl in Hn. now rewrite String.eqb_refl in Hn. }
  destruct Hfound as [g Hg].
  unfold resolved_color. rewrite (resolveColor_named _ _ Undefined _ Ts Hg).
  destruct (first_match_found _ _ _ _ Hg Ts) as [Hm _].
  rewrite Hm in Hd. congruence.
Qed.

Lemma unique_keys_clean_fields fs :
  unique_keys fs = true -> unique_keys (clean_fields fs) = true.
Proof.
  induction fs as [|[k x] fs IH]; [reflexivity|].
  intros H. simpl in H. apply andb_true_iff in H. destruct H as [Hk Hu].
  apply negb_true_iff in Hk. rewrite clean_fields_cons.
  destruct (is_undefined (cleanEmptyObject x)); [now apply IH|].
  simpl. now rewrite (has_key_clean_fields _ _ Hk), IH.
Qed.

Lemma well_formed_clean v : well_formed v = true -> well_formed (cleanEmptyObject v) = true.
Proof.
  induction v as [| | | | xs _ | fs IH] using value_ind; try (intros; assumption).
  intros H. apply well_formed_fields in H. destruct H as [Hu Hf].
  rewrite cleanEmptyObject_fields.
  assert (Hc : well_formed (Obj (clean_fields fs)) = true).
  { apply well_formed_fields. split; [now apply unique_keys_clean_fields|].
    clear Hu. revert Hf. induction IH as [|[k x] l Hx _ IHl]; intros Hf; [reflexivity|].
    simpl in Hf. apply andb_true_iff in Hf. destruct Hf as [Hwx Hl].
    rewrite clean_fields_cons. cbn [snd] in Hx.
    destruct (is_undefined (cleanEmptyObject x)); [now apply IHl|].
    cbn [forallb snd]. now rewrite (Hx Hwx), IHl. }
  destruct (clean_fields fs); [reflexivity | exact Hc].
Qed.

Lemma is_record_clean fs : is_record (cleanEmptyObject (Obj fs)) = true.
Proof. rewrite cleanEmptyObject_fields. destruct (clean_fields fs); reflexivity. Qed.

(** The border of the style that an edit stores. *)
Lemma stored_border style border :
  well_formed style = true -> well_formed (Obj border) = true ->
  exists fs,
    get_opt (cleanEmptyObject (style_with_border style border)) "border"
    = cleanEmptyObject (Obj fs)
    /\ well_formed (Obj fs) = true.
Proof.
  intros Hs Hb. pose proof (well_formed_style_with_border _ _ Hs Hb) as Hw.
  rewrite (get_opt_clean _ _ Hw). unfold style_with_border in *. cbn [get_opt].
  rewrite lookup_assign_same. eexists. split; [reflexivity|].
  apply well_formed_spread; [|exact Hb].
  apply well_formed_fields. split; [reflexivity|]. simpl.
  rewrite andb_true_r. now repeat apply well_formed_get_opt.
Qed.

Lemma get_opt_with_color color stored k :
  is_record stored = true -> well_formed stored = true ->
  get_opt (with_color color stored) k = if k =? "color" then color else get_opt stored k.
Proof.
  intros Hr Hw. unfold with_color. cbn [get_opt].
  rewrite lookup_assign, String.eqb_sym, (spread_record _ Hr Hw).
  now rewrite (lookup_entries_record _ _ Hr).
Qed.

Lemma get_opt_color_with_color color stored : get_opt (with_color color stored) "color" = color.
Proof. unfold with_color. cbn [get_opt]. apply lookup_assign_same. Qed.

Lemma flat_has_no_side border side :
  is_record border = true -> hasSplitBorders border = false ->
  In side borderSides ->
  has_key side (entries border) = false /\ get_opt border side = Undefined.
Proof.
  intros Hr Hs Hside. destruct border; try discriminate; [split; reflexivity|].
  cbn [entries get_opt]. cbn [hasSplitBorders] in Hs.
  assert (H : has_key side fs = false).
  { destruct (has_key side fs) eqn:K; [|reflexivity].
    assert (existsb (fun side => has_key side fs) borderSides = true); [|congruence].
    apply existsb_exists. now exists side. }
  split; [exact H | now apply has_key_false_lookup].
Qed.

Lemma is_color_clean c : is_color c = true -> cleanEmptyObject c = c.
Proof. destruct c; try discriminate; reflexivity. Qed.

Lemma border_value_parts border :
  border_value border = true ->
  is_record border = true
  /\ is_color (get_opt border "color") = true
  /\ (forall side, In side borderSides ->
        is_record (get_opt border side) = true
        /\ is_color (get_opt (get_opt border side) "color") = true)
  /\ (hasSplitBorders border = true -> get_opt border "color" = Undefined).
Proof.
  unfold border_value. intros H.
  apply andb_true_iff in H. destruct H as [H H4].
  apply andb_true_iff in H. destruct H as [H H3].
  apply andb_true_iff in H. destruct H as [H1 H2].
  repeat split; auto.
  - rewrite forallb_forall in H3. specialize (H3 _ H). now apply andb_true_iff in H3.
  - rewrite forallb_forall in H3. specialize (H3 _ H). now apply andb_true_iff in H3.
  - intros Hs. rewrite Hs in H4. simpl in H4.
    destruct (get_opt border "color"); try discriminate. reflexivity.
Qed.

Lemma side_is_not_color side : In side borderSides -> (side =? "color") = false.
Proof. intros [<-|[<-|[<-|[<-|[]]]]]; reflexivity. Qed.

Lemma side_is_not_radius side : In side borderSides -> (side =? "radius") = false.
Proof. intros [<-|[<-|[<-|[<-|[]]]]]; reflexivity. Qed.

(** The colours that hydration reads back after a flat edit. *)
Lemma rehydrate_flat_edit style colors newBorder :
  is_palette colors = true ->
  slugs_determine_colors colors = true ->
  well_formed style = true ->
  well_formed newBorder = true ->
  border_value newBorder = true ->
  hasSplitBorders newBorder = false ->
  exists update hydrated,
    onBorderChange style colors newBorder = Ok update
    /\ getBorderObject update colors = Ok hydrated
    /\ get_opt hydrated "color" = get_opt newBorder "color"
    /\ forall side, In side borderSides ->
         get_opt (get_opt hydrated side) "color" = get_opt (get_opt newBorder side) "color".
Proof.
  intros Hp Hd Hs Hn Hv Hflat.
  destruct (border_value_parts _ Hv) as (Hr & Hc & Hsides & _).
  rewrite (onBorderChange_palette _ _ _ Hp).
  eexists. eexists. split; [reflexivity|].
  erewrite getBorderObject_palette; [|exact Hp|reflexivity]. cbv zeta.
  rewrite !update_style, !update_borderColor, !update_sideBorderColors.
  unfold edited_borderColor, edited_sideBorderColors. rewrite Hflat. cbn [truthy].
  split; [reflexivity|].
  pose proof (well_formed_edited_styles colors _ Hn) as Hwe.
  destruct (stored_border style (edited_styles colors newBorder) Hs Hwe) as (fs & Hb & Hwb).
  assert (Hrb : is_record (get_opt (cleanEmptyObject
                  (style_with_border style (edited_styles colors newBorder))) "border") = true)
    by (rewrite Hb; apply is_record_clean).
  assert (Hwb' : well_formed (get_opt (cleanEmptyObject
                   (style_with_border style (edited_styles colors newBorder))) "border") = true)
    by (rewrite Hb; now apply well_formed_clean).
  assert (Hside : forall side, In side borderSides ->
            get_opt (get_opt (cleanEmptyObject
              (style_with_border style (edited_styles colors newBorder))) "border") side
            = Undefined).
  { intros side Hin. rewrite (cleaned_border_lookup _ _ _ Hs Hwe).
    destruct (flat_has_no_side _ _ Hr Hflat Hin) as [Hk _].
    assert (Hk' : has_key side (edited_styles colors newBorder) = false).
    { unfold edited_styles, flat_styles. rewrite Hflat.
      assert (Hc0 : has_key side (spread [] newBorder) = false).
      { unfold spread. now rewrite has_key_fold_assign, Hk. }
      destruct (truthy (literal_slug colors (get_opt newBorder "color"))); [|exact Hc0].
      rewrite has_key_assign, Hc0, String.eqb_sym, (side_is_not_color _ Hin). reflexivity. }
    rewrite Hk', (side_is_not_radius _ Hin). reflexivity. }
  assert (Hnb : forall side, In side borderSides ->
            get_opt (get_opt newBorder side) "color" = Undefined).
  { intros side Hin. now rewrite (proj2 (flat_has_no_side _ _ Hr Hflat Hin)). }
  destruct (truthy (literal_slug colors (get_opt newBorder "color"))) eqn:T.
  - destruct (literal_slug_resolves _ _ Hd T) as [Hres Tc]. rewrite Hres, Tc.
    split; [apply get_opt_color_with_color|].
    intros side Hin. rewrite (get_opt_with_color _ _ _ Hrb Hwb'), (side_is_not_color _ Hin).
    now rewrite (Hside _ Hin), (Hnb _ Hin).
  - split.
    + rewrite (stored_flat_color _ colors _ Hs Hn Hflat), T.
      rewrite (spread_record _ Hr Hn), (lookup_entries_record _ _ Hr).
      now apply is_color_clean.
    + intros side Hin. now rewrite (Hside _ Hin), (Hnb _ Hin).
Qed.

Lemma split_names_keys colors newBorder :
  unique_keys (split_names colors newBorder) = true
  /\ lookup "color" (split_names colors newBorder) = Undefined.
Proof.
  unfold split_names, borderSides. cbn [flat_map].
  destruct (truthy (side_slug colors newBorder "top"));
    destruct (truthy (side_slug colors newBorder "right"));
    destruct (truthy (side_slug colors newBorder "bottom"));
    destruct (truthy (side_slug colors newBorder "left"));
    split; reflexivity.
Qed.

(** The colours that hydration reads back after a split edit. *)
Lemma rehydrate_split_edit style colors newBorder :
  is_palette colors = true ->
  slugs_determine_colors colors = true ->
  well_formed style = true ->
  well_formed newBorder = true ->
  border_value newBorder = true ->
  hasSplitBorders newBorder = true ->
  exists update hydrated,
    onBorderChange style colors newBorder = Ok update
    /\ getBorderObject update colors = Ok hydrated
    /\ get_opt hydrated "color" = get_opt newBorder "color"
    /\ forall side, In side borderSides ->
         get_opt (get_opt hydrated side) "color" = get_opt (get_opt newBorder side) "color".
Proof.
  intros Hp Hd Hs Hn Hv Hsplit.
  destruct (border_value_parts _ Hv) as (Hr & Hc & Hsides & Hnone).
  rewrite (onBorderChange_palette _ _ _ Hp).
  eexists. eexists. split; [reflexivity|].
  erewrite getBorderObject_palette; [|exact Hp|reflexivity]. cbv zeta.
  rewrite !update_style, !update_borderColor, !update_sideBorderColors.
  unfold edited_borderColor, edited_sideBorderColors. rewrite Hsplit. cbn [truthy entries].
  split; [reflexivity|].
  pose proof (well_formed_edited_styles colors _ Hn) as Hwe.
  destruct (stored_border style (edited_styles colors newBorder) Hs Hwe) as (fs & Hb & Hwb).
  assert (Hrb : is_record (get_opt (cleanEmptyObject
                  (style_with_border style (edited_styles colors newBorder))) "border") = true)
    by (rewrite Hb; apply is_record_clean).
  assert (Hwb' : well_formed (get_opt (cleanEmptyObject
                   (style_with_border style (edited_styles colors newBorder))) "border") = true)
    by (rewrite Hb; now apply well_formed_clean).
  destruct (split_names_keys colors newBorder) as [Hu Hcolor].
  rewrite (spread_record _ Hrb Hwb'). cbn [get_opt].
  split.
  - rewrite (lookup_hydrate_sides _ _ _ _ Hu), Hcolor, resolved_color_absent. cbn [truthy].
    rewrite (lookup_entries_record _ _ Hrb).
    rewrite (cleaned_border_lookup _ _ _ Hs Hwe).
    unfold edited_styles. rewrite Hsplit. cbn. now rewrite (Hnone Hsplit).
  - intros side Hin.
    rewrite (lookup_hydrate_sides _ _ _ _ Hu).
    destruct (lookup_split_names colors newBorder side Hin) as [_ ->].
    destruct (truthy (side_slug colors newBorder side)) eqn:T.
    + destruct (literal_slug_resolves _ _ Hd T) as [Hres Tc].
      fold (side_slug colors newBorder side) in Hres. rewrite Hres, Tc.
      apply get_opt_color_with_color.
    + rewrite resolved_color_absent. cbn [truthy].
      rewrite (lookup_entries_record _ _ Hrb).
      rewrite (stored_side_color _ colors _ _ Hs Hn Hsplit Hin), T.
      destruct (Hsides _ Hin) as [Hrs Hcs].
      rewrite (spread_record _ Hrs (well_formed_get_opt _ side Hn)).
      rewrite (lookup_entries_record _ _ Hrs).
      now apply is_color_clean.
Qed.

Lemma effective_colors_eq a b :
  get_opt a "color" = get_opt b "color" ->
  (forall side, In side borderSides ->
     get_opt (get_opt a side) "color" = get_opt (get_opt b side) "color") ->
  effective_colors a = effective_colors b.
Proof.
  intros H0 H. unfold effective_colors, borderSides in *. cbn [map].
  rewrite H0, !H by (simpl; tauto). reflexivity.
Qed.

(** Hydrating what an edit of a border value stored shows the colours of
    that border value. *)
Lemma rehydrate_edit style colors newBorder :
  is_palette colors = true ->
  slugs_determine_colors colors = true ->
  well_formed style = true ->
  well_formed newBorder = true ->
  border_value newBorder = true ->
  exists update hydrated,
    onBorderChange style colors newBorder = Ok update
    /\ getBorderObject update colors = Ok hydrated
    /\ effective_colors hydrated = effective_colors newBorder.
Proof.
  intros Hp Hd Hs Hn Hv.
  destruct (hasSplitBorders newBorder) eqn:Hsplit.
  - destruct (rehydrate_split_edit _ _ _ Hp Hd Hs Hn Hv Hsplit) as (u & h & Hu & Hh & H0 & H1).
    exists u, h. repeat split; auto. now apply effective_colors_eq.
  - destruct (rehydrate_flat_edit _ _ _ Hp Hd Hs Hn Hv Hsplit) as (u & h & Hu & Hh & H0 & H1).
    exists u, h. repeat split; auto. now apply effective_colors_eq.
Qed.

(** ** Hydration keeps values well formed *)

Lemma well_formed_palette_entry colors e :
  well_formed colors = true -> In e (palette_entries colors) -> well_formed e = true.
Proof.
  intros Hw Hin. unfold palette_entries in Hin. apply in_flat_map in Hin.
  destruct Hin as (o & Ho & He).
  destruct colors; simpl in Ho; try contradiction.
  cbn [well_formed] in Hw. rewrite forallb_forall in Hw. specialize (Hw o Ho).
  unfold origin_colors in He.
  pose proof (well_formed_get_opt o "colors" Hw) as Hc.
  destruct (get_opt o "colors"); simpl in He; try contradiction.
  cbn [well_formed] in Hc. rewrite forallb_forall in Hc. now apply Hc.
Qed.

Lemma well_formed_first_match colors p v :
  well_formed colors = true -> well_formed (first_match p v (palette_entries colors)) = true.
Proof.
  intros Hw. unfold first_match.
  destruct (find (has_property p v) (palette_entries colors)) eqn:E; [|reflexivity].
  apply find_some in E. now apply (well_formed_palette_entry colors).
Qed.

Lemma well_formed_resolved_color colors namedColor :
  well_formed colors = true -> well_formed (resolved_color colors namedColor) = true.
Proof.
  intros Hw. unfold resolved_color. apply well_formed_get_opt.
  unfold resolveColor. cbn [truthy].
  destruct (truthy namedColor); [|reflexivity].
  destruct (truthy (first_match "slug" namedColor (palette_entries colors)));
    [now apply well_formed_first_match | reflexivity].
Qed.

Lemma well_formed_with_color color stored :
  well_formed color = true -> well_formed stored = true ->
  well_formed (with_color color stored) = true.
Proof.
  intros Hc Hs. unfold with_color. apply well_formed_assign; [exact Hc|].
  now apply well_formed_spread.
Qed.

Lemma well_formed_hydrate_sides colors es h :
  well_formed colors = true -> well_formed (Obj h) = true ->
  well_formed (Obj (fold_left (hydrate_side colors) es h)) = true.
Proof.
  intros Hw. revert h. induction es as [|[side slug] es IH]; intros h Hh; [exact Hh|].
  cbn [fold_left]. apply IH. unfold hydrate_side. cbn [fst snd].
  destruct (truthy (resolved_color colors slug)); [|exact Hh].
  apply well_formed_assign; [|exact Hh].
  apply well_formed_with_color; [now apply well_formed_resolved_color|].
  now apply well_formed_lookup.
Qed.

Lemma well_formed_hydrated attributes colors hydrated :
  is_palette colors = true -> well_formed colors = true ->
  nullish attributes = false -> well_formed attributes = true ->
  getBorderObject attributes colors = Ok hydrated ->
  well_formed hydrated = true.
Proof.
  intros Hp Hw Ha Hwa. rewrite (getBorderObject_palette _ _ Hp Ha). cbv zeta.
  intros [= <-].
  assert (Hb : well_formed (get_opt (get_opt attributes "style") "border") = true)
    by now repeat apply well_formed_get_opt.
  destruct (truthy (get_opt attributes "borderColor")).
  - destruct (truthy (resolved_color colors (get_opt attributes "borderColor")));
      [|exact Hb].
    apply well_formed_with_color; [now apply well_formed_resolved_color | exact Hb].
  - destruct (truthy (get_opt attributes "sideBorderColors")); [|exact Hb].
    apply well_formed_hydrate_sides; [exact Hw|]. now apply well_formed_spread.
Qed.

(** C5, as amended: on a well-formed palette in which the slug of an
    entry determines its colour, when hydration of a well-formed
    attributes record gives a border value of the data model (a flat
    border or a split one, with string colours), then hydrating, feeding
    the hydrated border through [onBorderChange], taking the whole
    update (the style together with [borderColor] and
    [sideBorderColors]) as the new attributes and hydrating again gives
    the flat colour and the four side colours of the first hydration. *)
Theorem roundtrip_colors (attributes colors hydrated : value) :
  is_palette colors = true ->
  well_formed colors = true ->
  slugs_determine_colors colors = true ->
  nullish attributes = false ->
  well_formed attributes = true ->
  getBorderObject attributes colors = Ok hydrated ->
  border_value hydrated = true ->
  exists rehydrated,
    rehydrate attributes colors = Ok rehydrated
    /\ effective_colors rehydrated = effective_colors hydrated.
Proof.
  intros Hp Hw Hd Ha Hwa Hh Hv.
  pose proof (well_formed_hydrated _ _ _ Hp Hw Ha Hwa Hh) as Hwh.
  pose proof (well_formed_get_opt attributes "style" Hwa) as Hws.
  destruct (rehydrate_edit _ _ _ Hp Hd Hws Hwh Hv) as (u & h & Hu & Hr & He).
  exists h. split; [|exact He].
  unfold rehydrate. rewrite Hh. cbn [bind]. rewrite Hu. exact Hr.
Qed.

Lemma roundtrip_colors_witness :
  exists rehydrated,
    rehydrate side_named_attributes theme_origins = Ok rehydrated
    /\ effective_colors rehydrated
       = [Undefined; Str "#111111"; Undefined; Undefined; Undefined].
Proof.
  exact (roundtrip_colors side_named_attributes theme_origins
           (Obj [("top", Obj [("width", Str "2px"); ("color", Str "#111111")])])
           eq_refl eq_refl eq_refl eq_refl eq_refl eq_refl eq_refl).
Defined.

(** C5 as the spec states it fails.  With [ambiguous_origins] the slug
    [primary] hydrates to ["#111111"]; the edit names that colour
    [accent], the slug of the first entry that has it, and stores no
    literal.  Hydrating the style of the update alone shows no colour,
    and hydrating the whole update shows ["#222222"], the colour of the
    first entry named [accent]. *)
Lemma roundtrip_changes_color :
  is_palette ambiguous_origins = true
  /\ getBorderObject flat_named_attributes ambiguous_origins
     = Ok (Obj [("color", Str "#111111")])
  /\ onBorderChange (get_opt flat_named_attributes "style") ambiguous_origins
       (Obj [("color", Str "#111111")])
     = Ok (Obj [ ("style", Undefined);
                 ("borderColor", Str "accent");
                 ("sideBorderColors", Undefined) ])
  /\ rehydrate_style flat_named_attributes ambiguous_origins = Ok Undefined
  /\ rehydrate flat_named_attributes ambiguous_origins = Ok (Obj [("color", Str "#222222")])
  /\ effective_colors Undefined <> effective_colors (Obj [("color", Str "#111111")])
  /\ effective_colors (Obj [("color", Str "#222222")])
     <> effective_colors (Obj [("color", Str "#111111")]).
Proof. repeat split; discriminate. Qed.

(** A border that is flat and split at once is not a border value: the
    edit takes it for a split one and drops the flat colour. *)
Example roundtrip_mixed_border :
  getBorderObject mixed_attributes theme_origins
  = Ok (Obj [("color", Str "#ff0000"); ("top", Obj [("color", Str "#00ff00")])])
  /\ border_value (Obj [("color", Str "#ff0000"); ("top", Obj [("color", Str "#00ff00")])])
     = false
  /\ rehydrate mixed_attributes theme_origins
     = Ok (Obj [("top", Obj [("color", Str "#00ff00")])]).
Proof. repeat split. Qed.

(** * Further properties of the border hooks *)

(** ** Block support and the panel *)

Lemma truthy_js_or a b : truthy (js_or a b) = truthy a || truthy b.
Proof. unfold js_or. destruct (truthy a) eqn:E; [now rewrite E | reflexivity]. Qed.

Lemma truthy_js_and a b : truthy (js_and a (Bool b)) = truthy a && b.
Proof. unfold js_and. destruct (truthy a) eqn:E; [reflexivity | now rewrite E]. Qed.

Lemma hasBorderSupport_any os support :
  hasBorderSupport os support "any"
  = hasBorderSupport os support "color" || hasBorderSupport os support "radius"
    || hasBorderSupport os support "width" || hasBorderSupport os support "style".
Proof.
  unfold hasBorderSupport. destruct (os =? "web"); [|reflexivity]. cbn [negb].
  destruct (strict_eq support (Bool true)); [reflexivity|].
  cbn [String.eqb Ascii.eqb Bool.eqb]. now rewrite !truthy_js_or.
Qed.

(** A block supports border in general exactly when it supports one of
    the four features, on the web; off the web it supports none. *)
Theorem support_any_iff_feature (os : string) (support : value) :
  (hasBorderSupport os support "any" = true
   <-> exists feature, In feature ["color"; "radius"; "width"; "style"]
                       /\ hasBorderSupport os support feature = true)
  /\ (os <> "web" -> forall feature, hasBorderSupport os support feature = false).
Proof.
  split.
  - rewrite hasBorderSupport_any. split.
    + intros H. repeat (apply orb_true_iff in H; destruct H as [H|H]);
        eexists; (split; [|exact H]); simpl; tauto.
    + intros (f & Hin & Hf). simpl in Hin.
      destruct Hin as [<-|[<-|[<-|[<-|[]]]]]; rewrite Hf;
        rewrite ?orb_true_r; reflexivity.
  - intros Hos feature. unfold hasBorderSupport.
    apply String.eqb_neq in Hos. now rewrite Hos.
Qed.

Lemma support_any_iff_feature_witness :
  hasBorderSupport "web" (Obj [("width", Bool true)]) "any" = true
  /\ hasBorderSupport "native" (Bool true) "color" = false.
Proof.
  destruct (support_any_iff_feature "web" (Obj [("width", Bool true)])) as [[_ H] _].
  destruct (support_any_iff_feature "native" (Bool true)) as [_ H'].
  split.
  - apply H. exists "width". split; [simpl; auto | reflexivity].
  - apply H'. discriminate.
Defined.

(** The panel renders exactly when one of the four features is both
    enabled by its setting and supported by the block: the separate test
    of [isSupported] never decides. *)
Theorem panel_renders_iff_feature (os : string) (support : value)
  (colorSetting radiusSetting styleSetting widthSetting : value) :
  borderPanelRenders os support colorSetting radiusSetting styleSetting widthSetting
  = (truthy colorSetting && hasBorderSupport os support "color")
    || (truthy radiusSetting && hasBorderSupport os support "radius")
    || (truthy styleSetting && hasBorderSupport os support "style")
    || (truthy widthSetting && hasBorderSupport os support "width").
Proof.
  unfold borderPanelRenders. rewrite hasBorderSupport_any, !truthy_js_and.
  cbn [forallb].
  destruct (truthy colorSetting), (truthy radiusSetting), (truthy styleSetting),
    (truthy widthSetting), (hasBorderSupport os support "color"),
    (hasBorderSupport os support "radius"), (hasBorderSupport os support "style"),
    (hasBorderSupport os support "width"); reflexivity.
Qed.

(** ** The two resets *)

Lemma get_opt_assign k v fs k' :
  get_opt (Obj (assign k v fs)) k' = if k =? k' then v else lookup k' fs.
Proof. cbn [get_opt]. apply lookup_assign. Qed.

Lemma lookup_spread_record v k :
  is_record v = true -> well_formed v = true -> lookup k (spread [] v) = get_opt v k.
Proof.
  intros Hr Hw. now rewrite (spread_record _ Hr Hw), (lookup_entries_record _ _ Hr).
Qed.

Ltac read_assigned :=
  repeat (first [rewrite get_opt_assign | rewrite lookup_assign];
          cbn [String.eqb Ascii.eqb Bool.eqb]).

(** [resetBorderFilter] clears the two named colours, keeps every other
    attribute and every style property other than the border, and stores
    the border [{ radius }] whatever the radius. *)
Theorem resetBorderFilter_frame (newAttributes : value) :
  nullish newAttributes = false ->
  is_record newAttributes = true ->
  well_formed newAttributes = true ->
  is_record (get_opt newAttributes "style") = true ->
  exists update,
    resetBorderFilter newAttributes = Ok update
    /\ get_opt update "borderColor" = Undefined
    /\ get_opt update "sideBorderColors" = Undefined
    /\ (forall k, k <> "borderColor" -> k <> "sideBorderColors" -> k <> "style" ->
          get_opt update k = get_opt newAttributes k)
    /\ get_opt (get_opt update "style") "border"
       = Obj [("radius", get_opt (get_opt (get_opt newAttributes "style") "border") "radius")]
    /\ (forall k, k <> "border" ->
          get_opt (get_opt update "style") k = get_opt (get_opt newAttributes "style") k).
Proof.
  intros Hn Hr Hw Hs. unfold resetBorderFilter.
  rewrite (get_defined _ _ Hn). cbn [bind].
  pose proof (well_formed_get_opt _ "style" Hw) as Hws.
  eexists. split; [reflexivity|].
  split; [|split; [|split; [|split]]].
  - read_assigned. reflexivity.
  - read_assigned. reflexivity.
  - intros k H1 H2 H3.
    apply String.eqb_neq in H1, H2, H3. rewrite String.eqb_sym in H1, H2, H3.
    rewrite get_opt_assign, H3, !lookup_assign, H1, H2. now apply lookup_spread_record.
  - read_assigned. reflexivity.
  - intros k Hk. apply String.eqb_neq in Hk. rewrite String.eqb_sym in Hk.
    rewrite (get_opt_assign "style"). cbn [String.eqb Ascii.eqb Bool.eqb].
    rewrite get_opt_assign, Hk. now apply lookup_spread_record.
Qed.

Lemma resetBorderFilter_frame_witness :
  exists update,
    resetBorderFilter (Obj [ ("borderColor", Str "primary"); ("align", Str "wide");
                             ("style", Obj [("border", Obj [("width", Str "1px")])]) ])
    = Ok update
    /\ get_opt update "borderColor" = Undefined
    /\ get_opt update "align" = Str "wide"
    /\ get_opt (get_opt update "style") "border" = Obj [("radius", Undefined)].
Proof.
  destruct (resetBorderFilter_frame
              (Obj [ ("borderColor", Str "primary"); ("align", Str "wide");
                     ("style", Obj [("border", Obj [("width", Str "1px")])]) ])
              eq_refl eq_refl eq_refl eq_refl) as (u & Hu & Hb & _ & Hk & Hbd & _).
  exists u. split; [exact Hu|]. split; [exact Hb|]. split; [|exact Hbd].
  rewrite Hk by discriminate. reflexivity.
Defined.

(** The two resets agree on the named colours and on the style outside
    the border; the border of [resetBorder] is the cleaned border of
    [resetBorderFilter], which is not cleaned: without a radius the
    former is [undefined] and the latter [{ radius: undefined }]. *)
Theorem resets_agree (attributes : value) :
  nullish attributes = false ->
  well_formed attributes = true ->
  exists update filtered,
    resetBorder (Obj [("attributes", attributes)]) = Ok update
    /\ resetBorderFilter attributes = Ok filtered
    /\ get_opt update "borderColor" = get_opt filtered "borderColor"
    /\ get_opt update "sideBorderColors" = get_opt filtered "sideBorderColors"
    /\ get_opt (get_opt update "style") "border"
       = cleanEmptyObject (get_opt (get_opt filtered "style") "border")
    /\ (forall k, k <> "border" ->
          get_opt (get_opt update "style") k = get_opt (get_opt filtered "style") k)
    /\ (get_opt (get_opt (get_opt attributes "style") "border") "radius" = Undefined ->
        get_opt (get_opt update "style") "border" = Undefined
        /\ get_opt (get_opt filtered "style") "border" = Obj [("radius", Undefined)]).
Proof.
  intros Hn Hw. unfold resetBorder, resetBorderFilter.
  cbn [get lookup String.eqb Ascii.eqb Bool.eqb bind].
  assert (Ha : match attributes with Undefined => Obj [] | _ => attributes end = attributes)
    by (destruct attributes; try reflexivity; discriminate).
  rewrite Ha, (get_defined _ _ Hn). cbn [bind].
  eexists. eexists. split; [reflexivity|]. split; [reflexivity|].
  assert (Hst : forall a b c,
             get_opt (Obj [("borderColor", a); ("sideBorderColors", b); ("style", c)]) "style"
             = c) by reflexivity.
  rewrite !Hst.
  split; [|split; [|split; [|split]]].
  - read_assigned. reflexivity.
  - read_assigned. reflexivity.
  - read_assigned. reflexivity.
  - intros k Hk. apply String.eqb_neq in Hk. rewrite String.eqb_sym in Hk.
    rewrite (get_opt_assign "style"). cbn [String.eqb Ascii.eqb Bool.eqb].
    now rewrite !get_opt_assign, Hk.
  - intros H. read_assigned. rewrite H. split; reflexivity.
Qed.

Lemma resets_agree_witness :
  exists update filtered,
    resetBorder bordered_props = Ok update
    /\ resetBorderFilter (get_opt bordered_props "attributes") = Ok filtered
    /\ get_opt (get_opt update "style") "border" = Obj [("radius", Str "4px")]
    /\ get_opt (get_opt filtered "style") "border" = Obj [("radius", Str "4px")].
Proof.
  destruct (resets_agree (get_opt bordered_props "attributes") eq_refl eq_refl)
    as (u & f & Hu & Hf & _ & _ & Hb & _).
  exists u, f. split; [exact Hu|]. split; [exact Hf|].
  injection Hf as <-. split; [rewrite Hb|]; reflexivity.
Defined.

(** ** Removing one border attribute *)

(** [removeBorderAttribute] removes the attribute from the border and
    nothing else: every other property of the border and of the style is
    the stored one, cleaned, and the result is normalized. *)
Theorem removeBorderAttribute_frame (style : value) (attribute : string) :
  well_formed style = true ->
  is_record style = true ->
  is_record (get_opt style "border") = true ->
  (forall k, get_opt (get_opt (removeBorderAttribute style attribute) "border") k
             = if k =? attribute then Undefined
               else cleanEmptyObject (get_opt (get_opt style "border") k))
  /\ (forall k, k <> "border" ->
        get_opt (removeBorderAttribute style attribute) k
        = cleanEmptyObject (get_opt style k))
  /\ normalized (removeBorderAttribute style attribute) = true.
Proof.
  intros Hw Hr Hb. unfold removeBorderAttribute.
  pose proof (well_formed_get_opt _ "border" Hw) as Hwb.
  assert (Hwn : well_formed (Obj (assign attribute Undefined
                                    (spread [] (get_opt style "border")))) = true).
  { apply well_formed_assign; [reflexivity|]. now apply well_formed_spread. }
  assert (Hws : well_formed (Obj (assign "border"
                  (Obj (assign attribute Undefined (spread [] (get_opt style "border"))))
                  (spread [] style))) = true).
  { apply well_formed_assign; [exact Hwn|]. now apply well_formed_spread. }
  split; [|split].
  - intros k. rewrite (get_opt_clean _ "border" Hws), get_opt_assign, String.eqb_refl.
    rewrite (get_opt_clean _ k Hwn), get_opt_assign, String.eqb_sym.
    destruct (k =? attribute); [reflexivity|].
    now rewrite lookup_spread_record.
  - intros k Hk. apply String.eqb_neq in Hk. rewrite String.eqb_sym in Hk.
    rewrite (get_opt_clean _ k Hws), get_opt_assign, Hk.
    now rewrite lookup_spread_record.
  - apply normalized_clean.
Qed.

Lemma removeBorderAttribute_frame_witness :
  get_opt (get_opt (removeBorderAttribute
                      (Obj [ ("color", Obj [("text", Str "#000000")]);
                             ("border", Obj [("width", Str "1px"); ("style", Str "solid")]) ])
                      "width") "border") "style" = Str "solid"
  /\ removeBorderAttribute (Obj [("border", Obj [("width", Str "1px")])]) "width" = Undefined.
Proof.
  destruct (removeBorderAttribute_frame
              (Obj [ ("color", Obj [("text", Str "#000000")]);
                     ("border", Obj [("width", Str "1px"); ("style", Str "solid")]) ])
              "width" eq_refl eq_refl eq_refl) as (H & _ & _).
  split; [rewrite H|]; reflexivity.
Defined.

(** ** What an edit keeps of the prior style *)

Lemma stored_style_lookup style border k :
  well_formed style = true -> is_record style = true ->
  well_formed (Obj border) = true ->
  k <> "border" ->
  get_opt (cleanEmptyObject (style_with_border style border)) k
  = cleanEmptyObject (get_opt style k).
Proof.
  intros Hw Hr Hb Hk.
  rewrite (get_opt_clean _ _ (well_formed_style_with_border _ _ Hw Hb)).
  unfold style_with_border. apply String.eqb_neq in Hk. rewrite String.eqb_sym in Hk.
  rewrite get_opt_assign, Hk. now rewrite lookup_spread_record.
Qed.

(** An edit of the border keeps every other property of the style, cleaned
    like the border. *)
Theorem edit_keeps_other_styles (style colors newBorder : value) :
  is_palette colors = true ->
  well_formed style = true ->
  is_record style = true ->
  well_formed newBorder = true ->
  exists update,
    onBorderChange style colors newBorder = Ok update
    /\ forall k, k <> "border" ->
         get_opt (get_opt update "style") k = cleanEmptyObject (get_opt style k).
Proof.
  intros Hp Hw Hr Hn. rewrite (onBorderChange_palette _ _ _ Hp).
  eexists. split; [reflexivity|]. intros k Hk. rewrite update_style.
  apply stored_style_lookup; auto. now apply well_formed_edited_styles.
Qed.

Lemma edit_keeps_other_styles_witness :
  exists update,
    onBorderChange (Obj [ ("color", Obj [("text", Str "#000000")]);
                          ("border", Obj [("width", Str "1px")]) ])
      theme_origins split_edit = Ok update
    /\ get_opt (get_opt update "style") "color" = Obj [("text", Str "#000000")].
Proof.
  destruct (edit_keeps_other_styles
              (Obj [ ("color", Obj [("text", Str "#000000")]);
                     ("border", Obj [("width", Str "1px")]) ])
              theme_origins split_edit eq_refl eq_refl eq_refl eq_refl) as (u & Hu & Hk).
  exists u. split; [exact Hu|]. rewrite Hk by discriminate. reflexivity.
Defined.

Lemma stored_border_value style border :
  well_formed style = true -> well_formed (Obj border) = true ->
  get_opt (cleanEmptyObject (style_with_border style border)) "border"
  = cleanEmptyObject
      (Obj (spread [("radius", get_opt (get_opt style "border") "radius")] (Obj border))).
Proof.
  intros Hs Hb. rewrite (get_opt_clean _ _ (well_formed_style_with_border _ _ Hs Hb)).
  unfold style_with_border. now rewrite get_opt_assign, String.eqb_refl.
Qed.

(** An edit replaces the whole border: of the prior border only the
    radius is read, so two prior styles with the same radius give the
    same border and the same named colours. *)
Theorem edit_replaces_border (style1 style2 colors newBorder : value) :
  is_palette colors = true ->
  well_formed style1 = true ->
  well_formed style2 = true ->
  well_formed newBorder = true ->
  get_opt (get_opt style1 "border") "radius" = get_opt (get_opt style2 "border") "radius" ->
  exists update1 update2,
    onBorderChange style1 colors newBorder = Ok update1
    /\ onBorderChange style2 colors newBorder = Ok update2
    /\ get_opt (get_opt update1 "style") "border" = get_opt (get_opt update2 "style") "border"
    /\ get_opt update1 "borderColor" = get_opt update2 "borderColor"
    /\ get_opt update1 "sideBorderColors" = get_opt update2 "sideBorderColors".
Proof.
  intros Hp H1 H2 Hn Hr. rewrite !(onBorderChange_palette _ _ _ Hp).
  eexists. eexists. split; [reflexivity|]. split; [reflexivity|].
  rewrite !update_style, !update_borderColor, !update_sideBorderColors.
  pose proof (well_formed_edited_styles colors _ Hn) as Hw.
  rewrite !stored_border_value by assumption. rewrite Hr. repeat split.
Qed.

Lemma edit_replaces_border_witness :
  exists update1 update2,
    onBorderChange (Obj [("border", Obj [("width", Str "9px"); ("color", Str "#ff0000")])])
      theme_origins (Obj [("style", Str "dashed")]) = Ok update1
    /\ onBorderChange Undefined theme_origins (Obj [("style", Str "dashed")]) = Ok update2
    /\ get_opt (get_opt update1 "style") "border" = get_opt (get_opt update2 "style") "border".
Proof.
  destruct (edit_replaces_border
              (Obj [("border", Obj [("width", Str "9px"); ("color", Str "#ff0000")])])
              Undefined theme_origins (Obj [("style", Str "dashed")])
              eq_refl eq_refl eq_refl eq_refl eq_refl) as (u1 & u2 & H1 & H2 & H3 & _).
  exists u1, u2. repeat split; assumption.
Defined.

Lemma not_side_has_no_key colors newBorder k :
  ~ In k borderSides -> has_key k (split_styles colors newBorder) = false.
Proof.
  intros H. unfold split_styles, borderSides, has_key in *. cbn [map existsb fst].
  repeat match goal with
    | |- context [?s =? k] =>
        let E := fresh in
        destruct (s =? k) eqn:E;
        [apply String.eqb_eq in E; exfalso; apply H; subst; simpl; tauto|]
    end.
  reflexivity.
Qed.

(** The fields of the new border other than the colour are stored as
    they are given, cleaned: those of the flat border in the flat case,
    those of each side in the split case, where every key of the new
    border that is not a side is dropped. *)
Theorem edit_stores_fields (style colors newBorder : value) :
  is_palette colors = true ->
  well_formed style = true ->
  well_formed newBorder = true ->
  is_record newBorder = true ->
  exists update,
    onBorderChange style colors newBorder = Ok update
    /\ (hasSplitBorders newBorder = false ->
        forall k, k <> "color" -> k <> "radius" ->
          get_opt (get_opt (get_opt update "style") "border") k
          = cleanEmptyObject (get_opt newBorder k))
    /\ (hasSplitBorders newBorder = true ->
        (forall side k, In side borderSides ->
           is_record (get_opt newBorder side) = true -> k <> "color" ->
           get_opt (get_opt (get_opt (get_opt update "style") "border") side) k
           = cleanEmptyObject (get_opt (get_opt newBorder side) k))
        /\ (forall k, ~ In k borderSides -> k <> "radius" ->
              get_opt (get_opt (get_opt update "style") "border") k = Undefined)).
Proof.
  intros Hp Hs Hn Hr. rewrite (onBorderChange_palette _ _ _ Hp).
  eexists. split; [reflexivity|]. rewrite !update_style.
  pose proof (well_formed_edited_styles colors _ Hn) as Hwe.
  split.
  - intros Hflat k Hc Hrad.
    rewrite (cleaned_border_lookup _ _ _ Hs Hwe).
    apply String.eqb_neq in Hc, Hrad. rewrite Hrad.
    assert (Hk : has_key k (edited_styles colors newBorder) = has_key k (entries newBorder)
                 /\ lookup k (edited_styles colors newBorder) = get_opt newBorder k).
    { unfold edited_styles, flat_styles. rewrite Hflat, (spread_record _ Hr Hn).
      rewrite String.eqb_sym in Hc.
      destruct (truthy (literal_slug colors (get_opt newBorder "color")));
        rewrite ?has_key_assign, ?lookup_assign, ?Hc;
        (split; [reflexivity | now apply lookup_entries_record]). }
    destruct Hk as [-> ->].
    destruct (has_key k (entries newBorder)) eqn:K; [reflexivity|].
    now rewrite <- (lookup_entries_record _ _ Hr), (has_key_false_lookup _ _ K).
  - intros Hsplit. split.
    + intros side k Hside Hrs Hc.
      rewrite (cleaned_border_lookup _ _ _ Hs Hwe).
      unfold edited_styles. rewrite Hsplit.
      destruct (lookup_split_styles colors newBorder side Hside) as [-> Hl].
      rewrite get_opt_clean by now apply well_formed_lookup, well_formed_split_styles.
      rewrite Hl. unfold split_side_style. apply String.eqb_neq in Hc.
      rewrite String.eqb_sym in Hc.
      pose proof (well_formed_get_opt _ side Hn) as Hws.
      destruct (truthy (side_slug colors newBorder side));
        rewrite ?get_opt_assign, ?Hc; cbn [get_opt];
        now rewrite (lookup_spread_record _ _ Hrs Hws).
    + intros k Hk Hrad. rewrite (cleaned_border_lookup _ _ _ Hs Hwe).
      unfold edited_styles. rewrite Hsplit, (not_side_has_no_key _ _ _ Hk).
      apply String.eqb_neq in Hrad. now rewrite Hrad.
Qed.

Lemma edit_stores_fields_witness :
  exists update,
    onBorderChange Undefined theme_origins
      (Obj [("color", Str "#111111"); ("width", Str "2px"); ("style", Str "dotted")])
    = Ok update
    /\ get_opt (get_opt (get_opt update "style") "border") "width" = Str "2px"
    /\ get_opt (get_opt (get_opt update "style") "border") "style" = Str "dotted".
Proof.
  destruct (edit_stores_fields Undefined theme_origins
              (Obj [("color", Str "#111111"); ("width", Str "2px"); ("style", Str "dotted")])
              eq_refl eq_refl eq_refl eq_refl) as (u & Hu & Hflat & _).
  exists u. split; [exact Hu|].
  split; rewrite (Hflat eq_refl) by discriminate; reflexivity.
Defined.

(** ** The scan of the palette *)

Lemma some_color_stop p v skipped e unread :
  forallb (fun x => negb (nullish x)) skipped = true ->
  (forall x, In x skipped -> has_property p v x = false) ->
  some_color p v (skipped ++ e :: unread)%list
  = (x <- get e p ;; if strict_eq x v then Ok (Some e) else some_color p v unread).
Proof.
  induction skipped as [|s skipped IH]; intros Hn Hm; [reflexivity|].
  cbn [forallb] in Hn. apply andb_prop in Hn. destruct Hn as [Hs Hn].
  apply negb_true_iff in Hs. cbn [app some_color].
  rewrite (get_defined _ p Hs). cbn [bind].
  pose proof (Hm s (or_introl eq_refl)) as Hf. unfold has_property in Hf. rewrite Hf.
  apply IH; [exact Hn|]. intros x Hx. apply Hm. now right.
Qed.

Lemma some_origin_skip p v before rest :
  forallb is_origin before = true ->
  (forall x, In x (flat_map origin_colors before) -> has_property p v x = false) ->
  some_origin p v (before ++ rest)%list = some_origin p v rest.
Proof.
  induction before as [|o before IH]; intros Ho Hm; [reflexivity|].
  cbn [forallb] in Ho. apply andb_prop in Ho. destruct Ho as [Ho Hb].
  destruct (is_origin_colors o Ho) as [Hg Hn].
  cbn [app some_origin]. rewrite Hg. cbn [bind as_array].
  rewrite (some_color_find _ _ _ Hn).
  rewrite find_none_iff.
  - cbn [bind]. apply IH; [exact Hb|]. intros x Hx. apply Hm.
    cbn [flat_map]. apply in_or_app. now right.
  - intros x Hx. apply Hm. cbn [flat_map]. apply in_or_app. now left.
Qed.

Lemma get_colors_array origin es :
  get_opt origin "colors" = Arr es -> get origin "colors" = Ok (Arr es).
Proof. destruct origin; cbn [get_opt]; try discriminate. intros H. cbn [get]. now rewrite H. Qed.

(** The scan of [getColorByProperty] stops at the first entry that has
    the value: the entries after it in the same origin and the origins
    after that one are not read, whatever they are. *)
Theorem search_stops_at_first_match (property : string) (v : value)
  (before skipped : list value) (origin e : value)
  (unread_entries unread_origins : list value) :
  forallb is_origin before = true ->
  (forall x, In x (flat_map origin_colors before) -> has_property property v x = false) ->
  get_opt origin "colors" = Arr (skipped ++ e :: unread_entries)%list ->
  forallb (fun x => negb (nullish x)) skipped = true ->
  (forall x, In x skipped -> has_property property v x = false) ->
  nullish e = false ->
  has_property property v e = true ->
  getColorByProperty (Arr (before ++ origin :: unread_origins)%list) property v = Ok e.
Proof.
  intros Hb Hbm Ho Hs Hsm He Hm. unfold getColorByProperty. cbn [as_array bind].
  rewrite (some_origin_skip _ _ _ _ Hb Hbm). cbn [some_origin].
  rewrite (get_colors_array _ _ Ho). cbn [bind as_array].
  rewrite (some_color_stop _ _ _ _ _ Hs Hsm), (get_defined _ _ He). cbn [bind].
  unfold has_property in Hm. now rewrite Hm.
Qed.

Lemma search_stops_at_first_match_witness :
  getColorByProperty
    (Arr [ Obj [("colors", Arr [Obj [("slug", Str "base"); ("color", Str "#ffffff")]])];
           Obj [("colors", Arr [ Obj [("slug", Str "contrast"); ("color", Str "#000000")];
                                 primary_entry; Null; Undefined ])];
           Null; Str "no origin" ])
    "slug" (Str "primary")
  = Ok primary_entry.
Proof.
  apply (search_stops_at_first_match "slug" (Str "primary")
           [Obj [("colors", Arr [Obj [("slug", Str "base"); ("color", Str "#ffffff")]])]]
           [Obj [("slug", Str "contrast"); ("color", Str "#000000")]]
           (Obj [("colors", Arr [ Obj [("slug", Str "contrast"); ("color", Str "#000000")];
                                  primary_entry; Null; Undefined ])])
           primary_entry [Null; Undefined] [Null; Str "no origin"]).
  - reflexivity.
  - intros x [<-|[]]. reflexivity.
  - reflexivity.
  - reflexivity.
  - intros x [<-|[]]. reflexivity.
  - reflexivity.
  - reflexivity.
Defined.

(** The scan raises a [TypeError] when, before any entry has the value,
    it reaches an origin whose [colors] is not an array or an entry that
    is [undefined] or [null]. *)
Theorem search_raises_before_match (property : string) (v : value)
  (before : list value) (origin : value) (rest : list value) :
  forallb is_origin before = true ->
  (forall x, In x (flat_map origin_colors before) -> has_property property v x = false) ->
  ((forall es, get_opt origin "colors" <> Arr es)
   \/ exists skipped e unread,
        get_opt origin "colors" = Arr (skipped ++ e :: unread)%list
        /\ forallb (fun x => negb (nullish x)) skipped = true
        /\ (forall x, In x skipped -> has_property property v x = false)
        /\ nullish e = true) ->
  getColorByProperty (Arr (before ++ origin :: rest)%list) property v = TypeError.
Proof.
  intros Hb Hbm Ho. unfold getColorByProperty. cbn [as_array bind].
  rewrite (some_origin_skip _ _ _ _ Hb Hbm). cbn [some_origin].
  destruct Ho as [Ho | (skipped & e & unread & Ho & Hs & Hsm & He)].
  - destruct origin as [| | b | s | xs | fs]; try reflexivity.
    cbn [get bind]. cbn [get_opt] in Ho.
    destruct (lookup "colors" fs) as [| | b | s | es | gs]; try reflexivity.
    now destruct (Ho es).
  - rewrite (get_colors_array _ _ Ho). cbn [bind as_array].
    rewrite (some_color_stop _ _ _ _ _ Hs Hsm).
    destruct e; try discriminate; reflexivity.
Qed.

Lemma search_raises_before_match_witness :
  getColorByProperty
    (Arr [ Obj [("colors", Arr [primary_entry])]; Obj [("name", Str "Theme")] ])
    "slug" (Str "secondary") = TypeError
  /\ getColorByProperty
       (Arr [ Obj [("colors", Arr [primary_entry; Null])] ])
       "slug" (Str "secondary") = TypeError.
Proof.
  split.
  - apply (search_raises_before_match "slug" (Str "secondary")
             [Obj [("colors", Arr [primary_entry])]] (Obj [("name", Str "Theme")]) []).
    + reflexivity.
    + intros x [<-|[]]. reflexivity.
    + left. intros es. discriminate.
  - apply (search_raises_before_match "slug" (Str "secondary")
             [] (Obj [("colors", Arr [primary_entry; Null])]) []).
    + reflexivity.
    + intros x [].
    + right. exists [primary_entry], Null, []. repeat split.
      intros x [<-|[]]. reflexivity.
Defined.

(** [getMultiOriginColor] reads [colors] exactly when it is given a
    truthy name or a truthy custom colour: with [colors] that is not an
    array it raises a [TypeError] in that case and answers
    [{ color: undefined }] otherwise. *)
Theorem lookup_reads_colors_iff_named (colors namedColor customColor : value) :
  (forall os, colors <> Arr os) ->
  getMultiOriginColor colors namedColor customColor
  = if truthy namedColor || truthy customColor then TypeError
    else Ok (Obj [("color", Undefined)]).
Proof.
  intros Hc.
  assert (Hg : forall p v, getColorByProperty colors p v = TypeError).
  { intros p v. unfold getColorByProperty.
    destruct colors as [| | b | s | os | fs]; try reflexivity. now destruct (Hc os). }
  unfold getMultiOriginColor, customColorObject.
  destruct (truthy namedColor); cbn [orb].
  - now rewrite Hg.
  - destruct (truthy customColor); cbn [negb]; [now rewrite Hg | reflexivity].
Qed.

Lemma lookup_reads_colors_iff_named_witness :
  getMultiOriginColor Undefined (Str "primary") Undefined = TypeError
  /\ getMultiOriginColor Undefined Undefined (Str "") = Ok (Obj [("color", Undefined)]).
Proof.
  split.
  - apply (lookup_reads_colors_iff_named Undefined (Str "primary") Undefined).
    intros os. discriminate.
  - apply (lookup_reads_colors_iff_named Undefined Undefined (Str "")).
    intros os. discriminate.
Defined.

(** ** Hydration and the named colours *)

(** With a truthy [borderColor], [getBorderObject] does not read
    [sideBorderColors]: whatever is stored there, the result, or the
    error, is the same. *)
Theorem flat_name_hides_side_names (fs : fields) (colors x : value) :
  truthy (lookup "borderColor" fs) = true ->
  getBorderObject (Obj (assign "sideBorderColors" x fs)) colors
  = getBorderObject (Obj fs) colors.
Proof.
  intros Hb. unfold getBorderObject. cbn [get bind].
  rewrite !lookup_assign. cbn [String.eqb Ascii.eqb Bool.eqb].
  now rewrite Hb.
Qed.

Lemma flat_name_hides_side_names_witness :
  getBorderObject
    (Obj (assign "sideBorderColors" (Obj [("top", Str "primary")])
            [("borderColor", Str "primary"); ("sideBorderColors", Str "no object")]))
    theme_origins
  = getBorderObject
      (Obj [("borderColor", Str "primary"); ("sideBorderColors", Str "no object")])
      theme_origins.
Proof.
  apply (flat_name_hides_side_names
           [("borderColor", Str "primary"); ("sideBorderColors", Str "no object")]
           theme_origins (Obj [("top", Str "primary")])).
  reflexivity.
Defined.

(** ** After a reset *)

Lemma reset_merged base props update :
  resetBorder props = Ok update ->
  let merged := Obj (spread base update) in
  let border :=
    cleanEmptyObject
      (Obj [("radius",
              get_opt (get_opt (get_opt (get_opt props "attributes") "style") "border")
                "radius")]) in
  get_opt merged "borderColor" = Undefined
  /\ get_opt merged "sideBorderColors" = Undefined
  /\ get_opt (get_opt merged "style") "border" = border.
Proof.
  unfold resetBorder. intros H.
  destruct props as [| | b | s | xs | fs]; try discriminate.
  - destruct (get_opt (Bool b) "attributes") eqn:E; cbn in E; try discriminate.
    cbn in H. injection H as <-. cbn [spread entries fold_left fst snd].
    cbn zeta. read_assigned. repeat split.
  - cbn in H. injection H as <-. cbn [spread entries fold_left fst snd].
    cbn zeta. read_assigned. repeat split.
  - cbn in H. injection H as <-. cbn [spread entries fold_left fst snd].
    cbn zeta. read_assigned. repeat split.
  - cbn [get bind get_opt] in *.
    set (given := lookup "attributes" fs) in *.
    destruct (get match given with Undefined => Obj [] | _ => given end "style")
      as [style|] eqn:Hs; [|discriminate].
    cbn [bind] in H. injection H as <-.
    cbn [spread entries fold_left fst snd]. cbn zeta. read_assigned.
    repeat split.
    destruct given; cbn in Hs; try discriminate; injection Hs as <-; reflexivity.
Qed.

(** After a reset the border has no named colour left, whatever the
    attributes the update is merged into: [hasBorderValue] is then what
    [isDefinedBorder] says of the border that holds the radius alone, and
    [getBorderObject] returns that border without reading the palette. *)
Theorem after_reset (isDefinedBorder : value -> bool) (base : fields)
  (props update colors : value) :
  resetBorder props = Ok update ->
  let border :=
    cleanEmptyObject
      (Obj [("radius",
              get_opt (get_opt (get_opt (get_opt props "attributes") "style") "border")
                "radius")]) in
  hasBorderValue isDefinedBorder (Obj [("attributes", Obj (spread base update))])
  = Ok (isDefinedBorder border)
  /\ getBorderObject (Obj (spread base update)) colors = Ok border.
Proof.
  intros H border. destruct (reset_merged base _ _ H) as (Hb & Hs & Hst).
  cbn [get_opt] in Hb, Hs, Hst. fold border in Hst.
  unfold hasBorderValue, getBorderObject. cbn [get bind lookup String.eqb Ascii.eqb Bool.eqb].
  rewrite Hb, Hs. cbn [truthy orb]. rewrite Hst, !orb_false_r.
  split; [reflexivity|].
  destruct (lookup "style" (spread base update)) as [| | b | s | xs | gs] eqn:E;
    unfold js_or; cbn [truthy];
    try (destruct b); try (destruct (s =? ""));
    cbn [get bind negb lookup]; cbn [get_opt] in Hst; rewrite <- Hst; reflexivity.
Qed.

Lemma after_reset_witness :
  exists update,
    resetBorder bordered_props = Ok update
    /\ hasBorderValue (fun border => negb (is_undefined border))
         (Obj [("attributes", Obj (spread [("align", Str "wide")] update))])
       = Ok (negb (is_undefined
                     (cleanEmptyObject
                        (Obj [("radius",
                                get_opt (get_opt (get_opt (get_opt bordered_props "attributes")
                                                    "style") "border") "radius")])))).
Proof.
  destruct (resetBorder bordered_props) as [update|] eqn:E; [|discriminate].
  exists update. split; [reflexivity|].
  exact (proj1 (after_reset (fun border => negb (is_undefined border))
                  [("align", Str "wide")] bordered_props update Undefined E)).
Defined.

(** ** Registration of the colour attributes *)

Lemma addAttributes_lookup os support settings afs :
  hasBorderSupport os support "color" = true ->
  well_formed settings = true ->
  get_opt settings "attributes" = Obj afs ->
  exists sfs afs',
    addAttributes os support settings = Ok (Obj sfs)
    /\ well_formed (Obj sfs) = true
    /\ lookup "attributes" sfs = Obj afs'
    /\ (forall k, k <> "attributes" -> lookup k sfs = get_opt settings k)
    /\ (forall k, lookup k afs' = added_attribute afs k).
Proof.
  intros Hsup Hw Ha.
  destruct settings as [| | b | s | xs | fs]; try discriminate.
  cbn [get_opt] in Ha.
  pose proof (well_formed_lookup _ "attributes" Hw) as Hwa. rewrite Ha in Hwa.
  unfold addAttributes. rewrite Hsup. cbn [negb get bind]. rewrite Ha. cbn [get bind].
  destruct (truthy (lookup "borderColor" afs)) eqn:Hb;
    [destruct (truthy (lookup "sideBorderColors" afs)) eqn:Hs|]; cbn [andb negb].
  - exists fs, afs. repeat split; auto.
    intros k. unfold added_attribute.
    destruct (k =? "borderColor") eqn:E1.
    { apply String.eqb_eq in E1. subst. now rewrite Hb. }
    destruct (k =? "sideBorderColors") eqn:E2; [|reflexivity].
    apply String.eqb_eq in E2. subst. now rewrite Hb, Hs.
  - eexists. eexists. split; [reflexivity|].
    assert (Hn : well_formed (Obj (assign "sideBorderColors" (Obj [("type", Str "object")])
                                     (spread [] (Obj afs)))) = true).
    { apply well_formed_assign; [reflexivity|]. now apply well_formed_spread. }
    split; [apply well_formed_assign; [exact Hn | now apply well_formed_spread]|].
    split; [apply lookup_assign_same|]. split.
    + intros k Hk. apply String.eqb_neq in Hk. rewrite String.eqb_sym in Hk.
      rewrite lookup_assign, Hk. now apply (lookup_spread_record (Obj fs)).
    + intros k. rewrite lookup_assign, (lookup_spread_record (Obj afs) k eq_refl Hwa).
      cbn [get_opt]. unfold added_attribute. rewrite Hb. cbn [andb].
      rewrite (String.eqb_sym "sideBorderColors" k).
      destruct (k =? "borderColor") eqn:E1.
      { apply String.eqb_eq in E1. subst. cbn [String.eqb Ascii.eqb Bool.eqb]. now rewrite Hb. }
      destruct (k =? "sideBorderColors") eqn:E2; [|reflexivity].
      apply String.eqb_eq in E2. subst. now rewrite Hs.
  - eexists. eexists. split; [reflexivity|].
    assert (Hn : well_formed (Obj (assign "borderColor" (Obj [("type", Str "string")])
                                     (spread [] (Obj afs)))) = true).
    { apply well_formed_assign; [reflexivity|]. now apply well_formed_spread. }
    split; [apply well_formed_assign; [exact Hn | now apply well_formed_spread]|].
    split; [apply lookup_assign_same|]. split.
    + intros k Hk. apply String.eqb_neq in Hk. rewrite String.eqb_sym in Hk.
      rewrite lookup_assign, Hk. now apply (lookup_spread_record (Obj fs)).
    + intros k. rewrite lookup_assign, (lookup_spread_record (Obj afs) k eq_refl Hwa).
      cbn [get_opt]. unfold added_attribute. rewrite Hb. cbn [andb].
      rewrite (String.eqb_sym "borderColor" k).
      destruct (k =? "borderColor") eqn:E1.
      { apply String.eqb_eq in E1. subst. now rewrite Hb. }
      destruct (k =? "sideBorderColors"); reflexivity.
Qed.

(** [addAttributes] never changes a definition that is there: a truthy
    attribute definition, every attribute other than the two colour
    attributes and every other setting of the block are kept. *)
Theorem addAttributes_keeps_definitions (os : string) (support settings : value)
  (afs : fields) :
  hasBorderSupport os support "color" = true ->
  well_formed settings = true ->
  get_opt settings "attributes" = Obj afs ->
  exists settings',
    addAttributes os support settings = Ok settings'
    /\ (forall k, k <> "attributes" -> get_opt settings' k = get_opt settings k)
    /\ (forall k, truthy (lookup k afs) = true
                  \/ (k <> "borderColor" /\ k <> "sideBorderColors") ->
          get_opt (get_opt settings' "attributes") k = lookup k afs).
Proof.
  intros Hsup Hw Ha.
  destruct (addAttributes_lookup _ _ _ _ Hsup Hw Ha) as (sfs & afs' & -> & _ & Hl & Hk & Hd).
  eexists. split; [reflexivity|]. split; [exact Hk|].
  intros k Hc. cbn [get_opt]. rewrite Hl. cbn [get_opt]. rewrite Hd.
  unfold added_attribute. destruct Hc as [Ht | [H1 H2]].
  - destruct (k =? "borderColor"); [now rewrite Ht|].
    destruct (k =? "sideBorderColors"); [|reflexivity].
    now rewrite Ht, andb_false_r.
  - apply String.eqb_neq in H1, H2. now rewrite H1, H2.
Qed.

Lemma addAttributes_keeps_definitions_witness :
  exists settings',
    addAttributes "web" (Obj [("color", Bool true)])
      (Obj [ ("name", Str "core/group");
             ("attributes", Obj [ ("align", Obj [("type", Str "string")]);
                                  ("borderColor", Obj [("type", Str "string");
                                                       ("default", Str "primary")]) ]) ])
    = Ok settings'
    /\ get_opt settings' "name" = Str "core/group"
    /\ get_opt (get_opt settings' "attributes") "borderColor"
       = Obj [("type", Str "string"); ("default", Str "primary")].
Proof.
  destruct (addAttributes_keeps_definitions "web" (Obj [("color", Bool true)])
              (Obj [ ("name", Str "core/group");
                     ("attributes", Obj [ ("align", Obj [("type", Str "string")]);
                                          ("borderColor", Obj [("type", Str "string");
                                                               ("default", Str "primary")]) ]) ])
              _ eq_refl eq_refl eq_refl) as (s' & Hs & Hk & Hd).
  exists s'. split; [exact Hs|]. split.
  - now rewrite Hk by discriminate.
  - rewrite Hd; [reflexivity|]. now left.
Defined.

(** One pass of [addAttributes] adds at most one definition: for a block
    that defines neither colour attribute it adds [borderColor] and leaves
    [sideBorderColors] as it is.  A second pass defines both, and any
    further pass returns the settings unchanged. *)
Theorem addAttributes_settles (os : string) (support settings : value) (afs : fields) :
  hasBorderSupport os support "color" = true ->
  well_formed settings = true ->
  get_opt settings "attributes" = Obj afs ->
  exists once twice,
    addAttributes os support settings = Ok once
    /\ addAttributes os support once = Ok twice
    /\ addAttributes os support twice = Ok twice
    /\ (truthy (lookup "borderColor" afs) = false ->
        get_opt (get_opt once "attributes") "borderColor" = Obj [("type", Str "string")]
        /\ get_opt (get_opt once "attributes") "sideBorderColors"
           = lookup "sideBorderColors" afs)
    /\ truthy (get_opt (get_opt twice "attributes") "borderColor") = true
    /\ truthy (get_opt (get_opt twice "attributes") "sideBorderColors") = true.
Proof.
  intros Hsup Hw Ha.
  destruct (addAttributes_lookup _ _ _ _ Hsup Hw Ha)
    as (sfs1 & afs1 & H1 & Hw1 & Hl1 & _ & Hd1).
  destruct (addAttributes_lookup _ _ (Obj sfs1) afs1 Hsup Hw1 Hl1)
    as (sfs2 & afs2 & H2 & Hw2 & Hl2 & _ & Hd2).
  assert (Hb1 : truthy (lookup "borderColor" afs1) = true).
  { rewrite Hd1. unfold added_attribute. cbn [String.eqb Ascii.eqb Bool.eqb].
    destruct (truthy (lookup "borderColor" afs)) eqn:E; [exact E | reflexivity]. }
  assert (Hb2 : truthy (lookup "borderColor" afs2) = true).
  { rewrite Hd2. unfold added_attribute. cbn [String.eqb Ascii.eqb Bool.eqb].
    now rewrite Hb1. }
  assert (Hs2 : truthy (lookup "sideBorderColors" afs2) = true).
  { rewrite Hd2. unfold added_attribute. cbn [String.eqb Ascii.eqb Bool.eqb].
    rewrite Hb1. cbn [andb].
    destruct (truthy (lookup "sideBorderColors" afs1)) eqn:E; [exact E | reflexivity]. }
  exists (Obj sfs1), (Obj sfs2). split; [exact H1|]. split; [exact H2|]. split.
  - unfold addAttributes. rewrite Hsup. cbn [negb get bind]. rewrite Hl2. cbn [get bind].
    now rewrite Hb2, Hs2.
  - cbn [get_opt]. rewrite Hl1, Hl2. cbn [get_opt]. split; [|split; assumption].
    intros Hb. rewrite !Hd1. unfold added_attribute. cbn [String.eqb Ascii.eqb Bool.eqb].
    now rewrite Hb.
Qed.

Lemma addAttributes_settles_witness :
  exists once twice,
    addAttributes "web" (Bool true) (Obj [("attributes", Obj [])]) = Ok once
    /\ addAttributes "web" (Bool true) once = Ok twice
    /\ addAttributes "web" (Bool true) twice = Ok twice
    /\ get_opt (get_opt once "attributes") "sideBorderColors" = Undefined
    /\ truthy (get_opt (get_opt twice "attributes") "sideBorderColors") = true.
Proof.
  destruct (addAttributes_settles "web" (Bool true) (Obj [("attributes", Obj [])]) []
              eq_refl eq_refl eq_refl) as (once & twice & H1 & H2 & H3 & Ho & _ & Ht).
  exists once, twice. repeat split; try assumption.
  exact (proj2 (Ho eq_refl)).
Defined.

(** With colour support and settings that have no [attributes],
    [addAttributes] raises a [TypeError]; without the support it returns
    such settings as they are. *)
Theorem addAttributes_needs_attributes (os : string) (support settings : value) :
  nullish (get_opt settings "attributes") = true ->
  addAttributes os support settings
  = if hasBorderSupport os support "color" then TypeError else Ok settings.
Proof.
  intros Ha. unfold addAttributes.
  destruct (hasBorderSupport os support "color"); cbn [negb]; [|reflexivity].
  destruct settings as [| | b | s | xs | fs]; try reflexivity.
  cbn [get bind]. cbn [get_opt] in Ha.
  now destruct (lookup "attributes" fs).
Qed.

Lemma addAttributes_needs_attributes_witness :
  addAttributes "web" (Obj [("color", Bool true)]) (Obj [("name", Str "core/spacer")])
  = TypeError
  /\ addAttributes "web" (Obj [("radius", Bool true)]) (Obj [("name", Str "core/spacer")])
     = Ok (Obj [("name", Str "core/spacer")]).
Proof.
  split.
  - exact (addAttributes_needs_attributes "web" (Obj [("color", Bool true)])
             (Obj [("name", Str "core/spacer")]) eq_refl).
  - exact (addAttributes_needs_attributes "web" (Obj [("radius", Bool true)])
             (Obj [("name", Str "core/spacer")]) eq_refl).
Defined.

(** ** The class name of the saved element *)

Lemma concat_cons_nonempty sep t ts : t <> "" -> String.concat sep (t :: ts) <> "".
Proof.
  intros Ht. destruct t as [|c t]; [congruence|].
  destruct ts; cbn [String.concat]; [discriminate|].
  cbn [String.append]. discriminate.
Qed.

(** When [addSaveProps] applies, the [className] it stores is never the
    empty string: it is a non-empty string or [undefined].  Every other
    prop is kept. *)
Theorem addSaveProps_className (os : string) (support : value) (props : fields)
  (attributes : value) :
  hasBorderSupport os support "color" = true ->
  truthy (shouldSkipSerialization support) = false ->
  nullish attributes = false ->
  exists props',
    addSaveProps os support props attributes = Ok props'
    /\ (lookup "className" props' = Undefined
        \/ exists s, s <> "" /\ lookup "className" props' = Str s)
    /\ (forall k, k <> "className" -> lookup k props' = lookup k props).
Proof.
  intros Hsup Hskip Ha. unfold addSaveProps. rewrite Hsup, Hskip. cbn [negb orb].
  rewrite (getBorderClasses_build _ Ha). cbn [bind].
  eexists. split; [reflexivity|]. split.
  - rewrite lookup_assign_same. cbn [truthy].
    destruct (_ =? "") eqn:E; cbn [negb]; [now left|].
    right. eexists. split; [|reflexivity]. now apply String.eqb_neq.
  - intros k Hk. apply lookup_assign_other. congruence.
Qed.

Lemma addSaveProps_className_witness :
  exists props',
    addSaveProps "web" (Obj [("color", Bool true)])
      [("className", Str ""); ("id", Str "intro")] (Obj []) = Ok props'
    /\ lookup "className" props' = Undefined
    /\ lookup "id" props' = Str "intro".
Proof.
  destruct (addSaveProps_className "web" (Obj [("color", Bool true)])
              [("className", Str ""); ("id", Str "intro")] (Obj [])
              eq_refl eq_refl eq_refl) as (props' & H & _ & Hk).
  exists props'. split; [exact H|]. split.
  - vm_compute in H. injection H as <-. reflexivity.
  - now rewrite Hk by discriminate.
Defined.

(** The wrapper props of the editor, for a block without a function of
    its own: the [className] of the border classes and nothing else,
    [undefined] when there is no class.  A function of the block that
    raises makes the new one raise. *)
Theorem edit_wrapper_props (os : string) (support attributes : value) (classes : string) :
  hasBorderSupport os support "color" = true ->
  truthy (shouldSkipSerialization support) = false ->
  getBorderClasses attributes = Ok classes ->
  getEditWrapperProps os support None attributes
  = Ok [("className", if classes =? "" then Undefined else Str classes)]
  /\ (forall existing, existing attributes = TypeError ->
        getEditWrapperProps os support (Some existing) attributes = TypeError).
Proof.
  intros Hsup Hskip Hc.
  split; [|intros existing He; unfold getEditWrapperProps; now rewrite He].
  unfold getEditWrapperProps, addSaveProps. cbn [bind].
  rewrite Hsup, Hskip, Hc. cbn [negb orb bind lookup assign].
  unfold classnames_of. cbn [flat_map class_parts app].
  destruct (classes =? "") eqn:E; [reflexivity|].
  cbn [app String.concat truthy]. now rewrite E.
Qed.

Lemma edit_wrapper_props_witness :
  getEditWrapperProps "web" (Bool true) None
    (Obj [("style", Obj [("border", Obj [("color", Str "#123456")])])])
  = Ok [("className", Str "has-border-color")].
Proof.
  exact (proj1 (edit_wrapper_props "web" (Bool true)
                  (Obj [("style", Obj [("border", Obj [("color", Str "#123456")])])])
                  "has-border-color" eq_refl eq_refl eq_refl)).
Defined.

(** ** Palette styles of the editor *)

Lemma getMultiOriginColor_unnamed colors namedColor :
  truthy namedColor = false ->
  getMultiOriginColor colors namedColor Undefined = Ok (Obj [("color", Undefined)]).
Proof. intros H. unfold getMultiOriginColor, customColorObject. now rewrite H. Qed.

Lemma entries_unique v : well_formed v = true -> is_record v = true ->
  unique_keys (entries v) = true.
Proof.
  destruct v; try discriminate; intros Hw _; [reflexivity|].
  cbn [well_formed] in Hw. apply andb_prop in Hw. exact (proj1 Hw).
Qed.

(** In the inline styles that [withBorderColorPaletteStyles] adds, the
    colour of a side's slug comes before the colour of the flat slug, and
    a style that the wrapper props already have under the same key, even
    [undefined], comes before both.  The other props and the other
    wrapper props are kept. *)
Theorem palette_styles_precedence (os : string) (support colors props : value) :
  hasBorderSupport os support "color" = true ->
  truthy (shouldSkipSerialization support) = false ->
  is_palette colors = true ->
  well_formed props = true ->
  nullish (get_opt props "attributes") = false ->
  is_record (get_opt props "wrapperProps") = true ->
  is_record (get_opt (get_opt props "wrapperProps") "style") = true ->
  let attributes := get_opt props "attributes" in
  let wrapperProps := get_opt props "wrapperProps" in
  exists out,
    withBorderColorPaletteStyles os support colors props = Ok out
    /\ (forall k, k <> "wrapperProps" -> get_opt out k = get_opt props k)
    /\ (forall k, k <> "style" ->
          get_opt (get_opt out "wrapperProps") k = get_opt wrapperProps k)
    /\ (forall side key, In (side, key) sideStyleKeys ->
          get_opt (get_opt (get_opt out "wrapperProps") "style") key
          = if has_key key (entries (get_opt wrapperProps "style"))
            then get_opt (get_opt wrapperProps "style") key
            else js_or (resolved_color colors
                          (get_opt (get_opt attributes "sideBorderColors") side))
                       (resolved_color colors (get_opt attributes "borderColor"))).
Proof.
  intros Hsup Hskip Hp Hw Ha Hrw Hrs attributes wrapperProps.
  destruct props as [| | b | s | xs | pfs]; try discriminate.
  pose proof (well_formed_get_opt _ "wrapperProps" Hw) as Hww.
  pose proof (well_formed_get_opt _ "style" Hww) as Hws.
  unfold withBorderColorPaletteStyles. cbn [get bind].
  change (lookup "attributes" pfs) with attributes.
  rewrite !(get_defined attributes _ Ha). cbn [bind].
  rewrite Hsup, Hskip. cbn [negb orb].
  rewrite !(getMultiOriginColor_palette _ _ _ Hp). cbn [bind].
  rewrite !get_resolveColor. cbn [bind].
  change (lookup "wrapperProps" pfs) with wrapperProps.
  eexists. split; [reflexivity|]. split; [|split].
  - intros k Hk. apply String.eqb_neq in Hk. rewrite String.eqb_sym in Hk.
    rewrite get_opt_assign, Hk. now apply (lookup_spread_record (Obj pfs)).
  - intros k Hk. apply String.eqb_neq in Hk. rewrite String.eqb_sym in Hk.
    rewrite (get_opt_assign "wrapperProps"), String.eqb_refl.
    rewrite get_opt_assign, Hk. now apply lookup_spread_record.
  - intros side key Hin.
    rewrite (get_opt_assign "wrapperProps"), String.eqb_refl.
    rewrite get_opt_assign, String.eqb_refl. cbn [get_opt]. unfold spread.
    rewrite (lookup_fold_assign _ _ _ (entries_unique _ Hws Hrs)).
    rewrite (lookup_entries_record _ _ Hrs). subst wrapperProps attributes.
    destruct (has_key key _); [reflexivity|].
    unfold sideStyleKeys in Hin. cbn [In] in Hin.
    destruct Hin as [E|[E|[E|[E|[]]]]]; injection E as <- <-; reflexivity.
Qed.

Lemma palette_styles_precedence_witness :
  exists out,
    withBorderColorPaletteStyles "web" (Bool true) theme_origins
      (Obj [ ("name", Str "core/group");
             ("attributes", Obj [ ("borderColor", Str "primary");
                                  ("sideBorderColors", Obj [("top", Str "missing")]) ]);
             ("wrapperProps",
               Obj [("style", Obj [("borderLeftColor", Str "#abcdef")])]) ])
    = Ok out
    /\ get_opt (get_opt (get_opt out "wrapperProps") "style") "borderLeftColor"
       = Str "#abcdef"
    /\ get_opt (get_opt (get_opt out "wrapperProps") "style") "borderTopColor"
       = resolved_color theme_origins (Str "primary").
Proof.
  destruct (palette_styles_precedence "web" (Bool true) theme_origins
              (Obj [ ("name", Str "core/group");
                     ("attributes", Obj [ ("borderColor", Str "primary");
                                          ("sideBorderColors", Obj [("top", Str "missing")]) ]);
                     ("wrapperProps",
                       Obj [("style", Obj [("borderLeftColor", Str "#abcdef")])]) ])
              eq_refl eq_refl eq_refl eq_refl eq_refl eq_refl eq_refl)
    as (out & Hout & _ & _ & Hs).
  exists out. split; [exact Hout|]. split.
  - rewrite (Hs "left") by (unfold sideStyleKeys; simpl; tauto). reflexivity.
  - rewrite (Hs "top") by (unfold sideStyleKeys; simpl; tauto). reflexivity.
Defined.

(** For a block without a named colour, [withBorderColorPaletteStyles]
    does not read the palette: whatever [colors] is, even [undefined], it
    returns the same props. *)
Theorem palette_styles_without_names (os : string) (support props : value) :
  nullish (get_opt props "attributes") = false ->
  truthy (get_opt (get_opt props "attributes") "borderColor") = false ->
  (forall side, In side borderSides ->
     truthy (get_opt (get_opt (get_opt props "attributes") "sideBorderColors") side)
     = false) ->
  exists out,
    forall colors, withBorderColorPaletteStyles os support colors props = Ok out.
Proof.
  intros Ha Hb Hs.
  destruct props as [| | b | s | xs | pfs]; try discriminate.
  cbn [get_opt] in Ha, Hb, Hs.
  unfold withBorderColorPaletteStyles. cbn [get bind].
  rewrite !(get_defined _ _ Ha). cbn [bind].
  destruct (negb (hasBorderSupport os support "color")
            || truthy (shouldSkipSerialization support)).
  - eexists. intros colors. reflexivity.
  - eexists. intros colors.
    rewrite (getMultiOriginColor_unnamed _ _ Hb). cbn [bind get].
    rewrite !getMultiOriginColor_unnamed by (apply Hs; simpl; tauto).
    cbn [bind get]. reflexivity.
Qed.

Lemma palette_styles_without_names_witness :
  exists out,
    forall colors,
      withBorderColorPaletteStyles "web" (Bool true) colors
        (Obj [("attributes", Obj [("style", Obj [("border", Obj [("width", Str "1px")])])])])
      = Ok out.
Proof.
  apply (palette_styles_without_names "web" (Bool true)
           (Obj [("attributes", Obj [("style", Obj [("border", Obj [("width", Str "1px")])])])])).
  - reflexivity.
  - reflexivity.
  - intros side _. reflexivity.
Defined.

(** ** The class name as a whole *)

Lemma getBorderClasses_border_tokens attributes :
  nullish attributes = false ->
  getBorderClasses attributes = Ok (String.concat " " (border_tokens attributes)).
Proof.
  intros Ha. rewrite (getBorderClasses_build _ Ha). unfold classnames. do 2 f_equal.
  rewrite class_tokens_build.
  - rewrite (class_tokens_build (facet_writes _ _ _) []);
      [|apply within_facet; reflexivity | intros e w []].
    rewrite (class_tokens_build (flat_map _ _) []);
      [|apply no_clash_sides | intros e w []].
    change (class_tokens []) with (@nil string). cbn [app].
    rewrite class_tokens_facet, class_tokens_sides. reflexivity.
  - apply unique_keys_no_clash. now apply unique_keys_build.
  - intros e w He Hw.
    destruct (in_build _ _ _ He) as [He'|[]].
    destruct (in_build _ _ _ Hw) as [Hw'|[]].
    destruct (in_flat_map_sides _ _ _ Hw') as (side & Hside & Hws).
    exact (flat_writes_cross _ _ _ _ _ _ _ Hside He' Hws).
Qed.

Lemma facet_tokens_nil context slug literal :
  facet_tokens context slug literal = [] <-> truthy (js_or slug literal) = false.
Proof.
  unfold facet_tokens, js_or. destruct (truthy slug) eqn:Hs.
  - rewrite Hs. cbn [app]. split; discriminate.
  - destruct (truthy literal); cbn [app]; split; congruence.
Qed.

Lemma facet_tokens_nonempty context slug literal t :
  In t (facet_tokens context slug literal) -> t <> "".
Proof.
  unfold facet_tokens. intros H. apply in_app_or in H.
  destruct H as [H|H];
    [destruct (truthy (js_or slug literal)) | destruct (truthy slug)];
    cbn [In] in H; try contradiction; destruct H as [<-|H]; try contradiction;
    cbn [String.append]; discriminate.
Qed.

Lemma border_tokens_nonempty attributes t : In t (border_tokens attributes) -> t <> "".
Proof.
  unfold border_tokens. intros H. apply in_app_or in H. destruct H as [H|H].
  - exact (facet_tokens_nonempty _ _ _ _ H).
  - apply in_flat_map in H. destruct H as (side & _ & H).
    exact (facet_tokens_nonempty _ _ _ _ H).
Qed.

Lemma flat_map_nil {A B} (f : A -> list B) l :
  flat_map f l = [] <-> forall x, In x l -> f x = [].
Proof.
  induction l as [|a l IH]; cbn [flat_map In].
  - split; [intros _ x []|reflexivity].
  - split.
    + intros H x [<-|Hx]; apply app_eq_nil in H; [tauto|]. now apply IH.
    + intros H. rewrite (H a (or_introl eq_refl)). cbn [app].
      apply IH. intros x Hx. apply H. now right.
Qed.

(** [getBorderClasses] returns the empty class name exactly when neither
    the flat border nor a side has a slug or a literal colour. *)
Theorem classes_empty_iff (attributes : value) :
  nullish attributes = false ->
  let border := get_opt (get_opt attributes "style") "border" in
  getBorderClasses attributes = Ok ""
  <-> truthy (js_or (get_opt attributes "borderColor") (get_opt border "color")) = false
      /\ forall side, In side borderSides ->
           truthy (js_or (get_opt (get_opt attributes "sideBorderColors") side)
                         (get_opt (get_opt border side) "color")) = false.
Proof.
  intros Ha border. rewrite (getBorderClasses_border_tokens _ Ha).
  assert (Hn : border_tokens attributes = []
               <-> truthy (js_or (get_opt attributes "borderColor")
                                 (get_opt border "color")) = false
                   /\ forall side, In side borderSides ->
                        truthy (js_or (get_opt (get_opt attributes "sideBorderColors") side)
                                      (get_opt (get_opt border side) "color")) = false).
  { unfold border_tokens. fold border. split.
    - intros H. apply app_eq_nil in H. destruct H as [H1 H2].
      split; [now apply facet_tokens_nil in H1|].
      intros side Hs. rewrite flat_map_nil in H2.
      exact (proj1 (facet_tokens_nil _ _ _) (H2 side Hs)).
    - intros [H1 H2]. rewrite (proj2 (facet_tokens_nil _ _ _) H1). cbn [app].
      apply flat_map_nil. intros side Hs. apply facet_tokens_nil. now apply H2. }
  rewrite <- Hn. split.
  - intros H. injection H as H.
    destruct (border_tokens attributes) as [|t ts] eqn:E; [reflexivity|].
    exfalso. apply (concat_cons_nonempty " " t ts); [|exact H].
    apply (border_tokens_nonempty attributes). rewrite E. now left.
  - intros ->. reflexivity.
Qed.

Lemma classes_empty_iff_witness :
  getBorderClasses
    (Obj [ ("borderColor", Str "");
           ("style", Obj [("border", Obj [("width", Str "2px"); ("radius", Str "4px")])]) ])
  = Ok "".
Proof.
  apply (classes_empty_iff
           (Obj [ ("borderColor", Str "");
                  ("style", Obj [("border", Obj [("width", Str "2px");
                                                 ("radius", Str "4px")])]) ])
           eq_refl).
  split; [reflexivity|]. intros side [<-|[<-|[<-|[<-|[]]]]]; reflexivity.
Defined.

Lemma border_tokens_merged base a b c :
  border_tokens (Obj (spread base (Obj [("style", a); ("borderColor", b);
                                        ("sideBorderColors", c)])))
  = border_tokens (Obj [("style", a); ("borderColor", b); ("sideBorderColors", c)]).
Proof.
  unfold border_tokens. cbn [spread entries fold_left fst snd].
  rewrite !update_style, !update_borderColor, !update_sideBorderColors.
  read_assigned. reflexivity.
Qed.

(** After an edit with a flat border, whatever attributes the update is
    merged into, the class name has the tokens of the flat colour alone:
    [has-border-color] when the new border has a colour, followed by the
    token of its slug when the palette has the colour under a slug, and
    no token of a side. *)
Theorem flat_edit_classes (style colors newBorder : value) (base : fields) :
  is_palette colors = true ->
  well_formed style = true ->
  well_formed newBorder = true ->
  is_record newBorder = true ->
  hasSplitBorders newBorder = false ->
  is_color (get_opt newBorder "color") = true ->
  exists update,
    onBorderChange style colors newBorder = Ok update
    /\ getBorderClasses (Obj (spread base update))
       = Ok (String.concat " "
               (facet_tokens "border-color"
                  (literal_slug colors (get_opt newBorder "color"))
                  (get_opt newBorder "color"))).
Proof.
  intros Hp Hs Hn Hr Hflat Hc. rewrite (onBorderChange_palette _ _ _ Hp).
  eexists. split; [reflexivity|].
  rewrite getBorderClasses_border_tokens by reflexivity.
  rewrite border_tokens_merged. do 2 f_equal.
  unfold border_tokens.
  rewrite !update_style, !update_borderColor, !update_sideBorderColors.
  rewrite (stored_flat_color _ _ _ Hs Hn Hflat).
  unfold edited_borderColor, edited_sideBorderColors. rewrite Hflat.
  rewrite (lookup_spread_record _ _ Hr Hn), (is_color_clean _ Hc).
  pose proof (well_formed_edited_styles colors _ Hn) as Hwe.
  assert (Hsides : forall side, In side borderSides ->
            facet_tokens ("border-" ++ side ++ "-color") (get_opt Undefined side)
              (get_opt (get_opt (get_opt (cleanEmptyObject
                 (style_with_border style (edited_styles colors newBorder))) "border")
                 side) "color") = []).
  { intros side Hside. rewrite (cleaned_border_lookup _ _ _ Hs Hwe).
    assert (Hk : has_key side (edited_styles colors newBorder) = false).
    { unfold edited_styles, flat_styles. rewrite Hflat, (spread_record _ Hr Hn).
      destruct (flat_has_no_side _ _ Hr Hflat Hside) as [Hk _].
      destruct (truthy (literal_slug colors (get_opt newBorder "color")));
        rewrite ?has_key_assign, ?Hk; [|reflexivity].
      rewrite String.eqb_sym, (side_is_not_color _ Hside). reflexivity. }
    rewrite Hk, (side_is_not_radius _ Hside). reflexivity. }
  rewrite (proj2 (flat_map_nil _ _) Hsides), app_nil_r.
  unfold facet_tokens, js_or.
  destruct (truthy (literal_slug colors (get_opt newBorder "color"))) eqn:E;
    rewrite ?E; reflexivity.
Qed.

Lemma flat_edit_classes_witness :
  exists update,
    onBorderChange Undefined theme_origins
      (Obj [("color", Str "#101010"); ("width", Str "1px")]) = Ok update
    /\ getBorderClasses (Obj (spread [("align", Str "wide")] update))
       = Ok "has-border-color".
Proof.
  destruct (flat_edit_classes Undefined theme_origins
              (Obj [("color", Str "#101010"); ("width", Str "1px")])
              [("align", Str "wide")] eq_refl eq_refl eq_refl eq_refl eq_refl eq_refl)
    as (update & Hu & Hc).
  exists update. split; [exact Hu|]. rewrite Hc. reflexivity.
Defined.

(** ** Removing twice *)

Lemma clean_fields_fixed fs : normalized (Obj fs) = true -> clean_fields fs = fs.
Proof.
  induction fs as [|[k x] fs IH]; [reflexivity|].
  cbn [normalized forallb snd]. intros H.
  apply andb_prop in H. destruct H as [H Hfs].
  apply andb_prop in H. destruct H as [H Hx].
  apply andb_prop in H. destruct H as [Hu He].
  apply negb_true_iff in Hu, He.
  rewrite clean_fields_cons, (cleanEmptyObject_normalized _ Hx He), Hu.
  f_equal. now apply IH.
Qed.

Lemma clean_fields_app l1 l2 :
  clean_fields (l1 ++ l2)%list = (clean_fields l1 ++ clean_fields l2)%list.
Proof.
  induction l1 as [|[k x] l1 IH]; [reflexivity|].
  cbn [app]. rewrite !clean_fields_cons, IH.
  now destruct (is_undefined (cleanEmptyObject x)).
Qed.

Lemma normalized_has_key fs k :
  normalized (Obj fs) = true -> lookup k fs = Undefined -> has_key k fs = false.
Proof.
  induction fs as [|[k' x] fs IH]; [reflexivity|].
  cbn [normalized forallb snd lookup]. unfold has_key. cbn [existsb fst]. intros H.
  apply andb_prop in H. destruct H as [H Hfs].
  apply andb_prop in H. destruct H as [H _].
  apply andb_prop in H. destruct H as [Hu _]. apply negb_true_iff in Hu.
  destruct (k' =? k).
  - intros ->. discriminate.
  - intros Hl. cbn [orb]. now apply IH.
Qed.

Lemma clean_fields_assign_same fs k v :
  normalized (Obj fs) = true ->
  has_key k fs = true ->
  cleanEmptyObject v = lookup k fs ->
  clean_fields (assign k v fs) = fs.
Proof.
  induction fs as [|[k' x] fs IH]; [discriminate|].
  intros Hn Hk Hv. pose proof Hn as Hn'.
  cbn [normalized forallb snd] in Hn.
  apply andb_prop in Hn. destruct Hn as [H Hfs].
  apply andb_prop in H. destruct H as [H Hx].
  apply andb_prop in H. destruct H as [Hu He].
  apply negb_true_iff in Hu, He.
  unfold has_key in Hk. cbn [existsb fst] in Hk. cbn [lookup] in Hv. cbn [assign].
  destruct (k' =? k) eqn:E.
  - apply String.eqb_eq in E. subst k'.
    rewrite clean_fields_cons, Hv, Hu. f_equal.
    now apply clean_fields_fixed.
  - cbn [orb] in Hk. rewrite clean_fields_cons, (cleanEmptyObject_normalized _ Hx He), Hu.
    f_equal. now apply IH.
Qed.

Lemma normalized_fields v fs :
  cleanEmptyObject v = Obj fs -> normalized (Obj fs) = true.
Proof. intros <-. apply normalized_clean. Qed.

(** Removing the same border attribute a second time changes nothing. *)
Theorem removeBorderAttribute_idempotent (style : value) (attribute : string) :
  well_formed style = true ->
  removeBorderAttribute (removeBorderAttribute style attribute) attribute
  = removeBorderAttribute style attribute.
Proof.
  intros Hw. unfold removeBorderAttribute at 2 3.
  pose proof (well_formed_get_opt _ "border" Hw) as Hwb.
  set (B := Obj (assign attribute Undefined (spread [] (get_opt style "border")))).
  assert (HwB : well_formed B = true).
  { apply well_formed_assign; [reflexivity|]. now apply well_formed_spread. }
  set (S1 := Obj (assign "border" B (spread [] style))).
  assert (HwS : well_formed S1 = true).
  { apply well_formed_assign; [exact HwB|]. now apply well_formed_spread. }
  destruct (cleanEmptyObject S1) as [| | b | s | xs | rfs] eqn:Hr;
    try (unfold S1 in Hr; rewrite cleanEmptyObject_fields in Hr;
         destruct (clean_fields _); discriminate).
  - unfold removeBorderAttribute. cbn [get_opt spread entries fold_left assign].
    rewrite cleanEmptyObject_fields, clean_fields_cons, cleanEmptyObject_fields,
      clean_fields_cons.
    reflexivity.
  - pose proof (normalized_fields _ _ Hr) as Hn.
    assert (Hwr : well_formed (Obj rfs) = true)
      by (rewrite <- Hr; now apply well_formed_clean).
    pose proof (well_formed_unique _ Hwr) as Hur.
    assert (Hb : lookup "border" rfs = cleanEmptyObject B).
    { change (lookup "border" rfs) with (get_opt (Obj rfs) "border").
      rewrite <- Hr, (get_opt_clean _ _ HwS). unfold S1.
      now rewrite get_opt_assign, String.eqb_refl. }
    assert (Hne : rfs <> []).
    { intros ->. unfold S1 in Hr. rewrite cleanEmptyObject_fields in Hr.
      destruct (clean_fields _); discriminate. }
    unfold removeBorderAttribute. rewrite (spread_object _ Hur). cbn [get_opt].
    rewrite Hb.
    destruct (cleanEmptyObject B) as [| | b | s | xs | bl] eqn:HB;
      try (unfold B in HB; rewrite cleanEmptyObject_fields in HB;
           destruct (clean_fields _); discriminate).
    + cbn [spread entries fold_left assign].
      rewrite (assign_fresh _ _ _ (normalized_has_key _ _ Hn Hb)).
      rewrite cleanEmptyObject_fields, clean_fields_app, (clean_fields_fixed _ Hn).
      rewrite clean_fields_cons, cleanEmptyObject_fields, clean_fields_cons.
      cbn [cleanEmptyObject is_undefined clean_fields]. rewrite app_nil_r.
      destruct rfs; [congruence | reflexivity].
    + pose proof (normalized_fields _ _ HB) as Hnb.
      assert (Hwl : well_formed (Obj bl) = true)
        by (rewrite <- HB; now apply well_formed_clean).
      assert (Ha : lookup attribute bl = Undefined).
      { change (lookup attribute bl) with (get_opt (Obj bl) attribute).
        rewrite <- HB, (get_opt_clean _ _ HwB). unfold B.
        now rewrite get_opt_assign, String.eqb_refl. }
      rewrite (spread_object _ (well_formed_unique _ Hwl)).
      rewrite (assign_fresh _ _ _ (normalized_has_key _ _ Hnb Ha)).
      rewrite cleanEmptyObject_fields.
      rewrite (clean_fields_assign_same rfs "border" _ Hn).
      * destruct rfs; [congruence | reflexivity].
      * destruct (has_key "border" rfs) eqn:K; [reflexivity|].
        rewrite (has_key_false_lookup _ _ K) in Hb. discriminate.
      * rewrite Hb, cleanEmptyObject_fields, clean_fields_app,
          (clean_fields_fixed _ Hnb), clean_fields_cons.
        cbn [cleanEmptyObject is_undefined clean_fields]. rewrite app_nil_r.
        destruct bl; [|reflexivity].
        unfold B in HB. rewrite cleanEmptyObject_fields in HB.
        destruct (clean_fields _); discriminate.
Qed.

Lemma removeBorderAttribute_idempotent_witness :
  removeBorderAttribute
    (removeBorderAttribute
       (Obj [ ("border", Obj [("width", Str "1px"); ("style", Str "solid")]);
              ("spacing", Obj [("margin", Str "0")]) ]) "width") "width"
  = removeBorderAttribute
      (Obj [ ("border", Obj [("width", Str "1px"); ("style", Str "solid")]);
             ("spacing", Obj [("margin", Str "0")]) ]) "width".
Proof.
  exact (removeBorderAttribute_idempotent
           (Obj [ ("border", Obj [("width", Str "1px"); ("style", Str "solid")]);
                  ("spacing", Obj [("margin", Str "0")]) ]) "width" eq_refl).
Defined.

(** ** When an edit reads the palette *)

Lemma getMultiOriginColor_no_array colors customColor :
  (forall os, colors <> Arr os) ->
  truthy customColor = true ->
  getMultiOriginColor colors Undefined customColor = TypeError.
Proof.
  intros Hc Ht. unfold getMultiOriginColor, customColorObject, getColorByProperty.
  cbn [truthy]. rewrite Ht. cbn [negb].
  destruct colors as [| | b | s | os | fs]; try reflexivity. now destruct (Hc os).
Qed.

Lemma nameSideColor_uncolored colors fs st side :
  truthy (get_opt (lookup side fs) "color") = false ->
  nameSideColor colors (Obj fs) st side = Ok st.
Proof. intros H. unfold nameSideColor. destruct st. cbn [get bind]. now rewrite H. Qed.

Lemma nameSideColor_no_array colors fs st side :
  (forall os, colors <> Arr os) ->
  truthy (get_opt (lookup side fs) "color") = true ->
  nameSideColor colors (Obj fs) st side = TypeError.
Proof.
  intros Hc H. unfold nameSideColor. destruct st. cbn [get bind]. rewrite H.
  now rewrite (getMultiOriginColor_no_array _ _ Hc H).
Qed.

(** An edit reads the palette only for a colour: when the new border has
    no truthy colour the update is the same whatever [colors] is, and
    when it has one and [colors] is not an array the edit raises a
    [TypeError]. *)
Theorem edit_reads_colors_iff_colored (style newBorder : value) :
  (uncolored newBorder = true ->
   exists update, forall colors, onBorderChange style colors newBorder = Ok update)
  /\ (uncolored newBorder = false ->
      forall colors, (forall os, colors <> Arr os) ->
        onBorderChange style colors newBorder = TypeError).
Proof.
  unfold uncolored, onBorderChange, filterNamedColors.
  destruct (hasSplitBorders newBorder) eqn:Hsplit.
  - destruct newBorder as [| | b | s | xs | fs]; try discriminate.
    cbn [get bind forallb borderSides get_opt forEach].
    destruct (truthy (get_opt (lookup "top" fs) "color")) eqn:Ht;
      [|destruct (truthy (get_opt (lookup "right" fs) "color")) eqn:Hr;
        [|destruct (truthy (get_opt (lookup "bottom" fs) "color")) eqn:Hb;
          [|destruct (truthy (get_opt (lookup "left" fs) "color")) eqn:Hl]]];
      cbn [negb andb]; (split; [intros H|intros H colors Hc]; try discriminate).
    + now rewrite (nameSideColor_no_array _ _ _ _ Hc Ht).
    + rewrite (nameSideColor_uncolored _ _ _ _ Ht). cbn [bind].
      now rewrite (nameSideColor_no_array _ _ _ _ Hc Hr).
    + rewrite (nameSideColor_uncolored _ _ _ _ Ht). cbn [bind].
      rewrite (nameSideColor_uncolored _ _ _ _ Hr). cbn [bind].
      now rewrite (nameSideColor_no_array _ _ _ _ Hc Hb).
    + rewrite (nameSideColor_uncolored _ _ _ _ Ht). cbn [bind].
      rewrite (nameSideColor_uncolored _ _ _ _ Hr). cbn [bind].
      rewrite (nameSideColor_uncolored _ _ _ _ Hb). cbn [bind].
      now rewrite (nameSideColor_no_array _ _ _ _ Hc Hl).
    + eexists. intros colors.
      rewrite (nameSideColor_uncolored _ _ _ _ Ht). cbn [bind].
      rewrite (nameSideColor_uncolored _ _ _ _ Hr). cbn [bind].
      rewrite (nameSideColor_uncolored _ _ _ _ Hb). cbn [bind].
      rewrite (nameSideColor_uncolored _ _ _ _ Hl). cbn [bind].
      reflexivity.
  - destruct (truthy (get_opt newBorder "color")) eqn:Ht; cbn [negb];
      (split; [intros H|intros H colors Hc]; try discriminate).
    + now rewrite (getMultiOriginColor_no_array _ _ Hc Ht).
    + eexists. intros colors. reflexivity.
Qed.

Lemma edit_reads_colors_iff_colored_witness :
  (exists update,
      forall colors,
        onBorderChange rounded_style colors
          (Obj [("top", Obj [("width", Str "1px")]); ("left", Obj [("style", Str "solid")])])
        = Ok update)
  /\ onBorderChange rounded_style Undefined
       (Obj [("top", Obj [("width", Str "1px")]); ("left", Obj [("color", Str "#000000")])])
     = TypeError.
Proof.
  split.
  - exact (proj1 (edit_reads_colors_iff_colored rounded_style
                    (Obj [("top", Obj [("width", Str "1px")]);
                          ("left", Obj [("style", Str "solid")])])) eq_refl).
  - apply (proj2 (edit_reads_colors_iff_colored rounded_style
                    (Obj [("top", Obj [("width", Str "1px")]);
                          ("left", Obj [("color", Str "#000000")])])) eq_refl).
    intros os. discriminate.
Defined.
